(** * Railway scheduling optimizer: model builder and solve pipeline

    A shallow embedding of the Python optimization service
    (optimizer/python_service/src): the data model of [models.py], the
    constraint registry of [constraint_models.py], the delay objective of
    [objectives.py] and the pipeline of [optimization_engine.py], together
    with the part of the OR-Tools CP-SAT interface the pipeline calls.

    Python values are modelled as the code has them: [int] as [Z], [float]
    as IEEE binary64 ([PrimFloat.float]), [str] as [string] with one
    character for each code point (the model takes them below 256),
    insertion ordered [dict]s as association lists, exceptions as values
    of an error monad, and the mutable [CpModel] as explicit state. *)

From Stdlib Require Import ZArith List String Ascii Bool Floats Lia DecimalString.
Import ListNotations.
Set Warnings "-inexact-float".
Open Scope Z_scope.

(* ===================================================================== *)
(** ** Python values *)
(* ===================================================================== *)

Module Py.

(** Exceptions carry the text [str(e)] shows. *)
Inductive exn : Type :=
| ValueError (msg : string)
| OverflowError (msg : string)
| ZeroDivisionError (msg : string)
| TypeError (msg : string)
| KeyError (msg : string)
| RuntimeError (msg : string).

Definition str_exn (e : exn) : string :=
  match e with
  | ValueError m | OverflowError m | ZeroDivisionError m
  | TypeError m | KeyError m | RuntimeError m => m
  end.

(** The outcome of an expression that may raise. *)
Inductive result (A : Type) : Type :=
| Ok (a : A)
| Raise (e : exn).
Arguments Ok {A} a.
Arguments Raise {A} e.

Definition rbind {A B} (r : result A) (k : A -> result B) : result B :=
  match r with
  | Ok a => k a
  | Raise e => Raise e
  end.

(** [try: c  except Exception as e: h e] *)
Definition rcatch {A} (r : result A) (h : exn -> result A) : result A :=
  match r with
  | Ok a => Ok a
  | Raise e => h e
  end.

Fixpoint rmap {A B} (f : A -> result B) (l : list A) : result (list B) :=
  match l with
  | [] => Ok []
  | x :: xs =>
      rbind (f x) (fun y => rbind (rmap f xs) (fun ys => Ok (y :: ys)))
  end.

(** *** Numbers *)

(** [float(z)]: round to nearest even; too large an [int] raises. *)
Definition float_of_int (z : Z) : result float :=
  let f := SF2Prim (binary_normalize prec emax z 0 false) in
  if is_infinity f
  then Raise (OverflowError "int too large to convert to float")
  else Ok f.

(** [int(f)]: truncation toward zero; NaN and the infinities raise. *)
Definition int_of_float (f : float) : result Z :=
  match Prim2SF f with
  | S754_zero _ => Ok 0
  | S754_finite s m e =>
      let a := Z.shiftl (Zpos m) e in
      Ok (if s then - a else a)
  | S754_infinity _ =>
      Raise (OverflowError "cannot convert float infinity to integer")
  | S754_nan =>
      Raise (ValueError "cannot convert float NaN to integer")
  end.

(** A Python number is an [int] or a [float]; the two mix in arithmetic. *)
Inductive number : Type :=
| Int (z : Z)
| Float (f : float).

Definition to_float (x : number) : result float :=
  match x with
  | Int z => float_of_int z
  | Float f => Ok f
  end.

(** [bool(x)]: zero is falsy, NaN is truthy. *)
Definition truthy (x : number) : bool :=
  match x with
  | Int z => negb (z =? 0)
  | Float f => negb (PrimFloat.eqb f 0)
  end.

(** [a < b]. An [int] meets a [float] through its conversion, which is
    exact below 2^53; the code only compares floats with 0, 80 and 100. *)
Definition lt (a b : number) : bool :=
  match a, b with
  | Int x, Int y => x <? y
  | Float x, Float y => PrimFloat.ltb x y
  | Int x, Float y =>
      PrimFloat.ltb (SF2Prim (binary_normalize prec emax x 0 false)) y
  | Float x, Int y =>
      PrimFloat.ltb x (SF2Prim (binary_normalize prec emax y 0 false))
  end.

(** [min(a, b)] keeps [a] unless [b < a]; [max(a, b)] keeps [a] unless
    [b > a]. *)
Definition min (a b : number) : number := if lt b a then b else a.
Definition max (a b : number) : number := if lt a b then b else a.

(** [a / b], true division: always a [float]. On two [int]s Python rounds
    the exact quotient once; dividing the converted operands agrees with
    it while both are below 2^53. A zero divisor raises, after the
    operands of a mixed division have been converted. *)
Definition truediv (a b : number) : result number :=
  match a, b with
  | Int x, Int y =>
      if y =? 0 then Raise (ZeroDivisionError "division by zero")
      else
        rbind (float_of_int x) (fun fa =>
        rbind (float_of_int y) (fun fb =>
        Ok (Float (fa / fb)%float)))
  | _, _ =>
      rbind (to_float a) (fun fa =>
      rbind (to_float b) (fun fb =>
      if PrimFloat.eqb fb 0
      then Raise (ZeroDivisionError "float division by zero")
      else Ok (Float (fa / fb)%float)))
  end.

Definition mul (a b : number) : result number :=
  match a, b with
  | Int x, Int y => Ok (Int (x * y))
  | _, _ =>
      rbind (to_float a) (fun fa =>
      rbind (to_float b) (fun fb =>
      Ok (Float (fa * fb)%float)))
  end.

Definition add (a b : number) : result number :=
  match a, b with
  | Int x, Int y => Ok (Int (x + y))
  | _, _ =>
      rbind (to_float a) (fun fa =>
      rbind (to_float b) (fun fb =>
      Ok (Float (fa + fb)%float)))
  end.

Definition abs (a : number) : number :=
  match a with
  | Int x => Int (Z.abs x)
  | Float f => Float (PrimFloat.abs f)
  end.

(** [int(x)] *)
Definition int (x : number) : result Z :=
  match x with
  | Int z => Ok z
  | Float f => int_of_float f
  end.

(** *** Strings *)

(** [str(z)] for an [int]. *)
Definition str_int (z : Z) : string := NilZero.string_of_int (Z.to_int z).

(** [needle in haystack] *)
Fixpoint contains (needle haystack : string) : bool :=
  if String.prefix needle haystack then true
  else
    match haystack with
    | EmptyString => false
    | String _ rest => contains needle rest
    end.

(** [s.split(sep)] for a one-character separator. *)
Fixpoint split_aux (sep : ascii) (s : string) (cur : string) : list string :=
  match s with
  | EmptyString => [cur]
  | String c rest =>
      if Ascii.eqb c sep
      then cur :: split_aux sep rest EmptyString
      else split_aux sep rest (cur ++ String c EmptyString)%string
  end.

Definition split (sep : ascii) (s : string) : list string :=
  split_aux sep s EmptyString.

(** White space as [str.isspace] and [str.strip] have it. A [string]
    holds the code points of a [str], which the model takes below 256:
    there the white space is TAB to CR, FS to US, the space, NEL (U+0085)
    and the no-break space (U+00A0). *)
Definition isspace (c : ascii) : bool :=
  let n := nat_of_ascii c in
  ((9 <=? n) && (n <=? 13) || (28 <=? n) && (n <=? 32)
   || (n =? 133) || (n =? 160))%nat.

Fixpoint lstrip (s : string) : string :=
  match s with
  | EmptyString => EmptyString
  | String c rest => if isspace c then lstrip rest else s
  end.

Fixpoint rstrip (s : string) : string :=
  match s with
  | EmptyString => EmptyString
  | String c rest =>
      match rstrip rest with
      | EmptyString => if isspace c then EmptyString else String c EmptyString
      | r => String c r
      end
  end.

(** [s.strip()] *)
Definition strip (s : string) : string := rstrip (lstrip s).

(** *** Insertion-ordered dictionaries with [str] keys *)

Definition dict (V : Type) : Type := list (string * V).

Fixpoint get {V} (d : dict V) (k : string) : option V :=
  match d with
  | [] => None
  | (k', v) :: rest => if String.eqb k' k then Some v else get rest k
  end.

(** [d[k] = v]: an existing key keeps its place. *)
Fixpoint set {V} (d : dict V) (k : string) (v : V) : dict V :=
  match d with
  | [] => [(k, v)]
  | (k', v') :: rest =>
      if String.eqb k' k then (k, v) :: rest else (k', v') :: set rest k v
  end.

Definition keys {V} (d : dict V) : list string := List.map fst d.

(** [k in d] *)
Definition mem {V} (d : dict V) (k : string) : bool :=
  match get d k with
  | Some _ => true
  | None => false
  end.

(** [d[k]], raising [KeyError] on a missing key. *)
Definition getitem {V} (d : dict V) (k : string) : result V :=
  match get d k with
  | Some v => Ok v
  | None => Raise (KeyError k)
  end.

(** [len(l)] *)
Definition len {A} (l : list A) : Z := Z.of_nat (List.length l).

(** [range(n)] and [range(a, b, step)] for a positive step. *)
Definition range (n : Z) : list Z :=
  List.map Z.of_nat (seq 0 (Z.to_nat n)).

Definition range3 (a b step : Z) : list Z :=
  List.map (fun k => a + Z.of_nat k * step)
           (seq 0 (Z.to_nat ((b - a + step - 1) / step))).

(** [enumerate(l)] *)
Definition enumerate {A} (l : list A) : list (Z * A) :=
  List.combine (List.map Z.of_nat (seq 0 (List.length l))) l.

(** [sum(l)] of [int]s. *)
Definition sum (l : list Z) : Z := List.fold_left Z.add l 0.

(** *** Naive datetimes

    A [datetime] is its number of microseconds since 0001-01-01T00:00:00,
    a [timedelta] a signed number of microseconds. Both types are
    bounded, and arithmetic leaving the bounds raises [OverflowError]. *)

Definition datetime : Type := Z.
Definition timedelta : Type := Z.

Definition datetime_max : Z := 315537897599999999.
Definition timedelta_max : Z := 86399999999999999999.
Definition timedelta_min : Z := -86399999913600000000.

(** [timedelta(minutes=m)] *)
Definition timedelta_minutes (m : Z) : result timedelta :=
  let us := m * 60000000 in
  if (timedelta_min <=? us) && (us <=? timedelta_max)
  then Ok us
  else Raise (OverflowError "days out of range for timedelta").

(** [dt + td] *)
Definition datetime_add (dt : datetime) (td : timedelta) : result datetime :=
  let r := dt + td in
  if (0 <=? r) && (r <=? datetime_max)
  then Ok r
  else Raise (OverflowError "date value out of range").

(** [a - b] on datetimes *)
Definition datetime_sub (a b : datetime) : timedelta := a - b.

(** An [int] as an exact binary number. *)
Definition exact_int (z : Z) : spec_float :=
  match z with
  | 0 => S754_zero false
  | Zpos p => S754_finite false p 0
  | Zneg p => S754_finite true p 0
  end.

(** [td.total_seconds()]: the microseconds divided by [10**6] as two
    [int]s, the exact quotient rounded once to the nearest [float]. *)
Definition total_seconds (td : timedelta) : result float :=
  Ok (SF2Prim (SFdiv prec emax (exact_int td) (exact_int 1000000))).

(** A value that the code takes for a [str] while the data model declares
    an [Enum]: dataclasses do not check field types. The members of a
    plain [Enum] are not equal to their names, so a member is never found
    among [str] keys and never equals a [str] literal. *)
Inductive enum_or_str (E : Type) : Type :=
| Member (e : E)
| Str (s : string).
Arguments Member {E} e.
Arguments Str {E} s.

(** [x == s] for a [str] literal [s] *)
Definition eq_str {E} (x : enum_or_str E) (s : string) : bool :=
  match x with
  | Member _ => false
  | Str s' => String.eqb s' s
  end.

(** [table.get(x, default)] for a table with [str] keys *)
Definition get_default {E V} (table : dict V) (x : enum_or_str E) (default : V) : V :=
  match x with
  | Member _ => default
  | Str s =>
      match get table s with
      | Some v => v
      | None => default
      end
  end.

(** [x in table] for a table with [str] keys *)
Definition mem_str {E V} (table : dict V) (x : enum_or_str E) : bool :=
  match x with
  | Member _ => false
  | Str s => mem table s
  end.

End Py.

Notation "x <-? e ;; k" := (Py.rbind e (fun x => k))
  (at level 61, e at next level, right associativity).

(* ===================================================================== *)
(** ** The CP-SAT interface ([ortools.sat.python.cp_model])

    The part of the solver library the service calls: integer variables
    with interval domains, linear expressions, comparisons with optional
    enforcement literals, Boolean clauses and the objective. A [CpModel]
    is mutable; building it is a state monad over the model in which a
    raised exception leaves the mutations made so far in place. Of the
    library's 64-bit range checks, the one on the constants of a linear
    constraint is modelled; the bounds of a variable are not checked. *)
(* ===================================================================== *)

Module cp_model.
Import Py.

(** A variable is known by its index in the model. *)
Definition IntVar : Type := nat.

Inductive LinearExpr : Type :=
| Var (v : IntVar)
| Const (c : Z)
| Sum (a b : LinearExpr)
| Sub (a b : LinearExpr)
| Prod (a : LinearExpr) (c : Z).

(** [b] and [b.Not()] *)
Inductive Literal : Type :=
| Pos (b : IntVar)
| Not (b : IntVar).

Inductive relation : Type := EQ | NE | LE | LT | GE | GT.

(** [lhs op rhs], what comparing linear expressions builds. *)
Record BoundedLinearExpression : Type := Cmp {
  lhs : LinearExpr;
  op : relation;
  rhs : LinearExpr
}.

Inductive Constraint : Type :=
| Linear (c : BoundedLinearExpression) (enforce : list Literal)
| BoolOr (literals : list Literal) (enforce : list Literal)
| BoolAnd (literals : list Literal) (enforce : list Literal)
| MaxEquality (target : LinearExpr) (exprs : list LinearExpr).

Inductive Objective : Type :=
| Minimizing (e : LinearExpr)
| Maximizing (e : LinearExpr).

Record CpModel : Type := {
  variables : list (string * (Z * Z));   (* name, lower and upper bound *)
  constraints : list Constraint;
  objective : option Objective
}.

(** [cp_model.CpModel()] *)
Definition empty : CpModel :=
  {| variables := []; constraints := []; objective := None |}.

(** *** Building *)

Definition M (A : Type) : Type := CpModel -> result A * CpModel.

Definition ret {A} (a : A) : M A := fun m => (Ok a, m).

Definition bind {A B} (c : M A) (k : A -> M B) : M B :=
  fun m =>
    match c m with
    | (Ok a, m') => k a m'
    | (Raise e, m') => (Raise e, m')
    end.

Definition raise {A} (e : exn) : M A := fun m => (Raise e, m).

Definition lift {A} (r : result A) : M A := fun m => (r, m).

(** [try: c  except Exception as e: h e] *)
Definition catch {A} (c : M A) (h : exn -> M A) : M A :=
  fun m =>
    match c m with
    | (Ok a, m') => (Ok a, m')
    | (Raise e, m') => h e m'
    end.

(** [for x in l: body x] *)
Fixpoint for_each {A} (l : list A) (body : A -> M unit) : M unit :=
  match l with
  | [] => ret tt
  | x :: xs => bind (body x) (fun _ => for_each xs body)
  end.

(** A loop that updates local values of type [S] as it goes. *)
Fixpoint for_fold {A S} (l : list A) (s : S) (body : S -> A -> M S) : M S :=
  match l with
  | [] => ret s
  | x :: xs => bind (body s x) (fun s' => for_fold xs s' body)
  end.

(** [for i, x in enumerate(l): for j, y in enumerate(l[i+1:], i+1): body x y] *)
Fixpoint for_pairs {A} (l : list A) (body : A -> A -> M unit) : M unit :=
  match l with
  | [] => ret tt
  | x :: xs => bind (for_each xs (body x)) (fun _ => for_pairs xs body)
  end.

Definition add_variable (name : string) (lb ub : Z) : M IntVar :=
  fun m =>
    (Ok (List.length (variables m)),
     {| variables := variables m ++ [(name, (lb, ub))];
        constraints := constraints m;
        objective := objective m |}).

Definition add_constraint (c : Constraint) : M unit :=
  fun m =>
    (Ok tt,
     {| variables := variables m;
        constraints := constraints m ++ [c];
        objective := objective m |}).

Definition set_objective (o : Objective) : M unit :=
  fun m =>
    (Ok tt,
     {| variables := variables m;
        constraints := constraints m;
        objective := Some o |}).

(** [model.NewIntVar(lb, ub, name)] *)
Definition NewIntVar (lb ub : Z) (name : string) : M IntVar :=
  add_variable name lb ub.

(** [model.NewBoolVar(name)] *)
Definition NewBoolVar (name : string) : M IntVar :=
  add_variable name 0 1.

(** The library keeps the constants of a linear constraint in signed
    64-bit integers. *)
Definition int64_min : Z := -9223372036854775808.
Definition int64_max : Z := 9223372036854775807.

Definition is_int64 (z : Z) : bool := (int64_min <=? z) && (z <=? int64_max).

Fixpoint fits_int64 (e : LinearExpr) : bool :=
  match e with
  | Var _ => true
  | Const c => is_int64 c
  | Sum a b | Sub a b => fits_int64 a && fits_int64 b
  | Prod a c => fits_int64 a && is_int64 c
  end.

Definition representable (ct : BoundedLinearExpression) : bool :=
  fits_int64 (lhs ct) && fits_int64 (rhs ct).

(** [model.Add(ct)]: a constant outside the 64-bit range makes the
    library raise, and nothing is added. The type and the text of the
    exception are the library's and vary with its version. *)
Definition Add (ct : BoundedLinearExpression) : M unit :=
  if representable ct then add_constraint (Linear ct [])
  else raise (OverflowError "integer outside the 64-bit range").

(** [model.Add(ct).OnlyEnforceIf(lits)]; [model.Add(ct)] raises before
    the literals are looked at. *)
Definition AddOnlyEnforceIf (ct : BoundedLinearExpression) (lits : list Literal) : M unit :=
  if representable ct then add_constraint (Linear ct lits)
  else raise (OverflowError "integer outside the 64-bit range").

(** What the code hands to [AddBoolOr] and [AddBoolAnd]: the library
    takes Boolean literals and raises [TypeError] on anything else, such
    as a comparison. It makes the constraint before it reads the
    arguments, so that the raise leaves a constraint without literals in
    the model, as ortools 9.15 does: an empty disjunction, which nothing
    satisfies, or an empty conjunction. The raise comes before
    [OnlyEnforceIf] is reached. *)
Inductive BoolArg : Type :=
| Lit (l : Literal)
| Bounded (ct : BoundedLinearExpression).

Fixpoint literals_of (args : list BoolArg) : option (list Literal) :=
  match args with
  | [] => Some []
  | Lit l :: rest =>
      match literals_of rest with
      | Some ls => Some (l :: ls)
      | None => None
      end
  | Bounded _ :: _ => None
  end.

(** [model.AddBoolOr(args)] and [model.AddBoolOr(args).OnlyEnforceIf(lits)] *)
Definition AddBoolOrOnlyEnforceIf (args : list BoolArg) (lits : list Literal) : M unit :=
  match literals_of args with
  | Some ls => add_constraint (BoolOr ls lits)
  | None =>
      bind (add_constraint (BoolOr [] []))
           (fun _ => raise (TypeError "not supported: model.GetOrMakeBooleanIndex"))
  end.

Definition AddBoolOr (args : list BoolArg) : M unit :=
  AddBoolOrOnlyEnforceIf args [].

(** [model.AddBoolAnd(args).OnlyEnforceIf(lits)] *)
Definition AddBoolAndOnlyEnforceIf (args : list BoolArg) (lits : list Literal) : M unit :=
  match literals_of args with
  | Some ls => add_constraint (BoolAnd ls lits)
  | None =>
      bind (add_constraint (BoolAnd [] []))
           (fun _ => raise (TypeError "not supported: model.GetOrMakeBooleanIndex"))
  end.

(** [model.AddMaxEquality(target, exprs)] *)
Definition AddMaxEquality (target : LinearExpr) (exprs : list LinearExpr) : M unit :=
  add_constraint (MaxEquality target exprs).

(** [model.Minimize(e)] and [model.Maximize(e)] *)
Definition Minimize (e : LinearExpr) : M unit := set_objective (Minimizing e).
Definition Maximize (e : LinearExpr) : M unit := set_objective (Maximizing e).

(** [sum(terms)] of linear expressions: [0 + t1 + t2 + ...] *)
Definition sum (terms : list LinearExpr) : LinearExpr :=
  List.fold_left Sum terms (Const 0).

(** *** Meaning *)

(** What [solver.Value] answers for every variable. *)
Definition assignment : Type := IntVar -> Z.

Fixpoint eval (a : assignment) (e : LinearExpr) : Z :=
  match e with
  | Var v => a v
  | Const c => c
  | Sum x y => eval a x + eval a y
  | Sub x y => eval a x - eval a y
  | Prod x c => eval a x * c
  end.

Definition compare (r : relation) (x y : Z) : bool :=
  match r with
  | EQ => x =? y
  | NE => negb (x =? y)
  | LE => x <=? y
  | LT => x <? y
  | GE => y <=? x
  | GT => y <? x
  end.

Definition bounded_holds (a : assignment) (ct : BoundedLinearExpression) : bool :=
  compare (op ct) (eval a (lhs ct)) (eval a (rhs ct)).

(** A literal [b] is true when [b = 1], [b.Not()] when [1 - b = 1]. *)
Definition literal_true (a : assignment) (l : Literal) : bool :=
  match l with
  | Pos b => a b =? 1
  | Not b => 1 - a b =? 1
  end.

Definition enforced (a : assignment) (lits : list Literal) : bool :=
  forallb (literal_true a) lits.

Definition holds (a : assignment) (c : Constraint) : bool :=
  match c with
  | Linear ct lits => implb (enforced a lits) (bounded_holds a ct)
  | BoolOr ls lits => implb (enforced a lits) (existsb (literal_true a) ls)
  | BoolAnd ls lits => implb (enforced a lits) (forallb (literal_true a) ls)
  | MaxEquality t es =>
      existsb (fun e => eval a t =? eval a e) es
      && forallb (fun e => eval a e <=? eval a t) es
  end.

Definition in_domain (a : assignment) (iv : nat * (string * (Z * Z))) : bool :=
  let '(v, (_, (lb, ub))) := iv in (lb <=? a v) && (a v <=? ub).

Definition indexed {A} (l : list A) : list (nat * A) :=
  List.combine (seq 0 (List.length l)) l.

(** [a] is a solution of [m]: every variable lies in its domain and
    every constraint holds. *)
Definition is_solution (m : CpModel) (a : assignment) : bool :=
  forallb (in_domain a) (indexed (variables m))
  && forallb (holds a) (constraints m).

(** *** Solving *)

(** [cp_model.UNKNOWN], ..., [cp_model.OPTIMAL], with their codes. *)
Inductive CpSolverStatus : Type :=
| UNKNOWN
| MODEL_INVALID
| FEASIBLE
| INFEASIBLE
| OPTIMAL.

Definition status_code (s : CpSolverStatus) : Z :=
  match s with
  | UNKNOWN => 0
  | MODEL_INVALID => 1
  | FEASIBLE => 2
  | INFEASIBLE => 3
  | OPTIMAL => 4
  end.

Inductive SearchBranching : Type :=
| AUTOMATIC_SEARCH
| FIXED_SEARCH
| PORTFOLIO_SEARCH.

(** [solver.parameters], the fields the service sets. *)
Record SatParameters : Type := {
  max_time_in_seconds : Z;
  num_search_workers : Z;
  log_search_progress : bool;
  search_branching : SearchBranching
}.

(** [solver.Solve(model)] followed by [solver.Value]: the call raises, or
    it answers a status and the values of the variables. *)
Definition CpSolver : Type :=
  SatParameters -> CpModel -> result (CpSolverStatus * assignment).

(** The library's contract: a status of [OPTIMAL] or [FEASIBLE] comes
    with a solution of the model. *)
Definition sound (solve : CpSolver) : Prop :=
  forall p m st a,
    solve p m = Ok (st, a) ->
    st = OPTIMAL \/ st = FEASIBLE ->
    is_solution m a = true.

(** A solver that proposes one candidate and checks it. *)
Definition checking_solver (candidate : assignment) : CpSolver :=
  fun _ m =>
    if is_solution m candidate
    then Ok (FEASIBLE, candidate)
    else Ok (UNKNOWN, candidate).

End cp_model.

Notation "x <- e ;; k" := (cp_model.bind e (fun x => k))
  (at level 61, e at next level, right associativity).
Notation "e ;; k" := (cp_model.bind e (fun _ => k))
  (at level 61, right associativity).

(* ===================================================================== *)
(** ** The data model ([models.py]) *)
(* ===================================================================== *)

Module OptimizationStatus.
Inductive t : Type :=
| OPTIMAL
| FEASIBLE
| INFEASIBLE
| UNKNOWN
| TIME_LIMIT_EXCEEDED
| ERROR.
End OptimizationStatus.

Module TrainType.
Inductive t : Type :=
| PASSENGER
| EXPRESS
| FREIGHT
| MAIL
| MAINTENANCE
| EMPTY.
End TrainType.

Module TrainPriority.
Inductive t : Type :=
| EMERGENCY
| EXPRESS
| MAIL
| PASSENGER
| FREIGHT
| MAINTENANCE.

(** The member's name, which is also its value. *)
Definition name (p : t) : string :=
  match p with
  | EMERGENCY => "EMERGENCY"
  | EXPRESS => "EXPRESS"
  | MAIL => "MAIL"
  | PASSENGER => "PASSENGER"
  | FREIGHT => "FREIGHT"
  | MAINTENANCE => "MAINTENANCE"
  end.
End TrainPriority.

Module ObjectiveType.
Inductive t : Type :=
| MINIMIZE_DELAY
| MAXIMIZE_THROUGHPUT
| MINIMIZE_ENERGY_CONSUMPTION
| MAXIMIZE_UTILIZATION
| MINIMIZE_CONFLICTS
| BALANCED_OPTIMAL.
End ObjectiveType.

Module ConstraintType.
Inductive t : Type :=
| SAFETY_DISTANCE
| PLATFORM_CAPACITY
| TRAIN_PRIORITY
| MAINTENANCE_WINDOW
| SPEED_LIMIT
| CROSSING_TIME
| SIGNAL_SPACING
| ENERGY_EFFICIENCY
| PASSENGER_TRANSFER.
End ConstraintType.

Module TrainCharacteristics.
Record t : Type := mk {
  acceleration_ms2 : float;
  deceleration_ms2 : float;
  power_kw : float;
  weight_tons : float;
  passenger_load_percent : Z;
  is_electric : bool;
  required_platforms : list string
}.

(** [TrainCharacteristics()] *)
Definition default : t :=
  mk 1.0 1.2 2000.0 400.0 70 true [].
End TrainCharacteristics.

Module Train.
(** [priority] is declared a [TrainPriority]; the engine reads it as a
    [str]. [characteristics] is the value after [__post_init__], which
    replaces [None] by the defaults. *)
Record t : Type := mk {
  id : string;
  train_number : Z;
  train_type : TrainType.t;
  priority : Py.enum_or_str TrainPriority.t;
  capacity_passengers : Z;
  length_meters : float;
  max_speed_kmh : float;
  scheduled_departure : Py.datetime;
  scheduled_arrival : Py.datetime;
  origin_station : string;
  destination_station : string;
  route_sections : list string;
  characteristics : TrainCharacteristics.t
}.
End Train.

Module Constraint.
Record t : Type := mk {
  id : string;
  type : Py.enum_or_str ConstraintType.t;
  priority : Z;
  parameters : Py.dict string;
  is_hard_constraint : bool
}.
End Constraint.

Module WeightedObjective.
Record t : Type := mk {
  objective : Py.enum_or_str ObjectiveType.t;
  weight : float
}.
End WeightedObjective.

Module OptimizationObjective.
Record t : Type := mk {
  primary_objective : Py.enum_or_str ObjectiveType.t;
  secondary_objectives : list WeightedObjective.t;
  time_limit_seconds : float;
  enable_preprocessing : bool
}.
End OptimizationObjective.

Module OptimizationConfig.
Record t : Type := mk {
  max_solver_time_seconds : Z;
  enable_preprocessing : bool;
  num_search_workers : Z;
  strategy : string;
  enable_detailed_logging : bool
}.

(** [OptimizationConfig()] *)
Definition default : t := mk 30 true 4 "AUTOMATIC" false.
End OptimizationConfig.

Module DisruptionEvent.
Record t : Type := mk {
  id : string;
  type : string;
  affected_section : string;
  start_time : Py.datetime;
  end_time : Py.datetime;
  severity : Z;
  metadata : Py.dict string
}.
End DisruptionEvent.

Module OptimizationRequest.
Record t : Type := mk {
  request_id : string;
  section_id : string;
  time_horizon_minutes : Z;
  trains : list Train.t;
  constraints : list Constraint.t;
  objective : OptimizationObjective.t;
  disruptions : list DisruptionEvent.t;
  requested_at : Py.datetime;
  config : OptimizationConfig.t
}.
End OptimizationRequest.

Module SpeedProfilePoint.
Record t : Type := mk {
  position_km : Py.number;
  speed_kmh : Py.number;
  time_offset_minutes : Py.number
}.
End SpeedProfilePoint.

Module TrainScheduleEntry.
Record t : Type := mk {
  train_id : string;
  train_number : Z;
  scheduled_departure : Py.datetime;
  scheduled_arrival : Py.datetime;
  platform : Z;
  priority_applied : Py.enum_or_str TrainPriority.t;
  delay_adjustment_minutes : Z;
  conflicts_resolved : list string;
  speed_profile : list SpeedProfilePoint.t
}.
End TrainScheduleEntry.

Module PerformanceMetrics.
Record t : Type := mk {
  total_delay_minutes : Py.number;
  average_delay_per_train : Py.number;
  conflicts_resolved : Z;
  throughput_trains_per_hour : Py.number;
  utilization_percent : Py.number;
  energy_consumption_kwh : Py.number;
  platform_changes : Z;
  passenger_waiting_time_minutes : Py.number
}.

(** [PerformanceMetrics()] *)
Definition default : t :=
  mk (Py.Float 0.0) (Py.Float 0.0) 0 (Py.Float 0.0) (Py.Float 0.0)
     (Py.Float 0.0) 0 (Py.Float 0.0).
End PerformanceMetrics.

Module AlternativeSchedule.
Record t : Type := mk {
  name : string;
  description : string;
  schedule : list TrainScheduleEntry.t;
  kpis : PerformanceMetrics.t;
  trade_offs : string;
  score : float
}.
End AlternativeSchedule.

Module OptimizationResponse.
Record t : Type := mk {
  request_id : string;
  status : OptimizationStatus.t;
  optimized_schedule : list TrainScheduleEntry.t;
  kpis : PerformanceMetrics.t;
  reasoning : string;
  confidence_score : float;
  alternatives : list AlternativeSchedule.t;
  execution_time_ms : Z;
  completed_at : Py.datetime;
  error_message : string
}.
End OptimizationResponse.

(* ===================================================================== *)
(** ** What a run reads from outside the program *)
(* ===================================================================== *)

Module Environment.
(** The built-in parsers [int(s)] and [float(s)] on strings, the CP-SAT
    solver, and the two clock readings a response records:
    [int((time.time() - start_time) * 1000)] and [datetime.utcnow()]. *)
Record t : Type := mk {
  int_of_str : string -> Py.result Z;
  float_of_str : string -> Py.result float;
  Solve : cp_model.CpSolver;
  elapsed_ms : Z;
  utcnow : Py.datetime
}.
End Environment.

(** The [variables] dictionary the engine builds and every stage reads. *)
Module Variables.
Record t : Type := mk {
  train_start_times : Py.dict cp_model.IntVar;
  train_end_times : Py.dict cp_model.IntVar;
  platform_assignments : Py.dict cp_model.IntVar;
  train_delays : Py.dict cp_model.IntVar;
  section_occupancy : Py.dict cp_model.IntVar;
  speed_variables : Py.dict cp_model.IntVar
}.

Definition empty : t := mk [] [] [] [] [] [].
End Variables.

(* ===================================================================== *)
(** ** The constraint registry ([constraint_models.py]) *)
(* ===================================================================== *)

Module ConstraintBuilder.
Import Py cp_model.
Local Open Scope string_scope.

Section Handlers.

Variable env : Environment.t.

(** [int(parameters.get(key, default))] *)
Definition int_parameter (parameters : dict string) (key : string) (default : Z) : result Z :=
  match get parameters key with
  | Some s => Environment.int_of_str env s
  | None => Ok default
  end.

(** [float(parameters.get(key, default))] *)
Definition float_parameter (parameters : dict string) (key : string) (default : number) : result float :=
  match get parameters key with
  | Some s => Environment.float_of_str env s
  | None => to_float default
  end.

(** [parameters.get(key, default)] *)
Definition str_parameter (parameters : dict string) (key : string) (default : string) : string :=
  match get parameters key with
  | Some s => s
  | None => default
  end.

Definition _add_safety_distance_constraint (variables : Variables.t) (constraint : Constraint.t) : M unit :=
  min_distance_seconds <-
    lift (int_parameter (Constraint.parameters constraint) "min_distance_seconds" 300) ;;
  let trains := keys (Variables.train_start_times variables) in
  for_pairs trains (fun train1 train2 =>
    train1_first <- NewBoolVar ("safety_order_" ++ train1 ++ "_" ++ train2) ;;
    start1 <- lift (getitem (Variables.train_start_times variables) train1) ;;
    start2 <- lift (getitem (Variables.train_start_times variables) train2) ;;
    end1 <- lift (getitem (Variables.train_end_times variables) train1) ;;
    end2 <- lift (getitem (Variables.train_end_times variables) train2) ;;
    AddOnlyEnforceIf
      (Cmp (Var start2) GE (Sum (Var end1) (Const (min_distance_seconds / 60))))
      [Pos train1_first] ;;
    AddOnlyEnforceIf
      (Cmp (Var start1) GE (Sum (Var end2) (Const (min_distance_seconds / 60))))
      [Not train1_first]).

(** The set [platforms] the source collects first is never read. *)
Definition _add_platform_capacity_constraint (variables : Variables.t) (constraint : Constraint.t) : M unit :=
  max_capacity <-
    lift (int_parameter (Constraint.parameters constraint) "max_trains_per_platform" 1) ;;
  let station_id := str_parameter (Constraint.parameters constraint) "station_id" "default" in
  let time_horizon := 120 in
  for_each (range3 0 time_horizon 15) (fun t =>
    for_each (range3 1 11 1) (fun platform =>
      trains_on_platform <-
        for_fold (keys (Variables.train_start_times variables)) ([] : list IntVar)
          (fun trains_on_platform train_id =>
            platform_var <- lift (getitem (Variables.platform_assignments variables) train_id) ;;
            start_var <- lift (getitem (Variables.train_start_times variables) train_id) ;;
            end_var <- lift (getitem (Variables.train_end_times variables) train_id) ;;
            on_platform_at_t <-
              NewBoolVar ("on_platform_" ++ train_id ++ "_" ++ str_int platform ++ "_" ++ str_int t) ;;
            platform_match <-
              NewBoolVar ("platform_match_" ++ train_id ++ "_" ++ str_int platform ++ "_" ++ str_int t) ;;
            AddOnlyEnforceIf (Cmp (Var platform_var) EQ (Const platform)) [Pos platform_match] ;;
            AddOnlyEnforceIf (Cmp (Var platform_var) NE (Const platform)) [Not platform_match] ;;
            time_match <- NewBoolVar ("time_match_" ++ train_id ++ "_" ++ str_int t) ;;
            AddOnlyEnforceIf (Cmp (Var start_var) LE (Const t)) [Pos time_match] ;;
            AddOnlyEnforceIf (Cmp (Var end_var) GE (Const t)) [Pos time_match] ;;
            AddOnlyEnforceIf (Cmp (Var start_var) GT (Const t)) [Not time_match] ;;
            AddBoolOr [Bounded (Cmp (Var end_var) LT (Const t)); Lit (Not time_match)] ;;
            AddBoolAndOnlyEnforceIf [Lit (Pos platform_match); Lit (Pos time_match)]
                                    [Pos on_platform_at_t] ;;
            AddBoolOrOnlyEnforceIf [Lit (Not platform_match); Lit (Not time_match)]
                                   [Not on_platform_at_t] ;;
            ret (trains_on_platform ++ [on_platform_at_t])%list) ;;
      match trains_on_platform with
      | [] => ret tt
      | _ => Add (Cmp (cp_model.sum (List.map Var trains_on_platform)) LE (Const max_capacity))
      end)).

(** Recognised and logged, nothing added. *)
Definition _add_train_priority_constraint (variables : Variables.t) (constraint : Constraint.t) : M unit :=
  let priority_rules := get (Constraint.parameters constraint) "priority_rules" in
  ret tt.

Definition _add_maintenance_window_constraint (variables : Variables.t) (constraint : Constraint.t) : M unit :=
  start_window <-
    lift (int_parameter (Constraint.parameters constraint) "start_time_minutes" 0) ;;
  end_window <-
    lift (int_parameter (Constraint.parameters constraint) "end_time_minutes" 60) ;;
  let affected_sections :=
    split "," (str_parameter (Constraint.parameters constraint) "affected_sections" "") in
  for_each (keys (Variables.train_start_times variables)) (fun train_id =>
    start_var <- lift (getitem (Variables.train_start_times variables) train_id) ;;
    end_var <- lift (getitem (Variables.train_end_times variables) train_id) ;;
    maintenance_conflict <- NewBoolVar ("maintenance_conflict_" ++ train_id) ;;
    journey_overlaps <- NewBoolVar ("journey_overlaps_" ++ train_id) ;;
    AddOnlyEnforceIf (Cmp (Var start_var) LT (Const end_window)) [Pos journey_overlaps] ;;
    AddOnlyEnforceIf (Cmp (Var end_var) GT (Const start_window)) [Pos journey_overlaps] ;;
    AddOnlyEnforceIf (Cmp (Var end_var) LE (Const start_window)) [Pos maintenance_conflict] ;;
    AddBoolOr [Lit (Pos maintenance_conflict); Lit (Not journey_overlaps)]).

Definition _add_speed_limit_constraint (variables : Variables.t) (constraint : Constraint.t) : M unit :=
  max_speed <-
    lift (float_parameter (Constraint.parameters constraint) "max_speed_kmh" (Int 80)) ;;
  let affected_sections :=
    split "," (str_parameter (Constraint.parameters constraint) "sections" "") in
  for_each affected_sections (fun section =>
    for_each (keys (Variables.speed_variables variables)) (fun speed_key =>
      if contains section speed_key then
        speed_var <- lift (getitem (Variables.speed_variables variables) speed_key) ;;
        limit <- lift (int_of_float max_speed) ;;
        Add (Cmp (Var speed_var) LE (Const limit))
      else ret tt)).

(** Recognised and logged, nothing added. *)
Definition _add_crossing_time_constraint (variables : Variables.t) (constraint : Constraint.t) : M unit :=
  let crossing_location := str_parameter (Constraint.parameters constraint) "crossing_id" "" in
  max_crossing_time <-
    lift (int_parameter (Constraint.parameters constraint) "max_crossing_time_minutes" 5) ;;
  ret tt.

Definition _add_signal_spacing_constraint (variables : Variables.t) (constraint : Constraint.t) : M unit :=
  min_headway <-
    lift (int_parameter (Constraint.parameters constraint) "min_headway_seconds" 180) ;;
  let signal_block := str_parameter (Constraint.parameters constraint) "signal_block" "" in
  let trains_in_block := keys (Variables.train_start_times variables) in
  for_pairs trains_in_block (fun train1 train2 =>
    start1 <- lift (getitem (Variables.train_start_times variables) train1) ;;
    start2 <- lift (getitem (Variables.train_start_times variables) train2) ;;
    order_var <- NewBoolVar ("signal_order_" ++ train1 ++ "_" ++ train2) ;;
    AddOnlyEnforceIf
      (Cmp (Var start2) GE (Sum (Var start1) (Const (min_headway / 60)))) [Pos order_var] ;;
    AddOnlyEnforceIf
      (Cmp (Var start1) GE (Sum (Var start2) (Const (min_headway / 60)))) [Not order_var]).

(** Recognised and logged, nothing added. *)
Definition _add_energy_efficiency_constraint (variables : Variables.t) (constraint : Constraint.t) : M unit :=
  max_energy_kwh <-
    lift (float_parameter (Constraint.parameters constraint) "max_energy_consumption" (Int 10000)) ;;
  efficiency_target <-
    lift (float_parameter (Constraint.parameters constraint) "efficiency_target" (Float 0.8)) ;;
  ret tt.

Definition _add_passenger_transfer_constraint (variables : Variables.t) (constraint : Constraint.t) : M unit :=
  min_transfer_time <-
    lift (int_parameter (Constraint.parameters constraint) "min_transfer_minutes" 10) ;;
  let transfer_station := str_parameter (Constraint.parameters constraint) "station_id" "" in
  let connecting_trains :=
    split "," (str_parameter (Constraint.parameters constraint) "connecting_trains" "") in
  if (2 <=? len connecting_trains)%Z then
    for_each (range (len connecting_trains - 1)) (fun i =>
      let train1_id := strip (nth (Z.to_nat i) connecting_trains "") in
      let train2_id := strip (nth (Z.to_nat (i + 1)) connecting_trains "") in
      if mem (Variables.train_end_times variables) train1_id
         && mem (Variables.train_start_times variables) train2_id
      then
        arrival1 <- lift (getitem (Variables.train_end_times variables) train1_id) ;;
        departure2 <- lift (getitem (Variables.train_start_times variables) train2_id) ;;
        Add (Cmp (Var departure2) GE (Sum (Var arrival1) (Const min_transfer_time)))
      else ret tt)
  else ret tt.

Definition handler : Type := Variables.t -> Constraint.t -> M unit.

(** [self.constraint_registry], keyed by [str]. *)
Definition constraint_registry : dict handler :=
  [ ("SAFETY_DISTANCE", _add_safety_distance_constraint);
    ("PLATFORM_CAPACITY", _add_platform_capacity_constraint);
    ("TRAIN_PRIORITY", _add_train_priority_constraint);
    ("MAINTENANCE_WINDOW", _add_maintenance_window_constraint);
    ("SPEED_LIMIT", _add_speed_limit_constraint);
    ("CROSSING_TIME", _add_crossing_time_constraint);
    ("SIGNAL_SPACING", _add_signal_spacing_constraint);
    ("ENERGY_EFFICIENCY", _add_energy_efficiency_constraint);
    ("PASSENGER_TRANSFER", _add_passenger_transfer_constraint) ].

(** [self.constraint_registry[constraint_type]] *)
Definition registry_getitem (constraint_type : enum_or_str ConstraintType.t) : result handler :=
  match constraint_type with
  | Member _ => Raise (KeyError "constraint_type")
  | Str s => getitem constraint_registry s
  end.

Definition add_constraint (variables : Variables.t) (constraint : Constraint.t) : M bool :=
  let constraint_type := Constraint.type constraint in
  if negb (mem_str constraint_registry constraint_type) then
    ret false
  else
    catch
      (constraint_func <- lift (registry_getitem constraint_type) ;;
       constraint_func variables constraint ;;
       ret true)
      (fun e => ret false).

End Handlers.

End ConstraintBuilder.

(* ===================================================================== *)
(** ** The delay objective of the objective manager ([objectives.py]) *)
(* ===================================================================== *)

Module ObjectiveManager.
Import Py cp_model.
Local Open Scope string_scope.

Definition priority_weights : dict Z :=
  [ ("EMERGENCY", 10); ("EXPRESS", 8); ("MAIL", 6);
    ("PASSENGER", 4); ("FREIGHT", 2); ("MAINTENANCE", 1) ]%Z.

Definition _get_priority_weight (priority : enum_or_str TrainPriority.t) : Z :=
  get_default priority_weights priority 3%Z.

Definition build_minimize_delay_objective (variables : Variables.t)
    (request : OptimizationRequest.t) : M (list LinearExpr) :=
  for_fold (OptimizationRequest.trains request) ([] : list LinearExpr)
    (fun delay_terms train =>
      let train_id := Train.id train in
      delay_var <- lift (getitem (Variables.train_delays variables) train_id) ;;
      positive_delay <- NewIntVar 0 60 ("positive_delay_" ++ train_id) ;;
      AddMaxEquality (Var positive_delay) [Var delay_var; Const 0] ;;
      let priority_weight := _get_priority_weight (Train.priority train) in
      let weighted_delay := Prod (Var positive_delay) priority_weight in
      ret (delay_terms ++ [weighted_delay])%list).

End ObjectiveManager.

(* ===================================================================== *)
(** ** The engine ([optimization_engine.py]) *)
(* ===================================================================== *)

Module OptimizationEngine.
Import Py cp_model.
Local Open Scope string_scope.

(** [set(a) & set(b)] is not empty. *)
Definition shared_sections (train1 train2 : Train.t) : bool :=
  existsb (fun s => existsb (String.eqb s) (Train.route_sections train2))
          (Train.route_sections train1).

Definition _calculate_journey_time (train : Train.t) : result Z :=
  let total_distance := Int (len (Train.route_sections train) * 10) in
  speed80 <-? mul (Float (Train.max_speed_kmh train)) (Float 0.8) ;;
  let average_speed := min speed80 (Int 80) in
  journey_time_hours <-? truediv total_distance average_speed ;;
  minutes <-? mul journey_time_hours (Int 60) ;;
  int minutes.

Definition _datetime_to_minutes (dt reference : datetime) : result Z :=
  let delta := datetime_sub dt reference in
  seconds <-? total_seconds delta ;;
  minutes <-? truediv (Float seconds) (Int 60) ;;
  int minutes.

Definition _create_decision_variables (request : OptimizationRequest.t) : M Variables.t :=
  let time_horizon := OptimizationRequest.time_horizon_minutes request in
  variables <-
    for_fold (OptimizationRequest.trains request) Variables.empty
      (fun variables train =>
        let train_id := Train.id train in
        start_var <- NewIntVar 0 time_horizon ("start_time_" ++ train_id) ;;
        end_var <- NewIntVar 0 time_horizon ("end_time_" ++ train_id) ;;
        platform_var <- NewIntVar 1 10 ("platform_" ++ train_id) ;;
        let max_delay := 60%Z in
        delay_var <- NewIntVar (-30) max_delay ("delay_" ++ train_id) ;;
        let variables :=
          Variables.mk
            (set (Variables.train_start_times variables) train_id start_var)
            (set (Variables.train_end_times variables) train_id end_var)
            (set (Variables.platform_assignments variables) train_id platform_var)
            (set (Variables.train_delays variables) train_id delay_var)
            (Variables.section_occupancy variables)
            (Variables.speed_variables variables) in
        for_fold (Train.route_sections train) variables
          (fun variables section =>
            upper <- lift (int_of_float (Train.max_speed_kmh train)) ;;
            speed_var <- NewIntVar 20 upper ("speed_" ++ train_id ++ "_" ++ section) ;;
            ret (Variables.mk
                   (Variables.train_start_times variables)
                   (Variables.train_end_times variables)
                   (Variables.platform_assignments variables)
                   (Variables.train_delays variables)
                   (Variables.section_occupancy variables)
                   (set (Variables.speed_variables variables)
                        (train_id ++ "_" ++ section) speed_var)))) ;;
  for_fold (OptimizationRequest.trains request) variables
    (fun variables train =>
      for_fold (Train.route_sections train) variables
        (fun variables section =>
          for_fold (range time_horizon) variables
            (fun variables t =>
              let key := Train.id train ++ "_" ++ section ++ "_" ++ str_int t in
              occupancy_var <- NewBoolVar ("occupancy_" ++ key) ;;
              ret (Variables.mk
                     (Variables.train_start_times variables)
                     (Variables.train_end_times variables)
                     (Variables.platform_assignments variables)
                     (Variables.train_delays variables)
                     (set (Variables.section_occupancy variables) key occupancy_var)
                     (Variables.speed_variables variables))))).

Definition _add_timing_constraints (variables : Variables.t) (request : OptimizationRequest.t) : M unit :=
  for_each (OptimizationRequest.trains request) (fun train =>
    let train_id := Train.id train in
    start_var <- lift (getitem (Variables.train_start_times variables) train_id) ;;
    end_var <- lift (getitem (Variables.train_end_times variables) train_id) ;;
    delay_var <- lift (getitem (Variables.train_delays variables) train_id) ;;
    expected_journey_time <- lift (_calculate_journey_time train) ;;
    Add (Cmp (Var end_var) EQ (Sum (Var start_var) (Const expected_journey_time))) ;;
    scheduled_start <-
      lift (_datetime_to_minutes (Train.scheduled_departure train)
                                 (OptimizationRequest.requested_at request)) ;;
    Add (Cmp (Var start_var) EQ (Sum (Const scheduled_start) (Var delay_var)))).

Definition _add_platform_conflict_constraint (variables : Variables.t)
    (train1 train2 : Train.t) : M unit :=
  platform1 <- lift (getitem (Variables.platform_assignments variables) (Train.id train1)) ;;
  platform2 <- lift (getitem (Variables.platform_assignments variables) (Train.id train2)) ;;
  start1 <- lift (getitem (Variables.train_start_times variables) (Train.id train1)) ;;
  end1 <- lift (getitem (Variables.train_end_times variables) (Train.id train1)) ;;
  start2 <- lift (getitem (Variables.train_start_times variables) (Train.id train2)) ;;
  end2 <- lift (getitem (Variables.train_end_times variables) (Train.id train2)) ;;
  same_platform <-
    NewBoolVar ("same_platform_" ++ Train.id train1 ++ "_" ++ Train.id train2) ;;
  AddOnlyEnforceIf (Cmp (Var platform1) EQ (Var platform2)) [Pos same_platform] ;;
  AddOnlyEnforceIf (Cmp (Var platform1) NE (Var platform2)) [Not same_platform] ;;
  no_overlap <-
    NewBoolVar ("no_overlap_" ++ Train.id train1 ++ "_" ++ Train.id train2) ;;
  AddOnlyEnforceIf (Cmp (Var end1) LE (Var start2)) [Pos same_platform; Pos no_overlap] ;;
  AddOnlyEnforceIf (Cmp (Var end2) LE (Var start1)) [Pos same_platform; Not no_overlap].

(** [station_trains[station].append(train)], creating the list first. *)
Definition station_append (station_trains : dict (list Train.t)) (station : string)
    (train : Train.t) : dict (list Train.t) :=
  match get station_trains station with
  | Some trains => set station_trains station (trains ++ [train])%list
  | None => set station_trains station [train]
  end.

Definition group_by_station (trains : list Train.t) : dict (list Train.t) :=
  List.fold_left
    (fun station_trains train =>
      let origin := Train.origin_station train in
      let dest := Train.destination_station train in
      let station_trains :=
        if mem station_trains origin then station_trains
        else set station_trains origin [] in
      let station_trains :=
        if mem station_trains dest then station_trains
        else set station_trains dest [] in
      station_append (station_append station_trains origin train) dest train)
    trains [].

Definition _add_platform_constraints (variables : Variables.t) (request : OptimizationRequest.t) : M unit :=
  let station_trains := group_by_station (OptimizationRequest.trains request) in
  for_each station_trains (fun '(station, trains) =>
    for_pairs trains (_add_platform_conflict_constraint variables)).

Definition _add_headway_constraint (variables : Variables.t)
    (train1 train2 : Train.t) (min_headway : Z) : M unit :=
  start1 <- lift (getitem (Variables.train_start_times variables) (Train.id train1)) ;;
  start2 <- lift (getitem (Variables.train_start_times variables) (Train.id train2)) ;;
  order_bool <- NewBoolVar ("order_" ++ Train.id train1 ++ "_" ++ Train.id train2) ;;
  AddOnlyEnforceIf (Cmp (Var start1) GE (Sum (Var start2) (Const min_headway))) [Pos order_bool] ;;
  AddOnlyEnforceIf (Cmp (Var start2) GE (Sum (Var start1) (Const min_headway))) [Not order_bool].

Definition _add_safety_constraints (variables : Variables.t) (request : OptimizationRequest.t) : M unit :=
  let minimum_headway := 5%Z in
  for_pairs (OptimizationRequest.trains request) (fun train1 train2 =>
    if shared_sections train1 train2
    then _add_headway_constraint variables train1 train2 minimum_headway
    else ret tt).

Definition priority_order : dict Z :=
  [ ("EMERGENCY", 1); ("EXPRESS", 2); ("MAIL", 3);
    ("PASSENGER", 4); ("FREIGHT", 5); ("MAINTENANCE", 6) ]%Z.

Definition _add_priority_constraints (variables : Variables.t) (request : OptimizationRequest.t) : M unit :=
  for_pairs (OptimizationRequest.trains request) (fun train1 train2 =>
    let priority1 := get_default priority_order (Train.priority train1) 6%Z in
    let priority2 := get_default priority_order (Train.priority train2) 6%Z in
    if (priority1 <? priority2)%Z then
      if shared_sections train1 train2 then
        start1 <- lift (getitem (Variables.train_start_times variables) (Train.id train1)) ;;
        start2 <- lift (getitem (Variables.train_start_times variables) (Train.id train2)) ;;
        Add (Cmp (Var start1) LE (Var start2))
      else ret tt
    else ret tt).

Definition _add_route_constraints (variables : Variables.t) (request : OptimizationRequest.t) : M unit :=
  for_each (OptimizationRequest.trains request) (fun train =>
    section_times <-
      for_fold (enumerate (Train.route_sections train)) ([] : list IntVar)
        (fun section_times '(i, section) =>
          section_time <-
            NewIntVar 0 (OptimizationRequest.time_horizon_minutes request)
                      ("section_time_" ++ Train.id train ++ "_" ++ section) ;;
          let section_times := (section_times ++ [section_time])%list in
          (if (0 <? i)%Z then
             Add (Cmp (Var (nth (Z.to_nat i) section_times 0%nat)) GE
                      (Sum (Var (nth (Z.to_nat (i - 1)) section_times 0%nat)) (Const 1)))
           else ret tt) ;;
          ret section_times) ;;
    ret tt).

Section WithEnvironment.

Variable env : Environment.t.

Definition _add_custom_constraints (variables : Variables.t) (request : OptimizationRequest.t) : M unit :=
  for_each (OptimizationRequest.constraints request) (fun constraint =>
    catch
      (ConstraintBuilder.add_constraint env variables constraint ;; ret tt)
      (fun e => ret tt)).

Definition _add_constraints (variables : Variables.t) (request : OptimizationRequest.t) : M unit :=
  _add_timing_constraints variables request ;;
  _add_platform_constraints variables request ;;
  _add_safety_constraints variables request ;;
  _add_priority_constraints variables request ;;
  _add_route_constraints variables request ;;
  _add_custom_constraints variables request.

End WithEnvironment.

(** The loop [for train in request.trains: objective_terms.append(delay_var)]. *)
Definition delay_terms (variables : Variables.t) (request : OptimizationRequest.t) : M (list LinearExpr) :=
  for_fold (OptimizationRequest.trains request) ([] : list LinearExpr)
    (fun objective_terms train =>
      delay_var <- lift (getitem (Variables.train_delays variables) (Train.id train)) ;;
      ret (objective_terms ++ [Var delay_var])%list).

Definition _set_objective (variables : Variables.t) (request : OptimizationRequest.t) : M unit :=
  let primary_objective :=
    OptimizationObjective.primary_objective (OptimizationRequest.objective request) in
  if eq_str primary_objective "MINIMIZE_DELAY" then
    objective_terms <- delay_terms variables request ;;
    Minimize (cp_model.sum objective_terms)
  else if eq_str primary_objective "MAXIMIZE_THROUGHPUT" then
    on_time_vars <-
      for_fold (OptimizationRequest.trains request) ([] : list LinearExpr)
        (fun on_time_vars train =>
          delay_var <- lift (getitem (Variables.train_delays variables) (Train.id train)) ;;
          on_time <- NewBoolVar ("on_time_" ++ Train.id train) ;;
          AddOnlyEnforceIf (Cmp (Var delay_var) LE (Const 5)) [Pos on_time] ;;
          AddOnlyEnforceIf (Cmp (Var delay_var) GT (Const 5)) [Not on_time] ;;
          ret (on_time_vars ++ [Var on_time])%list) ;;
    Maximize (cp_model.sum on_time_vars)
  else if eq_str primary_objective "BALANCED_OPTIMAL" then
    terms <-
      for_fold (OptimizationRequest.trains request)
        (([] : list LinearExpr), ([] : list LinearExpr))
        (fun '(delay_terms, on_time_vars) train =>
          delay_var <- lift (getitem (Variables.train_delays variables) (Train.id train)) ;;
          let delay_terms := (delay_terms ++ [Var delay_var])%list in
          on_time <- NewBoolVar ("on_time_" ++ Train.id train) ;;
          AddOnlyEnforceIf (Cmp (Var delay_var) LE (Const 3)) [Pos on_time] ;;
          AddOnlyEnforceIf (Cmp (Var delay_var) GT (Const 3)) [Not on_time] ;;
          ret (delay_terms, (on_time_vars ++ [Var on_time])%list)) ;;
    let total_delay := cp_model.sum (fst terms) in
    let total_on_time := cp_model.sum (snd terms) in
    let weighted_objective := Sub total_delay (Prod total_on_time 10) in
    Minimize weighted_objective
  else
    objective_terms <- delay_terms variables request ;;
    Minimize (cp_model.sum objective_terms).

Definition _configure_solver (config : OptimizationConfig.t) : SatParameters :=
  let strategy := OptimizationConfig.strategy config in
  {| max_time_in_seconds := OptimizationConfig.max_solver_time_seconds config;
     num_search_workers := OptimizationConfig.num_search_workers config;
     log_search_progress := OptimizationConfig.enable_detailed_logging config;
     search_branching :=
       if String.eqb strategy "FIXED_SEARCH" then FIXED_SEARCH
       else if String.eqb strategy "PORTFOLIO_SEARCH" then PORTFOLIO_SEARCH
       else AUTOMATIC_SEARCH |}.

Definition _generate_speed_profile (value : assignment) (variables : Variables.t)
    (train : Train.t) : result (list SpeedProfilePoint.t) :=
  rmap (fun '(i, section) =>
          let speed_key := Train.id train ++ "_" ++ section in
          speed <-?
            (if mem (Variables.speed_variables variables) speed_key
             then
               speed_var <-? getitem (Variables.speed_variables variables) speed_key ;;
               Ok (Int (value speed_var))
             else mul (Float (Train.max_speed_kmh train)) (Float 0.8)) ;;
          Ok (SpeedProfilePoint.mk (Int (i * 10)) speed (Int (i * 15))))
       (enumerate (Train.route_sections train)).

Definition _count_conflicts_resolved (variables : Variables.t) : Z :=
  len (Variables.train_start_times variables) / 3.

(** [next((t for t in trains if t.id == train_id), None)] *)
Definition find_train (trains : list Train.t) (train_id : string) : option Train.t :=
  List.find (fun t => String.eqb (Train.id t) train_id) trains.

Definition _estimate_energy_consumption (schedule : list TrainScheduleEntry.t)
    (trains : list Train.t) : result number :=
  List.fold_left
    (fun acc entry =>
      total_energy <-? acc ;;
      match find_train trains (TrainScheduleEntry.train_id entry) with
      | Some train =>
          seconds <-?
            total_seconds (datetime_sub (TrainScheduleEntry.scheduled_arrival entry)
                                        (TrainScheduleEntry.scheduled_departure entry)) ;;
          journey_time_hours <-? truediv (abs (Float seconds)) (Int 3600) ;;
          let power := Float (TrainCharacteristics.power_kw (Train.characteristics train)) in
          let power_kw := if truthy power then power else Int 2000 in
          e1 <-? mul power_kw journey_time_hours ;;
          e2 <-? mul e1 (Float 0.7) ;;
          add total_energy e2
      | None => Ok total_energy
      end)
    schedule (Ok (Int 0)).

Definition _count_platform_changes (schedule : list TrainScheduleEntry.t)
    (trains : list Train.t) : Z :=
  List.fold_left (fun changes _ => changes + 1)%Z schedule 0%Z.

Definition _calculate_performance_metrics (schedule : list TrainScheduleEntry.t)
    (original_trains : list Train.t) (variables : Variables.t) : result PerformanceMetrics.t :=
  let total_delay :=
    Py.sum (List.map (fun entry => Z.max 0 (TrainScheduleEntry.delay_adjustment_minutes entry))
                     schedule) in
  avg_delay <-?
    (match schedule with
     | [] => Ok (Int 0)
     | _ => truediv (Int total_delay) (Int (len schedule))
     end) ;;
  let on_time_trains :=
    len (List.filter (fun entry => (TrainScheduleEntry.delay_adjustment_minutes entry <=? 5)%Z)
                     schedule) in
  throughput <-?
    (match schedule with
     | [] => Ok (Int 0)
     | _ => ratio <-? truediv (Int on_time_trains) (Int (len schedule)) ;; mul ratio (Int 100)
     end) ;;
  let time_span_hours := 2%Z in
  density <-? truediv (Int (len schedule)) (Int (time_span_hours * 10)) ;;
  percent <-? mul density (Int 100) ;;
  let utilization := min percent (Int 100) in
  trains_per_hour <-? truediv (Int (len schedule)) (Int time_span_hours) ;;
  energy <-? _estimate_energy_consumption schedule original_trains ;;
  waiting <-? mul avg_delay (Float 0.8) ;;
  Ok (PerformanceMetrics.mk
        (Int total_delay)
        avg_delay
        (_count_conflicts_resolved variables)
        trains_per_hour
        utilization
        energy
        (_count_platform_changes schedule original_trains)
        waiting).

Definition status_name (status : OptimizationStatus.t) : string :=
  match status with
  | OptimizationStatus.OPTIMAL => "OptimizationStatus.OPTIMAL"
  | OptimizationStatus.FEASIBLE => "OptimizationStatus.FEASIBLE"
  | OptimizationStatus.INFEASIBLE => "OptimizationStatus.INFEASIBLE"
  | OptimizationStatus.UNKNOWN => "OptimizationStatus.UNKNOWN"
  | OptimizationStatus.TIME_LIMIT_EXCEEDED => "OptimizationStatus.TIME_LIMIT_EXCEEDED"
  | OptimizationStatus.ERROR => "OptimizationStatus.ERROR"
  end.

(** [total_delay] is an [int] where the engine calls this, and [:.1f]
    prints it with one decimal. *)
Definition _generate_reasoning (status : OptimizationStatus.t) (total_delay : Z)
    (num_trains : Z) : string :=
  match status with
  | OptimizationStatus.OPTIMAL =>
      "Found optimal solution for " ++ str_int num_trains ++ " trains. "
      ++ "Total delay minimized to " ++ str_int total_delay ++ ".0 minutes. "
      ++ "All constraints satisfied."
  | OptimizationStatus.FEASIBLE =>
      "Found feasible solution for " ++ str_int num_trains ++ " trains. "
      ++ "Total delay: " ++ str_int total_delay ++ ".0 minutes. "
      ++ "Solution may not be globally optimal due to time constraints."
  | OptimizationStatus.INFEASIBLE =>
      "No feasible solution found. Consider relaxing constraints, "
      ++ "extending time horizon, or reducing train density."
  | _ => "Optimization completed with status: " ++ status_name status
  end.

Definition _calculate_confidence_score (status : OptimizationStatus.t) : float :=
  match status with
  | OptimizationStatus.OPTIMAL => 1.0
  | OptimizationStatus.FEASIBLE => 0.85
  | OptimizationStatus.TIME_LIMIT_EXCEEDED => 0.75
  | _ => 0.0
  end.

Definition _get_status_message (status : CpSolverStatus) : string :=
  match status with
  | OPTIMAL => "Optimal solution found"
  | FEASIBLE => "Feasible solution found"
  | INFEASIBLE => "Problem is infeasible"
  | UNKNOWN => "Solver status unknown"
  | MODEL_INVALID => "Model is invalid"
  end.

Section Pipeline.

Variable env : Environment.t.

Definition _create_error_response (request : OptimizationRequest.t) (error_msg : string)
    : OptimizationResponse.t :=
  OptimizationResponse.mk
    (OptimizationRequest.request_id request)
    OptimizationStatus.ERROR
    []
    PerformanceMetrics.default
    ""
    0.0
    []
    (Environment.elapsed_ms env)
    (Environment.utcnow env)
    error_msg.

(** The body of the loop over [request.trains] that reads the solution. *)
Definition schedule_entry (value : assignment) (variables : Variables.t)
    (request : OptimizationRequest.t) (train : Train.t) : result TrainScheduleEntry.t :=
  let train_id := Train.id train in
  start_var <-? getitem (Variables.train_start_times variables) train_id ;;
  let start_time_val := value start_var in
  end_var <-? getitem (Variables.train_end_times variables) train_id ;;
  let end_time_val := value end_var in
  platform_var <-? getitem (Variables.platform_assignments variables) train_id ;;
  let platform_val := value platform_var in
  delay_var <-? getitem (Variables.train_delays variables) train_id ;;
  let delay_val := value delay_var in
  departure_offset <-? timedelta_minutes start_time_val ;;
  actual_departure <-? datetime_add (OptimizationRequest.requested_at request) departure_offset ;;
  arrival_offset <-? timedelta_minutes end_time_val ;;
  actual_arrival <-? datetime_add (OptimizationRequest.requested_at request) arrival_offset ;;
  speed_profile <-? _generate_speed_profile value variables train ;;
  Ok (TrainScheduleEntry.mk
        train_id
        (Train.train_number train)
        actual_departure
        actual_arrival
        platform_val
        (Train.priority train)
        delay_val
        []
        speed_profile).

Definition _process_solution (status : CpSolverStatus) (value : assignment)
    (variables : Variables.t) (request : OptimizationRequest.t) : result OptimizationResponse.t :=
  let execution_time := Environment.elapsed_ms env in
  let opt_status :=
    match status with
    | OPTIMAL => OptimizationStatus.OPTIMAL
    | FEASIBLE => OptimizationStatus.FEASIBLE
    | INFEASIBLE => OptimizationStatus.INFEASIBLE
    | UNKNOWN => OptimizationStatus.TIME_LIMIT_EXCEEDED
    | MODEL_INVALID => OptimizationStatus.ERROR
    end in
  match status with
  | OPTIMAL | FEASIBLE =>
      optimized_schedule <-?
        rmap (schedule_entry value variables request) (OptimizationRequest.trains request) ;;
      let total_delay :=
        Py.sum (List.map (fun entry => Z.max 0 (TrainScheduleEntry.delay_adjustment_minutes entry))
                         optimized_schedule) in
      kpis <-?
        _calculate_performance_metrics optimized_schedule
          (OptimizationRequest.trains request) variables ;;
      Ok (OptimizationResponse.mk
            (OptimizationRequest.request_id request)
            opt_status
            optimized_schedule
            kpis
            (_generate_reasoning opt_status total_delay (len (OptimizationRequest.trains request)))
            (_calculate_confidence_score opt_status)
            []
            execution_time
            (Environment.utcnow env)
            "")
  | _ =>
      Ok (OptimizationResponse.mk
            (OptimizationRequest.request_id request)
            opt_status
            []
            PerformanceMetrics.default
            ("Optimization failed with status: " ++ str_int (status_code status))
            0.0
            []
            execution_time
            (Environment.utcnow env)
            (_get_status_message status))
  end.

(** The model the solver is given: variables, constraints, objective. *)
Definition build_model (request : OptimizationRequest.t) : M Variables.t :=
  variables <- _create_decision_variables request ;;
  _add_constraints env variables request ;;
  _set_objective variables request ;;
  ret variables.

(** The statements inside [try]. *)
Definition optimize_schedule_try (request : OptimizationRequest.t) : result OptimizationResponse.t :=
  match build_model request cp_model.empty with
  | (Raise e, _) => Raise e
  | (Ok variables, model) =>
      let parameters := _configure_solver (OptimizationRequest.config request) in
      outcome <-? Environment.Solve env parameters model ;;
      _process_solution (fst outcome) (snd outcome) variables request
  end.

Definition optimize_schedule (request : OptimizationRequest.t) : OptimizationResponse.t :=
  match optimize_schedule_try request with
  | Ok optimization_response => optimization_response
  | Raise e => _create_error_response request (str_exn e)
  end.

End Pipeline.

End OptimizationEngine.

(* ===================================================================== *)
(** ** Vocabulary of the properties *)
(* ===================================================================== *)

(** Building only ever appends: [m'] has the variables and constraints of
    [m], in the same places, and possibly more. *)
Definition extends (m m' : cp_model.CpModel) : Prop :=
  (exists vs, cp_model.variables m' = cp_model.variables m ++ vs)
  /\ (exists cs, cp_model.constraints m' = cp_model.constraints m ++ cs).

Definition grows {A} (c : cp_model.M A) : Prop :=
  forall m, extends m (snd (c m)).

(** The constraint [c] is part of the model. *)
Definition posted (m : cp_model.CpModel) (c : cp_model.Constraint) : Prop :=
  In c (cp_model.constraints m).

(** [b] was made by [NewBoolVar]. *)
Definition is_bool_var (m : cp_model.CpModel) (b : cp_model.IntVar) : Prop :=
  exists name, nth_error (cp_model.variables m) b = Some (name, (0, 1)).

(** The response reports a solution. *)
Definition solved (r : OptimizationResponse.t) : Prop :=
  OptimizationResponse.status r = OptimizationStatus.OPTIMAL
  \/ OptimizationResponse.status r = OptimizationStatus.FEASIBLE.

(** A number of minutes as a [timedelta]. *)
Definition minutes (k : Z) : Z := k * 60000000.

(** The two timing equalities of one train are in the model. *)
Definition timing_posted (v : Variables.t) (req : OptimizationRequest.t) (t : Train.t)
    (m : cp_model.CpModel) : Prop :=
  exists s e d jt off,
    Py.getitem (Variables.train_start_times v) (Train.id t) = Py.Ok s
    /\ Py.getitem (Variables.train_end_times v) (Train.id t) = Py.Ok e
    /\ Py.getitem (Variables.train_delays v) (Train.id t) = Py.Ok d
    /\ OptimizationEngine._calculate_journey_time t = Py.Ok jt
    /\ OptimizationEngine._datetime_to_minutes
         (Train.scheduled_departure t) (OptimizationRequest.requested_at req) = Py.Ok off
    /\ posted m (cp_model.Linear
                   (cp_model.Cmp (cp_model.Var e) cp_model.EQ
                      (cp_model.Sum (cp_model.Var s) (cp_model.Const jt))) [])
    /\ posted m (cp_model.Linear
                   (cp_model.Cmp (cp_model.Var s) cp_model.EQ
                      (cp_model.Sum (cp_model.Const off) (cp_model.Var d))) []).

(** The two enforced inequalities of a headway constraint between two
    trains that share a section are in the model. *)
Definition headway_posted (v : Variables.t) (t1 t2 : Train.t) (m : cp_model.CpModel) : Prop :=
  OptimizationEngine.shared_sections t1 t2 = true ->
  exists s1 s2 b,
    Py.getitem (Variables.train_start_times v) (Train.id t1) = Py.Ok s1
    /\ Py.getitem (Variables.train_start_times v) (Train.id t2) = Py.Ok s2
    /\ is_bool_var m b
    /\ posted m (cp_model.Linear
                   (cp_model.Cmp (cp_model.Var s1) cp_model.GE
                      (cp_model.Sum (cp_model.Var s2) (cp_model.Const 5)))
                   [cp_model.Pos b])
    /\ posted m (cp_model.Linear
                   (cp_model.Cmp (cp_model.Var s2) cp_model.GE
                      (cp_model.Sum (cp_model.Var s1) (cp_model.Const 5)))
                   [cp_model.Not b]).

(** An entry of the schedule stands for a train of the request. *)
Definition entry_of (t : Train.t) (e : TrainScheduleEntry.t) : Prop :=
  TrainScheduleEntry.train_id e = Train.id t
  /\ TrainScheduleEntry.train_number e = Train.train_number t
  /\ TrainScheduleEntry.priority_applied e = Train.priority t.

(** The request asks to minimise delay, by the member or by its name. *)
Definition asks_minimize_delay (req : OptimizationRequest.t) : Prop :=
  let primary :=
    OptimizationObjective.primary_objective (OptimizationRequest.objective req) in
  primary = Py.Member ObjectiveType.MINIMIZE_DELAY \/ primary = Py.Str "MINIMIZE_DELAY".

(** The value solved for the delay variable of a train. *)
Definition delay_value (a : cp_model.assignment) (v : Variables.t) (t : Train.t) : Z :=
  match Py.get (Variables.train_delays v) (Train.id t) with
  | Some d => a d
  | None => 0
  end.

(** The sum of the trains' delays, early departures counting negative. *)
Definition total_signed_delay (a : cp_model.assignment) (v : Variables.t)
    (trains : list Train.t) : Z :=
  Py.sum (List.map (delay_value a v) trains).

(** The weight the specification gives a priority. *)
Definition specified_weight (p : Py.enum_or_str TrainPriority.t) : Z :=
  match p with
  | Py.Member q =>
      Py.get_default ObjectiveManager.priority_weights
        (Py.Str (TrainPriority.name q) : Py.enum_or_str TrainPriority.t) 3
  | Py.Str _ => Py.get_default ObjectiveManager.priority_weights p 3
  end.

(** The objective in the specification's words: every train's positive
    delay times the weight of its priority. *)
Definition specified_delay_objective (a : cp_model.assignment) (v : Variables.t)
    (trains : list Train.t) : Z :=
  Py.sum (List.map (fun t => specified_weight (Train.priority t) * Z.max (delay_value a v t) 0)
                   trains).

(** The journey time in the specification's words:
    [int(60 * (10 * n) / min(0.8 * max_speed_kmh, 80))]. *)
Definition specified_journey_time (train : Train.t) : Py.result Z :=
  speed80 <-? Py.mul (Py.Float 0.8) (Py.Float (Train.max_speed_kmh train)) ;;
  quotient <-?
    Py.truediv (Py.Int (60 * (10 * Py.len (Train.route_sections train))))
               (Py.min speed80 (Py.Int 80)) ;;
  Py.int quotient.

(** The confidence a response carries, by its status. *)
Definition confidence_of_status (s : OptimizationStatus.t) : float :=
  match s with
  | OptimizationStatus.OPTIMAL => 1.0
  | OptimizationStatus.FEASIBLE => 0.85
  | _ => 0.0
  end.

(** The confidence in the specification's words. *)
Definition specified_confidence (s : OptimizationStatus.t) : float :=
  match s with
  | OptimizationStatus.OPTIMAL => 1.0
  | OptimizationStatus.FEASIBLE => 0.85
  | OptimizationStatus.TIME_LIMIT_EXCEEDED => 0.75
  | _ => 0.0
  end.

(** The status a response gives a solver status. *)
Definition status_of (st : cp_model.CpSolverStatus) : OptimizationStatus.t :=
  match st with
  | cp_model.OPTIMAL => OptimizationStatus.OPTIMAL
  | cp_model.FEASIBLE => OptimizationStatus.FEASIBLE
  | cp_model.INFEASIBLE => OptimizationStatus.INFEASIBLE
  | cp_model.UNKNOWN => OptimizationStatus.TIME_LIMIT_EXCEEDED
  | cp_model.MODEL_INVALID => OptimizationStatus.ERROR
  end.

(** The rank of a priority, 1 the highest. *)
Definition rank (p : TrainPriority.t) : Z :=
  match p with
  | TrainPriority.EMERGENCY => 1
  | TrainPriority.EXPRESS => 2
  | TrainPriority.MAIL => 3
  | TrainPriority.PASSENGER => 4
  | TrainPriority.FREIGHT => 5
  | TrainPriority.MAINTENANCE => 6
  end.

(** The request with its own constraints left out. *)
Definition without_constraints (req : OptimizationRequest.t) : OptimizationRequest.t :=
  OptimizationRequest.mk
    (OptimizationRequest.request_id req) (OptimizationRequest.section_id req)
    (OptimizationRequest.time_horizon_minutes req) (OptimizationRequest.trains req)
    [] (OptimizationRequest.objective req) (OptimizationRequest.disruptions req)
    (OptimizationRequest.requested_at req) (OptimizationRequest.config req).


(** The rank the engine reads off a priority: the table is keyed by
    [str], so an enum member gets the default. *)
Definition engine_rank (p : Py.enum_or_str TrainPriority.t) : Z :=
  Py.get_default OptimizationEngine.priority_order p 6.

(** The precedence of a train the engine ranks higher over one it ranks
    lower, on a shared section, is in the model. *)
Definition precedence_posted (v : Variables.t) (t1 t2 : Train.t) (m : cp_model.CpModel) : Prop :=
  engine_rank (Train.priority t1) < engine_rank (Train.priority t2) ->
  OptimizationEngine.shared_sections t1 t2 = true ->
  exists s1 s2,
    Py.getitem (Variables.train_start_times v) (Train.id t1) = Py.Ok s1
    /\ Py.getitem (Variables.train_start_times v) (Train.id t2) = Py.Ok s2
    /\ posted m (cp_model.Linear
                   (cp_model.Cmp (cp_model.Var s1) cp_model.LE (cp_model.Var s2)) []).

(* ===================================================================== *)
(** ** Requests and environments to run the pipeline on *)
(* ===================================================================== *)

Module Examples.
Import Py cp_model OptimizationEngine.
Local Open Scope string_scope.

(** 2024-01-01T00:00:00 *)
Definition base_time : datetime := 63839664000000000.

Definition at_minute (k : Z) : datetime := base_time + minutes k.

(** A solver that tries the values [table] gives by variable name, and
    the lower bound for every other variable. *)
Definition named_assignment (table : dict Z) (m : CpModel) : assignment :=
  fun v =>
    match nth_error (variables m) v with
    | Some (name, (lb, _)) =>
        match get table name with
        | Some z => z
        | None => lb
        end
    | None => 0%Z
    end.

Definition naming_solver (table : dict Z) : CpSolver :=
  fun _ m =>
    let a := named_assignment table m in
    if is_solution m a then Ok (FEASIBLE, a) else Ok (UNKNOWN, a).

(** A solver that always runs out of time. *)
Definition timeout_solver : CpSolver :=
  fun _ _ => Ok (UNKNOWN, fun _ => 0%Z).

(** A solver whose call fails. *)
Definition crashing_solver : CpSolver :=
  fun _ _ => Raise (RuntimeError "solver crashed").

(** A parser that knows the decimal numerals the examples use. *)
Definition int_of_str (s : string) : result Z :=
  if String.eqb s "300" then Ok 300%Z
  else if String.eqb s "180" then Ok 180%Z
  else Raise (ValueError ("invalid literal for int() with base 10: " ++ s)).

Definition float_of_str (s : string) : result float :=
  if String.eqb s "80" then Ok 80%float
  else Raise (ValueError ("could not convert string to float: " ++ s)).

Definition environment (solve : CpSolver) : Environment.t :=
  Environment.mk int_of_str float_of_str solve 12 (at_minute 1).

Definition train (id : string) (priority : TrainPriority.t) (max_speed_kmh : float)
    (departure : Z) (route_sections : list string) : Train.t :=
  Train.mk id 12001 TrainType.PASSENGER (Member priority) 500 200.0 max_speed_kmh
           (at_minute departure) (at_minute (departure + 120))
           "StationA" "StationB" route_sections TrainCharacteristics.default.

Definition request (time_horizon_minutes : Z) (trains : list Train.t)
    (constraints : list Constraint.t) : OptimizationRequest.t :=
  OptimizationRequest.mk "REQ" "SECTION" time_horizon_minutes trains constraints
    (OptimizationObjective.mk (Member ObjectiveType.MINIMIZE_DELAY) [] 30.0 true)
    [] base_time OptimizationConfig.default.

(** The scenario of two trains on the same two sections, five minutes
    apart. *)
Definition express : Train.t := train "T1" TrainPriority.EXPRESS 120.0 10 ["S1"; "S2"].
Definition passenger : Train.t := train "T2" TrainPriority.PASSENGER 100.0 15 ["S1"; "S2"].
Definition two_trains : OptimizationRequest.t := request 60 [express; passenger] [].

(** Both on time. *)
Definition on_time : dict Z :=
  [ ("start_time_T1", 10); ("end_time_T1", 25); ("platform_T1", 1); ("delay_T1", 0);
    ("start_time_T2", 15); ("end_time_T2", 30); ("platform_T2", 2); ("delay_T2", 0);
    ("section_time_T1_S2", 1); ("section_time_T2_S2", 1) ]%Z.

(** The express five minutes early, the passenger train two minutes late. *)
Definition shifted : dict Z :=
  [ ("start_time_T1", 5); ("end_time_T1", 20); ("platform_T1", 1); ("delay_T1", -5);
    ("start_time_T2", 17); ("end_time_T2", 32); ("platform_T2", 2); ("delay_T2", 2);
    ("section_time_T1_S2", 1); ("section_time_T2_S2", 1) ]%Z.

(** A freight train listed first and due at minute 0, an express listed
    second and due at minute 95, on the same section. *)
Definition freight : Train.t := train "F1" TrainPriority.FREIGHT 100.0 0 ["S1"].
Definition late_express : Train.t := train "E1" TrainPriority.EXPRESS 120.0 95 ["S1"].
Definition freight_then_express : OptimizationRequest.t :=
  request 120 [freight; late_express] [].

Definition freight_first : dict Z :=
  [ ("start_time_F1", 0); ("end_time_F1", 7); ("platform_F1", 1); ("delay_F1", 0);
    ("start_time_E1", 95); ("end_time_E1", 102); ("platform_E1", 2); ("delay_E1", 0) ]%Z.

(** The request of the engine's own error-handling test: horizon 0 and
    no trains. *)
Definition zero_horizon : OptimizationRequest.t :=
  OptimizationRequest.mk "INVALID_REQ" "" 0 [] []
    (OptimizationObjective.mk (Member ObjectiveType.MINIMIZE_DELAY) [] 30.0 true)
    [] base_time OptimizationConfig.default.

(** A train whose maximum speed is not a number. *)
Definition broken_train : Train.t := train "T9" TrainPriority.MAIL nan 0 ["S1"].
Definition broken_request : OptimizationRequest.t := request 60 [broken_train] [].

(** Seven sections at 42 km/h. *)
Definition slow_train : Train.t :=
  train "T7" TrainPriority.PASSENGER 42.0 0 ["S1"; "S2"; "S3"; "S4"; "S5"; "S6"; "S7"].
Definition slow_request : OptimizationRequest.t := request 130 [slow_train] [].

Definition slow_values : dict Z :=
  [ ("start_time_T7", 0); ("end_time_T7", 124); ("platform_T7", 1); ("delay_T7", 0);
    ("section_time_T7_S2", 1); ("section_time_T7_S3", 2); ("section_time_T7_S4", 3);
    ("section_time_T7_S5", 4); ("section_time_T7_S6", 5); ("section_time_T7_S7", 6) ]%Z.

(** Request-supplied constraints: one whose kind is the enum member the
    data model declares, one whose parameter is not a number, one whose
    handler faults in the solver library, and a well-formed one. *)
Definition member_kind : Constraint.t :=
  Constraint.mk "safety_1" (Member ConstraintType.SAFETY_DISTANCE) 1
                [("min_distance_seconds", "300")] true.
Definition malformed : Constraint.t :=
  Constraint.mk "safety_2" (Str "SAFETY_DISTANCE") 1
                [("min_distance_seconds", "five minutes")] true.
Definition faulting : Constraint.t :=
  Constraint.mk "platform_1" (Str "PLATFORM_CAPACITY") 2
                [("station_id", "StationA")] true.
Definition well_formed : Constraint.t :=
  Constraint.mk "spacing_1" (Str "SIGNAL_SPACING") 1
                [("min_headway_seconds", "300")] true.
Definition unregistered : Constraint.t :=
  Constraint.mk "custom_1" (Str "TRACK_GAUGE") 3 [] false.


Definition on_time_spaced : dict Z :=
  (on_time ++ [ ("platform_match_T1_1_0", 1); ("signal_order_T1_T2", 1) ])%list%Z.

(** The variables and the model the engine builds for a request without
    constraints of its own. *)
Definition variables_of (req : OptimizationRequest.t) : Variables.t :=
  match fst (build_model (environment timeout_solver) req cp_model.empty) with
  | Ok v => v
  | Raise _ => Variables.empty
  end.

Definition model_of (req : OptimizationRequest.t) : CpModel :=
  snd (build_model (environment timeout_solver) req cp_model.empty).

Definition blank_entry : TrainScheduleEntry.t :=
  TrainScheduleEntry.mk "" 0 0 0 0 (Str "") 0 [] [].

(** The [i]-th entry of a response's schedule. *)
Definition entry (r : OptimizationResponse.t) (i : nat) : TrainScheduleEntry.t :=
  nth i (OptimizationResponse.optimized_schedule r) blank_entry.

(** No variable, no constraint, and the objective [sum([])]. *)
Definition empty_problem : CpModel :=
  {| variables := []; constraints := []; objective := Some (Minimizing (Const 0)) |}.

Definition on_time_response : OptimizationResponse.t :=
  optimize_schedule (environment (naming_solver on_time)) two_trains.
Definition shifted_response : OptimizationResponse.t :=
  optimize_schedule (environment (naming_solver shifted)) two_trains.
Definition timed_out_response : OptimizationResponse.t :=
  optimize_schedule (environment timeout_solver) two_trains.
Definition freight_first_response : OptimizationResponse.t :=
  optimize_schedule (environment (naming_solver freight_first)) freight_then_express.
Definition slow_response : OptimizationResponse.t :=
  optimize_schedule (environment (naming_solver slow_values)) slow_request.

End Examples.

(* ===================================================================== *)
(** ** Further scenarios *)
(* ===================================================================== *)

Module Scenarios.
Import Py cp_model OptimizationEngine Examples.
Local Open Scope string_scope.

(** Two trains entered under the same id, on different stations and
    sections. *)
Definition twin_a : Train.t :=
  Train.mk "T1" 12001 TrainType.PASSENGER (Member TrainPriority.PASSENGER) 500 200.0 100.0
           (at_minute 10) (at_minute 130) "StationA" "StationB" ["S1"]
           TrainCharacteristics.default.
Definition twin_b : Train.t :=
  Train.mk "T1" 12002 TrainType.PASSENGER (Member TrainPriority.PASSENGER) 500 200.0 100.0
           (at_minute 10) (at_minute 130) "StationC" "StationD" ["S2"]
           TrainCharacteristics.default.
Definition twins : OptimizationRequest.t := request 60 [twin_a; twin_b] [].

Definition twins_values : dict Z :=
  [ ("start_time_T1", 10); ("end_time_T1", 17); ("platform_T1", 1); ("delay_T1", 0) ]%Z.

Definition twins_response : OptimizationResponse.t :=
  optimize_schedule (environment (naming_solver twins_values)) twins.

(** Constraints that leave the model alone: an enum member as kind, an
    unregistered kind, and a kind whose handler only logs. *)
Definition priority_rule : Constraint.t :=
  Constraint.mk "priority_1" (Str "TRAIN_PRIORITY") 1
                [("priority_rules", "EXPRESS>FREIGHT")] true.
Definition with_inert : OptimizationRequest.t :=
  request 60 [express; passenger] [member_kind; unregistered; priority_rule].

(** The constraints of [with_constraints] but the one whose handler
    faults in the library: the malformed one is skipped, and the
    well-formed one that follows it is applied. *)
Definition with_spacing : OptimizationRequest.t :=
  request 60 [express; passenger] [member_kind; unregistered; malformed; well_formed].

Definition spacing_response : OptimizationResponse.t :=
  optimize_schedule (environment (naming_solver on_time_spaced)) with_spacing.

(** A request with constraints of its own and no train. *)
Definition no_trains : OptimizationRequest.t :=
  request 60 [] [malformed; faulting; well_formed].

(** The two trains of the scenario under a safety distance of five
    minutes: the passenger train leaves five minutes after the express
    has arrived. *)
Definition safe_distance : Constraint.t :=
  Constraint.mk "safety_3" (Str "SAFETY_DISTANCE") 1
                [("min_distance_seconds", "300")] true.
Definition with_distance : OptimizationRequest.t :=
  request 60 [express; passenger] [safe_distance].

Definition one_after_the_other : dict Z :=
  [ ("start_time_T1", 10); ("end_time_T1", 25); ("platform_T1", 1); ("delay_T1", 0);
    ("start_time_T2", 30); ("end_time_T2", 45); ("platform_T2", 2); ("delay_T2", 15);
    ("section_time_T1_S2", 1); ("section_time_T2_S2", 1);
    ("safety_order_T1_T2", 1) ]%Z.

Definition distance_response : OptimizationResponse.t :=
  optimize_schedule (environment (naming_solver one_after_the_other)) with_distance.

(** A transfer from the express to the passenger train, ten minutes by
    default. *)
Definition transfer : Constraint.t :=
  Constraint.mk "transfer_1" (Str "PASSENGER_TRANSFER") 2
                [("station_id", "StationB"); ("connecting_trains", "T1, T2")] true.
Definition with_transfer : OptimizationRequest.t :=
  request 60 [express; passenger] [transfer].

Definition connecting : dict Z :=
  [ ("start_time_T1", 10); ("end_time_T1", 25); ("platform_T1", 1); ("delay_T1", 0);
    ("start_time_T2", 35); ("end_time_T2", 50); ("platform_T2", 2); ("delay_T2", 20);
    ("section_time_T1_S2", 1); ("section_time_T2_S2", 1) ]%Z.

Definition transfer_response : OptimizationResponse.t :=
  optimize_schedule (environment (naming_solver connecting)) with_transfer.

(** A speed limit of 80 km/h on section S1. *)
Definition limit_on_s1 : Constraint.t :=
  Constraint.mk "speed_1" (Str "SPEED_LIMIT") 1
                [("max_speed_kmh", "80"); ("sections", "S1")] true.
Definition with_limit : OptimizationRequest.t :=
  request 60 [express; passenger] [limit_on_s1].

Definition limit_response : OptimizationResponse.t :=
  optimize_schedule (environment (naming_solver on_time)) with_limit.

(** The freight train and the late express of [freight_then_express],
    both on platform 1. *)
Definition one_platform : dict Z :=
  [ ("start_time_F1", 0); ("end_time_F1", 7); ("platform_F1", 1); ("delay_F1", 0);
    ("start_time_E1", 95); ("end_time_E1", 102); ("platform_E1", 1); ("delay_E1", 0);
    ("same_platform_F1_E1", 1); ("no_overlap_F1_E1", 1) ]%Z.

Definition one_platform_response : OptimizationResponse.t :=
  optimize_schedule (environment (naming_solver one_platform)) freight_then_express.

(** A train that ends where it starts, over no section. *)
Definition round_trip : Train.t :=
  Train.mk "L1" 12001 TrainType.PASSENGER (Member TrainPriority.PASSENGER) 500 200.0 100.0
           (at_minute 10) (at_minute 130) "StationA" "StationA" []
           TrainCharacteristics.default.

Definition with_round_trip : OptimizationRequest.t := request 60 [round_trip] [].

Definition round_trip_values : dict Z :=
  [ ("start_time_L1", 10); ("end_time_L1", 10); ("platform_L1", 1); ("delay_L1", 0);
    ("same_platform_L1_L1", 1) ]%Z.

Definition round_trip_response : OptimizationResponse.t :=
  optimize_schedule (environment (naming_solver round_trip_values)) with_round_trip.

(** The two trains of [two_trains] under another primary objective. *)
Definition aiming_at (primary : enum_or_str ObjectiveType.t) : OptimizationRequest.t :=
  OptimizationRequest.mk "REQ" "SECTION" 60 [express; passenger] []
    (OptimizationObjective.mk primary [] 30.0 true)
    [] base_time OptimizationConfig.default.

(** The model the objective manager's delay terms are added to: the
    variables of [two_trains]. *)
Definition weighted_terms : result (list LinearExpr) * CpModel :=
  ObjectiveManager.build_minimize_delay_objective (variables_of two_trains) two_trains
    (model_of two_trains).

Definition weighted_list : list LinearExpr :=
  match fst weighted_terms with
  | Ok terms => terms
  | Raise _ => []
  end.

(** The values of [shifted] with the positive delays they give. *)
Definition shifted_positive : dict Z :=
  (shifted ++ [ ("positive_delay_T1", 0); ("positive_delay_T2", 2) ])%list%Z.

(** A maintenance window with the default times. *)
Definition window : Constraint.t :=
  Constraint.mk "maintenance_1" (Str "MAINTENANCE_WINDOW") 1 [("affected_sections", "S1")] true.

End Scenarios.

(* ===================================================================== *)
(** ** Further vocabulary *)
(* ===================================================================== *)

(** The variable [x] of the model has the domain [lb .. ub]. *)
Definition has_domain (m : cp_model.CpModel) (x : cp_model.IntVar) (lb ub : Z) : Prop :=
  exists name, nth_error (cp_model.variables m) x = Some (name, (lb, ub)).

(** Every variable the dictionary holds has the domain [lb .. ub]. *)
Definition all_in (m : cp_model.CpModel) (d : Py.dict cp_model.IntVar) (lb ub : Z) : Prop :=
  forall k x, Py.get d k = Some x -> has_domain m x lb ub.

(** What [_create_decision_variables] keeps true of the four per-train
    dictionaries: the domains of their variables, and that they have the
    same keys. *)
Definition bounded_variables (horizon : Z) (v : Variables.t) (m : cp_model.CpModel) : Prop :=
  all_in m (Variables.train_start_times v) 0 horizon
  /\ all_in m (Variables.train_end_times v) 0 horizon
  /\ all_in m (Variables.platform_assignments v) 1 10
  /\ all_in m (Variables.train_delays v) (-30) 60
  /\ Py.keys (Variables.train_end_times v) = Py.keys (Variables.train_start_times v)
  /\ Py.keys (Variables.platform_assignments v) = Py.keys (Variables.train_start_times v)
  /\ Py.keys (Variables.train_delays v) = Py.keys (Variables.train_start_times v).

(** A request-supplied constraint that cannot change the model: its kind
    is an enum member or a string the registry does not know, or one of
    the three kinds whose handlers only read their parameters. *)
Definition inert (c : Constraint.t) : bool :=
  match Constraint.type c with
  | Py.Member _ => true
  | Py.Str s =>
      negb (existsb (String.eqb s)
              ["SAFETY_DISTANCE"; "PLATFORM_CAPACITY"; "MAINTENANCE_WINDOW";
               "SPEED_LIMIT"; "SIGNAL_SPACING"; "PASSENGER_TRANSFER"]%string)
  end.

(** [speed == 0 or math.isnan(speed)] *)
Definition speed_unusable (speed : float) : bool :=
  PrimFloat.eqb speed 0 || PrimFloat.is_nan speed.

(** The offset of [k] whole minutes is read back as [k]. *)
Definition reads_minutes (k : Z) : bool :=
  match OptimizationEngine._datetime_to_minutes (minutes k) 0 with
  | Py.Ok z => z =? k
  | Py.Raise _ => false
  end.

(** The offset of [s] whole seconds is read as [s] seconds' worth of
    minutes, rounded toward zero. *)
Definition reads_seconds (s : Z) : bool :=
  match OptimizationEngine._datetime_to_minutes (s * 1000000) 0 with
  | Py.Ok z => z =? Z.quot s 60
  | Py.Raise _ => false
  end.

(** [P] holds of the [n] integers from [lo] on. *)
Fixpoint holds_from (P : Z -> bool) (lo : Z) (n : nat) : bool :=
  match n with
  | O => true
  | S n' => P lo && holds_from P (lo + 1) n'
  end.

(** The keys of a dictionary filled in the order of [ks]: every key
    once, at the place of its first occurrence. *)
Definition distinct (ks : list string) : list string :=
  fold_left (fun acc k => if existsb (String.eqb k) acc then acc else acc ++ [k]) ks [].

(** Every speed variable starts at 20 km/h. *)
Definition speed_floor (m : cp_model.CpModel) (d : Py.dict cp_model.IntVar) : Prop :=
  forall k x, Py.get d k = Some x ->
    exists name ub, nth_error (cp_model.variables m) x = Some (name, (20, ub)).

(** Every section of the train has a speed variable. *)
Definition speeds_known (d : Py.dict cp_model.IntVar) (t : Train.t) : Prop :=
  forall section, In section (Train.route_sections t) ->
    Py.mem d (Train.id t ++ "_" ++ section)%string = true.

(** What [_create_decision_variables] keeps true of its dictionaries
    while it goes through the trains. *)
Definition created (pre : list Train.t) (v : Variables.t) (m : cp_model.CpModel) : Prop :=
  Py.keys (Variables.train_start_times v) = distinct (List.map Train.id pre)
  /\ speed_floor m (Variables.speed_variables v)
  /\ Forall (speeds_known (Variables.speed_variables v)) pre.

(** The two enforced inequalities a signal-spacing constraint posts for
    two keys of the start times are in the model. *)
Definition spacing_posted (v : Variables.t) (gap : Z) (k1 k2 : string)
    (m : cp_model.CpModel) : Prop :=
  exists s1 s2 b,
    Py.getitem (Variables.train_start_times v) k1 = Py.Ok s1
    /\ Py.getitem (Variables.train_start_times v) k2 = Py.Ok s2
    /\ is_bool_var m b
    /\ posted m (cp_model.Linear
                   (cp_model.Cmp (cp_model.Var s2) cp_model.GE
                      (cp_model.Sum (cp_model.Var s1) (cp_model.Const gap)))
                   [cp_model.Pos b])
    /\ posted m (cp_model.Linear
                   (cp_model.Cmp (cp_model.Var s1) cp_model.GE
                      (cp_model.Sum (cp_model.Var s2) (cp_model.Const gap)))
                   [cp_model.Not b]).

(** The two enforced inequalities a safety-distance constraint posts. *)
Definition distance_posted (v : Variables.t) (gap : Z) (k1 k2 : string)
    (m : cp_model.CpModel) : Prop :=
  exists s1 s2 e1 e2 b,
    Py.getitem (Variables.train_start_times v) k1 = Py.Ok s1
    /\ Py.getitem (Variables.train_start_times v) k2 = Py.Ok s2
    /\ Py.getitem (Variables.train_end_times v) k1 = Py.Ok e1
    /\ Py.getitem (Variables.train_end_times v) k2 = Py.Ok e2
    /\ is_bool_var m b
    /\ posted m (cp_model.Linear
                   (cp_model.Cmp (cp_model.Var s2) cp_model.GE
                      (cp_model.Sum (cp_model.Var e1) (cp_model.Const gap)))
                   [cp_model.Pos b])
    /\ posted m (cp_model.Linear
                   (cp_model.Cmp (cp_model.Var s1) cp_model.GE
                      (cp_model.Sum (cp_model.Var e2) (cp_model.Const gap)))
                   [cp_model.Not b]).

(** A constraint of the request is of the kind [name], given as a
    string. *)
Definition of_kind (c : Constraint.t) (name : string) : Prop :=
  Constraint.type c = Py.Str name.

(** The inequality a passenger-transfer constraint posts for a train
    that arrives and one that departs, when both are known. *)
Definition transfer_posted (v : Variables.t) (gap : Z) (k1 k2 : string)
    (m : cp_model.CpModel) : Prop :=
  forall arrival1 departure2,
    Py.getitem (Variables.train_end_times v) k1 = Py.Ok arrival1 ->
    Py.getitem (Variables.train_start_times v) k2 = Py.Ok departure2 ->
    posted m (cp_model.Linear
                (cp_model.Cmp (cp_model.Var departure2) cp_model.GE
                   (cp_model.Sum (cp_model.Var arrival1) (cp_model.Const gap))) []).

(** The bound a speed-limit constraint posts on the speed variable of a
    key that contains the name of an affected section. *)
Definition limit_posted (v : Variables.t) (limit : Z) (section key : string)
    (m : cp_model.CpModel) : Prop :=
  Py.contains section key = true ->
  exists speed_var,
    Py.getitem (Variables.speed_variables v) key = Py.Ok speed_var
    /\ posted m (cp_model.Linear
                   (cp_model.Cmp (cp_model.Var speed_var) cp_model.LE (cp_model.Const limit)) []).

(** The entries a train adds to the list of a station: one as its
    origin, one as its destination. *)
Definition calls_at (station : string) (t : Train.t) : list Train.t :=
  (if String.eqb (Train.origin_station t) station then [t] else [])
  ++ (if String.eqb (Train.destination_station t) station then [t] else []).

(** The list a dictionary of lists holds for a key, empty when the key
    is missing. *)
Definition listed {A} (d : Py.dict (list A)) (k : string) : list A :=
  match Py.get d k with
  | Some l => l
  | None => []
  end.

(** Two trains have a station in common, as origin or destination. *)
Definition share_a_station (t1 t2 : Train.t) : bool :=
  existsb (fun s => String.eqb s (Train.origin_station t2)
                    || String.eqb s (Train.destination_station t2))
          [Train.origin_station t1; Train.destination_station t1].

(** The four enforced constraints of a platform conflict between two
    trains are in the model. *)
Definition conflict_posted (v : Variables.t) (t1 t2 : Train.t) (m : cp_model.CpModel) : Prop :=
  exists p1 p2 s1 e1 s2 e2 same no,
    Py.getitem (Variables.platform_assignments v) (Train.id t1) = Py.Ok p1
    /\ Py.getitem (Variables.platform_assignments v) (Train.id t2) = Py.Ok p2
    /\ Py.getitem (Variables.train_start_times v) (Train.id t1) = Py.Ok s1
    /\ Py.getitem (Variables.train_end_times v) (Train.id t1) = Py.Ok e1
    /\ Py.getitem (Variables.train_start_times v) (Train.id t2) = Py.Ok s2
    /\ Py.getitem (Variables.train_end_times v) (Train.id t2) = Py.Ok e2
    /\ is_bool_var m same
    /\ is_bool_var m no
    /\ posted m (cp_model.Linear (cp_model.Cmp (cp_model.Var p1) cp_model.EQ (cp_model.Var p2))
                   [cp_model.Pos same])
    /\ posted m (cp_model.Linear (cp_model.Cmp (cp_model.Var p1) cp_model.NE (cp_model.Var p2))
                   [cp_model.Not same])
    /\ posted m (cp_model.Linear (cp_model.Cmp (cp_model.Var e1) cp_model.LE (cp_model.Var s2))
                   [cp_model.Pos same; cp_model.Pos no])
    /\ posted m (cp_model.Linear (cp_model.Cmp (cp_model.Var e2) cp_model.LE (cp_model.Var s1))
                   [cp_model.Pos same; cp_model.Not no]).

(** The 0-1 variable [b] is tied to the delay variable [d] by the two
    enforced constraints [d <= limit] if [b] and [d > limit] if not. *)
Definition flag_posted (m : cp_model.CpModel) (limit : Z) (d b : cp_model.IntVar) : Prop :=
  is_bool_var m b
  /\ posted m (cp_model.Linear (cp_model.Cmp (cp_model.Var d) cp_model.LE (cp_model.Const limit))
                 [cp_model.Pos b])
  /\ posted m (cp_model.Linear (cp_model.Cmp (cp_model.Var d) cp_model.GT (cp_model.Const limit))
                 [cp_model.Not b]).

(** The number of trains of the list whose delay is at most [limit]. *)
Definition on_time_trains (a : cp_model.assignment) (v : Variables.t) (limit : Z)
    (trains : list Train.t) : Z :=
  Py.sum (List.map (fun t => if delay_value a v t <=? limit then 1 else 0) trains).

(** Every train's positive delay times the weight the objective manager
    reads off its priority. *)
Definition weighted_positive_delay (a : cp_model.assignment) (v : Variables.t)
    (trains : list Train.t) : Z :=
  Py.sum (List.map (fun t => ObjectiveManager._get_priority_weight (Train.priority t)
                             * Z.max (delay_value a v t) 0) trains).

(** The sum of the trains' positive delays. *)
Definition total_positive_delay (a : cp_model.assignment) (v : Variables.t)
    (trains : list Train.t) : Z :=
  Py.sum (List.map (fun t => Z.max (delay_value a v t) 0) trains).

(** The term of a train is the flag of its delay variable. *)
Definition flag_of (m : cp_model.CpModel) (v : Variables.t) (limit : Z)
    (t : Train.t) (e : cp_model.LinearExpr) : Prop :=
  exists d b, e = cp_model.Var b
    /\ Py.getitem (Variables.train_delays v) (Train.id t) = Py.Ok d
    /\ flag_posted m limit d b.

(** The term of a train is its weighted positive-delay variable. *)
Definition weighted_of (m : cp_model.CpModel) (v : Variables.t)
    (t : Train.t) (e : cp_model.LinearExpr) : Prop :=
  exists d p, e = cp_model.Prod (cp_model.Var p)
                    (ObjectiveManager._get_priority_weight (Train.priority t))
    /\ Py.getitem (Variables.train_delays v) (Train.id t) = Py.Ok d
    /\ posted m (cp_model.MaxEquality (cp_model.Var p) [cp_model.Var d; cp_model.Const 0]).

(** The assignment gives 0 to every variable the model does not have
    yet. *)
Definition zero_beyond (m : cp_model.CpModel) (a : cp_model.assignment) : Prop :=
  forall x, (List.length (cp_model.variables m) <= x)%nat -> a x = 0.

(* ===================================================================== *)
(** ** Building only appends to the model *)
(* ===================================================================== *)

Import Py cp_model.

Section MonadFacts.

Lemma extends_refl m : extends m m.
Proof. split; exists []; now rewrite app_nil_r. Qed.

Lemma extends_trans m1 m2 m3 : extends m1 m2 -> extends m2 m3 -> extends m1 m3.
Proof.
  intros [[v1 Hv1] [c1 Hc1]] [[v2 Hv2] [c2 Hc2]]. split.
  - exists (v1 ++ v2). now rewrite Hv2, Hv1, app_assoc.
  - exists (c1 ++ c2). now rewrite Hc2, Hc1, app_assoc.
Qed.

Lemma posted_extends m m' c : extends m m' -> posted m c -> posted m' c.
Proof.
  intros [_ [cs Hcs]] H. unfold posted. rewrite Hcs. apply in_or_app. now left.
Qed.

Lemma is_bool_var_extends m m' b : extends m m' -> is_bool_var m b -> is_bool_var m' b.
Proof.
  intros [[vs Hvs] _] [name H]. exists name. rewrite Hvs.
  rewrite nth_error_app1; [exact H|]. apply nth_error_Some. now rewrite H.
Qed.

Lemma grows_ret {A} (a : A) : grows (ret a).
Proof. intros m. apply extends_refl. Qed.

Lemma grows_raise {A} e : grows (@raise A e).
Proof. intros m. apply extends_refl. Qed.

Lemma grows_lift {A} (r : result A) : grows (lift r).
Proof. intros m. apply extends_refl. Qed.

Lemma grows_bind {A B} (c : M A) (k : A -> M B) :
  grows c -> (forall a, grows (k a)) -> grows (bind c k).
Proof.
  intros Hc Hk m. unfold bind. specialize (Hc m).
  destruct (c m) as [[a|e] m1]; simpl in *.
  - eapply extends_trans; [exact Hc|apply Hk].
  - exact Hc.
Qed.

Lemma grows_catch {A} (c : M A) (h : exn -> M A) :
  grows c -> (forall e, grows (h e)) -> grows (catch c h).
Proof.
  intros Hc Hh m. unfold catch. specialize (Hc m).
  destruct (c m) as [[a|e] m1]; simpl in *.
  - exact Hc.
  - eapply extends_trans; [exact Hc|apply Hh].
Qed.

Lemma grows_for_each {A} (l : list A) (body : A -> M unit) :
  (forall x, grows (body x)) -> grows (for_each l body).
Proof.
  intros Hb. induction l as [|x xs IH]; simpl.
  - apply grows_ret.
  - apply grows_bind; [apply Hb|intros _; exact IH].
Qed.

Lemma grows_for_fold {A S} (l : list A) (s : S) (body : S -> A -> M S) :
  (forall s x, grows (body s x)) -> grows (for_fold l s body).
Proof.
  intros Hb. revert s. induction l as [|x xs IH]; intros s; simpl.
  - apply grows_ret.
  - apply grows_bind; [apply Hb|intros s'; apply IH].
Qed.

Lemma grows_for_pairs {A} (l : list A) (body : A -> A -> M unit) :
  (forall x y, grows (body x y)) -> grows (for_pairs l body).
Proof.
  intros Hb. induction l as [|x xs IH]; simpl.
  - apply grows_ret.
  - apply grows_bind; [apply grows_for_each; intros y; apply Hb|intros _; exact IH].
Qed.

Lemma grows_add_variable name lb ub : grows (add_variable name lb ub).
Proof. intros m. split; simpl; [eexists; reflexivity|exists []; now rewrite app_nil_r]. Qed.

Lemma grows_add_constraint c : grows (add_constraint c).
Proof. intros m. split; simpl; [exists []; now rewrite app_nil_r|eexists; reflexivity]. Qed.

Lemma grows_set_objective o : grows (set_objective o).
Proof. intros m. split; simpl; exists []; now rewrite app_nil_r. Qed.

End MonadFacts.

Ltac grows_step :=
  match goal with
  | |- grows (ret _) => apply grows_ret
  | |- grows (raise _) => apply grows_raise
  | |- grows (lift _) => apply grows_lift
  | |- grows (bind _ _) => apply grows_bind; [|intros]
  | |- grows (catch _ _) => apply grows_catch; [|intros]
  | |- grows (for_each _ _) => apply grows_for_each; intros
  | |- grows (for_fold _ _ _) => apply grows_for_fold; intros
  | |- grows (for_pairs _ _) => apply grows_for_pairs; intros
  | |- grows (add_variable _ _ _) => apply grows_add_variable
  | |- grows (add_constraint _) => apply grows_add_constraint
  | |- grows (set_objective _) => apply grows_set_objective
  | |- grows (NewIntVar _ _ _) => apply grows_add_variable
  | |- grows (NewBoolVar _) => apply grows_add_variable
  | |- grows (Add _) => unfold Add
  | |- grows (AddOnlyEnforceIf _ _) => unfold AddOnlyEnforceIf
  | |- grows (AddMaxEquality _ _) => apply grows_add_constraint
  | |- grows (Minimize _) => apply grows_set_objective
  | |- grows (Maximize _) => apply grows_set_objective
  | |- grows (AddBoolOr _) => unfold AddBoolOr
  | |- grows (AddBoolOrOnlyEnforceIf _ _) => unfold AddBoolOrOnlyEnforceIf
  | |- grows (AddBoolAndOnlyEnforceIf _ _) => unfold AddBoolAndOnlyEnforceIf
  | |- grows (if ?b then _ else _) => destruct b
  | |- grows (match ?x with _ => _ end) => destruct x
  | |- grows (let '(_, _) := ?x in _) => destruct x
  | |- grows ((let '(_, _) := ?x in _) _) => destruct x
  | |- grows _ => progress cbv beta
  end.

Ltac grows_auto := repeat grows_step.


(* ===================================================================== *)
(** ** Every stage of the engine only appends *)
(* ===================================================================== *)

Import OptimizationEngine.

Lemma grows_headway v t1 t2 h : grows (_add_headway_constraint v t1 t2 h).
Proof. unfold _add_headway_constraint. grows_auto. Qed.

Lemma grows_timing v r : grows (_add_timing_constraints v r).
Proof. unfold _add_timing_constraints. grows_auto. Qed.

Lemma grows_platform v r : grows (_add_platform_constraints v r).
Proof. unfold _add_platform_constraints, _add_platform_conflict_constraint. grows_auto. Qed.

Lemma grows_safety v r : grows (_add_safety_constraints v r).
Proof. unfold _add_safety_constraints, _add_headway_constraint. grows_auto. Qed.

Lemma grows_priority v r : grows (_add_priority_constraints v r).
Proof. unfold _add_priority_constraints. grows_auto. Qed.

Lemma grows_route v r : grows (_add_route_constraints v r).
Proof. unfold _add_route_constraints. grows_auto. Qed.

Lemma grows_handlers env v c h :
  In h (List.map snd (ConstraintBuilder.constraint_registry env)) -> grows (h v c).
Proof.
  simpl. intros H.
  repeat (destruct H as [<-|H]; [|]); try contradiction.
  - unfold ConstraintBuilder._add_safety_distance_constraint. grows_auto.
  - unfold ConstraintBuilder._add_platform_capacity_constraint. grows_auto.
  - unfold ConstraintBuilder._add_train_priority_constraint. grows_auto.
  - unfold ConstraintBuilder._add_maintenance_window_constraint. grows_auto.
  - unfold ConstraintBuilder._add_speed_limit_constraint. grows_auto.
  - unfold ConstraintBuilder._add_crossing_time_constraint. grows_auto.
  - unfold ConstraintBuilder._add_signal_spacing_constraint. grows_auto.
  - unfold ConstraintBuilder._add_energy_efficiency_constraint. grows_auto.
  - unfold ConstraintBuilder._add_passenger_transfer_constraint. grows_auto.
Qed.

Lemma getitem_In {V} (d : dict V) k v : getitem d k = Ok v -> In v (List.map snd d).
Proof.
  unfold getitem. induction d as [|[k' v'] d IH]; simpl; [discriminate|].
  destruct (String.eqb k' k).
  - intros [= <-]. now left.
  - intros H. right. apply IH. exact H.
Qed.

Lemma grows_registry_add_constraint env v c : grows (ConstraintBuilder.add_constraint env v c).
Proof.
  unfold ConstraintBuilder.add_constraint.
  destruct (negb _); [apply grows_ret|].
  apply grows_catch; [|intros; apply grows_ret].
  intros m. unfold bind at 1, lift.
  destruct (ConstraintBuilder.registry_getitem env (Constraint.type c)) as [h|e] eqn:Hh;
    [|apply extends_refl].
  assert (Hg : grows (h v c)).
  { apply (grows_handlers env). unfold ConstraintBuilder.registry_getitem in Hh.
    destruct (Constraint.type c); [discriminate|]. eapply getitem_In; exact Hh. }
  revert m. change (grows (bind (h v c) (fun _ => ret true))). grows_auto. exact Hg.
Qed.

Lemma grows_custom env v r : grows (_add_custom_constraints env v r).
Proof.
  unfold _add_custom_constraints. grows_auto. apply grows_registry_add_constraint.
Qed.

Lemma grows_set_objective' v r : grows (_set_objective v r).
Proof. unfold _set_objective, delay_terms. grows_auto. Qed.

(** What a successful [bind] was made of. *)
Lemma bind_Ok {A B} (c : M A) (k : A -> M B) m b m' :
  bind c k m = (Ok b, m') -> exists a m1, c m = (Ok a, m1) /\ k a m1 = (Ok b, m').
Proof.
  unfold bind. destruct (c m) as [[a|e] m1]; [|discriminate].
  intros H. now exists a, m1.
Qed.

Lemma lift_Ok {A} (r : result A) m a m' : lift r m = (Ok a, m') -> r = Ok a /\ m' = m.
Proof. unfold lift. now intros [= -> ->]. Qed.

(** A constraint that was added had its constants in the 64-bit range. *)
Lemma Add_Ok ct m u m' :
  Add ct m = (Ok u, m') -> add_constraint (Linear ct []) m = (Ok u, m').
Proof. unfold Add. destruct (representable ct); [auto|discriminate]. Qed.

Lemma AddOnlyEnforceIf_Ok ct lits m u m' :
  AddOnlyEnforceIf ct lits m = (Ok u, m') -> add_constraint (Linear ct lits) m = (Ok u, m').
Proof. unfold AddOnlyEnforceIf. destruct (representable ct); [auto|discriminate]. Qed.

Lemma Add_fits ct : representable ct = true -> Add ct = add_constraint (Linear ct []).
Proof. unfold Add. now intros ->. Qed.

Lemma AddOnlyEnforceIf_fits ct lits :
  representable ct = true -> AddOnlyEnforceIf ct lits = add_constraint (Linear ct lits).
Proof. unfold AddOnlyEnforceIf. now intros ->. Qed.

(** Constraints whose one constant is known to be in range are added. *)
Ltac in_range H :=
  unfold Add, AddOnlyEnforceIf, representable;
  cbn [fits_int64 lhs rhs andb]; rewrite ?H.

Lemma for_each_post {A} (P : A -> CpModel -> Prop) (body : A -> M unit) :
  (forall x, grows (body x)) ->
  (forall x m m', P x m -> extends m m' -> P x m') ->
  (forall x m u m', body x m = (Ok u, m') -> P x m') ->
  forall l m u m', for_each l body m = (Ok u, m') -> forall x, In x l -> P x m'.
Proof.
  intros Hg Hs Hb. induction l as [|a l IH]; intros m u m' Hrun x Hin; [contradiction|].
  simpl in Hrun. apply bind_Ok in Hrun as (u1 & m1 & H1 & H2).
  destruct Hin as [<-|Hin].
  - apply (Hs a m1 m'); [eapply Hb; exact H1|].
    pose proof (grows_for_each l body Hg m1) as G. now rewrite H2 in G.
  - eapply IH; eassumption.
Qed.

Lemma for_pairs_post {A} (P : A -> A -> CpModel -> Prop) (body : A -> A -> M unit) :
  (forall x y, grows (body x y)) ->
  (forall x y m m', P x y m -> extends m m' -> P x y m') ->
  (forall x y m u m', body x y m = (Ok u, m') -> P x y m') ->
  forall l m u m', for_pairs l body m = (Ok u, m') ->
  forall i j x y, (i < j)%nat -> nth_error l i = Some x -> nth_error l j = Some y ->
  P x y m'.
Proof.
  intros Hg Hs Hb. induction l as [|a l IH]; intros m u m' Hrun i j x y Hij Hi Hj.
  - destruct i; discriminate.
  - simpl in Hrun. apply bind_Ok in Hrun as (u1 & m1 & H1 & H2).
    destruct j as [|j]; [lia|]. simpl in Hj.
    destruct i as [|i]; simpl in Hi.
    + injection Hi as <-.
      apply (Hs a y m1 m').
      * eapply (for_each_post (P a) (body a)); eauto. eapply nth_error_In; exact Hj.
      * pose proof (grows_for_pairs l body Hg m1) as G. now rewrite H2 in G.
    + eapply IH; [exact H2| |exact Hi|exact Hj]. lia.
Qed.

Lemma In_indexed {A} (l : list A) v x :
  nth_error l v = Some x -> In (v, x) (indexed l).
Proof.
  unfold indexed. change v with (0 + v)%nat at 2. generalize 0%nat as s.
  revert v. induction l as [|a l IH]; intros v s H; [destruct v; discriminate|].
  destruct v as [|v]; simpl in *.
  - injection H as <-. left. f_equal. lia.
  - right. replace (s + S v)%nat with (S s + v)%nat by lia. apply IH. exact H.
Qed.

Lemma solution_posted m a c : is_solution m a = true -> posted m c -> holds a c = true.
Proof.
  unfold is_solution, posted. intros H Hin. apply andb_true_iff in H as [_ H].
  rewrite forallb_forall in H. now apply H.
Qed.

Lemma solution_domain m a v name lb ub :
  is_solution m a = true -> nth_error (variables m) v = Some (name, (lb, ub)) ->
  lb <= a v <= ub.
Proof.
  unfold is_solution. intros H Hv. apply andb_true_iff in H as [H _].
  rewrite forallb_forall in H. specialize (H _ (In_indexed _ _ _ Hv)).
  simpl in H. apply andb_true_iff in H as [H1 H2]. lia.
Qed.

Lemma solution_bool m a b : is_solution m a = true -> is_bool_var m b -> a b = 0 \/ a b = 1.
Proof.
  intros H [name Hb]. pose proof (solution_domain _ _ _ _ _ _ H Hb). lia.
Qed.

(** The two enforced inequalities of a headway constraint keep the two
    start times apart. *)
Lemma headway_apart m a s1 s2 b h :
  is_solution m a = true -> is_bool_var m b ->
  posted m (Linear (Cmp (Var s1) GE (Sum (Var s2) (Const h))) [Pos b]) ->
  posted m (Linear (Cmp (Var s2) GE (Sum (Var s1) (Const h))) [Not b]) ->
  0 <= h -> h <= Z.abs (a s1 - a s2).
Proof.
  intros Hsol Hb H1 H2 Hh.
  pose proof (solution_posted _ _ _ Hsol H1) as P1.
  pose proof (solution_posted _ _ _ Hsol H2) as P2.
  destruct (solution_bool _ _ _ Hsol Hb) as [E|E];
    cbn in P1, P2; rewrite E in P1, P2; cbn in P1, P2.
  - apply Z.leb_le in P2. lia.
  - apply Z.leb_le in P1. lia.
Qed.

Ltac bind_inv H :=
  repeat match type of H with
  | bind (lift ?r) _ ?m = (Ok _, _) =>
      let E := fresh "E" in
      unfold bind at 1, lift at 1 in H; destruct r eqn:E; [|discriminate H]
  | bind _ _ _ = (Ok _, _) =>
      let a := fresh "a" in let m1 := fresh "m" in
      let H1 := fresh "H" in
      apply bind_Ok in H as (a & m1 & H1 & H)
  end.

Lemma posted_last m c : posted (snd (add_constraint c m)) c.
Proof. unfold posted. simpl. apply in_or_app. right. now left. Qed.

Lemma timing_body_post v req t m u m' :
  (start_var <- lift (getitem (Variables.train_start_times v) (Train.id t)) ;;
   end_var <- lift (getitem (Variables.train_end_times v) (Train.id t)) ;;
   delay_var <- lift (getitem (Variables.train_delays v) (Train.id t)) ;;
   expected_journey_time <- lift (_calculate_journey_time t) ;;
   Add (Cmp (Var end_var) EQ (Sum (Var start_var) (Const expected_journey_time))) ;;
   scheduled_start <-
     lift (_datetime_to_minutes (Train.scheduled_departure t)
                                (OptimizationRequest.requested_at req)) ;;
   Add (Cmp (Var start_var) EQ (Sum (Const scheduled_start) (Var delay_var)))) m = (Ok u, m') ->
  timing_posted v req t m'.
Proof.
  intros H. bind_inv H.
  exists a, a0, a1, a2, a4. repeat split; try assumption.
  - apply Add_Ok in H, H0. injection H0 as _ <-. injection H as _ <-.
    unfold posted. simpl. rewrite <- app_assoc. apply in_or_app. right. now left.
  - apply Add_Ok in H. injection H as _ <-. apply posted_last.
Qed.

Lemma timing_posted_extends v req t m m' :
  timing_posted v req t m -> extends m m' -> timing_posted v req t m'.
Proof.
  intros (s & e & d & jt & off & H1 & H2 & H3 & H4 & H5 & H6 & H7) Hext.
  exists s, e, d, jt, off. repeat split; try assumption; eapply posted_extends; eassumption.
Qed.

Lemma timing_post v req m u m' :
  _add_timing_constraints v req m = (Ok u, m') ->
  forall t, In t (OptimizationRequest.trains req) -> timing_posted v req t m'.
Proof.
  intros H. unfold _add_timing_constraints in H.
  eapply (for_each_post (timing_posted v req)); [| | |exact H].
  - intros x. grows_auto.
  - intros x m1 m2. apply timing_posted_extends.
  - intros x m1 u1 m2. apply timing_body_post.
Qed.

Lemma headway_body_post v t1 t2 m u m' :
  (if shared_sections t1 t2 then _add_headway_constraint v t1 t2 5 else ret tt) m = (Ok u, m') ->
  headway_posted v t1 t2 m'.
Proof.
  intros H Hs. rewrite Hs in H. unfold _add_headway_constraint in H. bind_inv H.
  exists a, a0, a1. repeat split; try assumption.
  - apply AddOnlyEnforceIf_Ok in H, H1. injection H1 as _ <-. injection H as _ <-.
    unfold NewBoolVar, add_variable in H0. injection H0 as <- <-.
    eexists. simpl. rewrite nth_error_app2 by lia. rewrite Nat.sub_diag. reflexivity.
  - apply AddOnlyEnforceIf_Ok in H, H1. injection H1 as _ <-. injection H as _ <-.
    unfold posted. simpl. rewrite <- app_assoc. apply in_or_app. right. now left.
  - apply AddOnlyEnforceIf_Ok in H. injection H as _ <-. apply posted_last.
Qed.

Lemma headway_posted_extends v t1 t2 m m' :
  headway_posted v t1 t2 m -> extends m m' -> headway_posted v t1 t2 m'.
Proof.
  intros H Hext Hs. destruct (H Hs) as (s1 & s2 & b & H1 & H2 & H3 & H4 & H5).
  exists s1, s2, b. repeat split; try assumption.
  - eapply is_bool_var_extends; eassumption.
  - eapply posted_extends; eassumption.
  - eapply posted_extends; eassumption.
Qed.

Lemma safety_post v req m u m' :
  _add_safety_constraints v req m = (Ok u, m') ->
  forall i j t1 t2, (i < j)%nat ->
    nth_error (OptimizationRequest.trains req) i = Some t1 ->
    nth_error (OptimizationRequest.trains req) j = Some t2 ->
    headway_posted v t1 t2 m'.
Proof.
  intros H. unfold _add_safety_constraints in H.
  eapply (for_pairs_post (headway_posted v)); [| | |exact H].
  - intros x y. unfold _add_headway_constraint. grows_auto.
  - intros x y m1 m2. apply headway_posted_extends.
  - intros x y m1 u1 m2. apply headway_body_post.
Qed.

Lemma run_extends {A} (c : M A) m r m' : grows c -> c m = (r, m') -> extends m m'.
Proof. intros G H. specialize (G m). now rewrite H in G. Qed.

(** The stages a successfully built model went through. *)
Lemma build_model_posts env req v m :
  build_model env req cp_model.empty = (Ok v, m) ->
  (forall t, In t (OptimizationRequest.trains req) -> timing_posted v req t m)
  /\ (forall i j t1 t2, (i < j)%nat ->
        nth_error (OptimizationRequest.trains req) i = Some t1 ->
        nth_error (OptimizationRequest.trains req) j = Some t2 ->
        headway_posted v t1 t2 m).
Proof.
  intros H. unfold build_model, _add_constraints in H.
  apply bind_Ok in H as (v0 & m0 & Hv & H).
  apply bind_Ok in H as (u1 & m6 & Hc & H).
  apply bind_Ok in H as (u2 & m7 & Ho & H).
  injection H as <- <-.
  apply bind_Ok in Hc as (? & m1 & Ht & Hc).
  apply bind_Ok in Hc as (? & m2 & Hp & Hc).
  apply bind_Ok in Hc as (? & m3 & Hs & Hc).
  apply bind_Ok in Hc as (? & m4 & Hpr & Hc).
  apply bind_Ok in Hc as (? & m5 & Hr & Hc).
  pose proof (run_extends _ _ _ _ (grows_platform _ _) Hp) as X2.
  pose proof (run_extends _ _ _ _ (grows_safety _ _) Hs) as X3.
  pose proof (run_extends _ _ _ _ (grows_priority _ _) Hpr) as X4.
  pose proof (run_extends _ _ _ _ (grows_route _ _) Hr) as X5.
  pose proof (run_extends _ _ _ _ (grows_custom _ _ _) Hc) as X6.
  pose proof (run_extends _ _ _ _ (grows_set_objective' _ _) Ho) as X7.
  assert (E3 : extends m3 m7) by (repeat (eapply extends_trans; [eassumption|]); apply extends_refl).
  assert (E1 : extends m1 m7) by (repeat (eapply extends_trans; [eassumption|]); apply extends_refl).
  split.
  - intros t Hin. eapply timing_posted_extends; [|exact E1]. eapply timing_post; eassumption.
  - intros i j t1 t2 Hij Hi Hj. eapply headway_posted_extends; [|exact E3].
    eapply safety_post; eassumption.
Qed.

(** What a response reporting a solution was built from. *)
Lemma solved_inv env req :
  solved (optimize_schedule env req) ->
  exists v m st a,
    build_model env req cp_model.empty = (Ok v, m)
    /\ Environment.Solve env (_configure_solver (OptimizationRequest.config req)) m = Ok (st, a)
    /\ (st = OPTIMAL \/ st = FEASIBLE)
    /\ rmap (schedule_entry a v req) (OptimizationRequest.trains req)
       = Ok (OptimizationResponse.optimized_schedule (optimize_schedule env req))
    /\ _calculate_performance_metrics
         (OptimizationResponse.optimized_schedule (optimize_schedule env req))
         (OptimizationRequest.trains req) v
       = Ok (OptimizationResponse.kpis (optimize_schedule env req)).
Proof.
  unfold optimize_schedule, optimize_schedule_try, solved.
  destruct (build_model env req cp_model.empty) as [[v|e] m]; simpl;
    [|intros [H|H]; discriminate H].
  destruct (Environment.Solve env _ m) as [[st a]|e] eqn:Hsolve; simpl;
    [|intros [H|H]; discriminate H].
  unfold _process_solution.
  destruct st; simpl; try (intros [H|H]; discriminate H).
  - destruct (rmap _ _) as [sched|e] eqn:Hs; simpl; [|intros [H|H]; discriminate H].
    destruct (_calculate_performance_metrics _ _ _) as [k|e] eqn:Hk; simpl;
      [|intros [H|H]; discriminate H].
    intros _. exists v, m, FEASIBLE, a. auto 10.
  - destruct (rmap _ _) as [sched|e] eqn:Hs; simpl; [|intros [H|H]; discriminate H].
    destruct (_calculate_performance_metrics _ _ _) as [k|e] eqn:Hk; simpl;
      [|intros [H|H]; discriminate H].
    intros _. exists v, m, OPTIMAL, a. auto 10.
Qed.

Lemma rmap_nth {A B} (f : A -> result B) l l' :
  rmap f l = Ok l' ->
  forall i x, nth_error l i = Some x -> exists y, nth_error l' i = Some y /\ f x = Ok y.
Proof.
  revert l'. induction l as [|a l IH]; intros l' H i x Hi; [destruct i; discriminate|].
  simpl in H. destruct (f a) as [b|e] eqn:Hb; [|discriminate]. simpl in H.
  destruct (rmap f l) as [bs|e] eqn:Hbs; [|discriminate]. simpl in H.
  injection H as <-. destruct i as [|i]; simpl in *.
  - injection Hi as <-. now exists b.
  - eapply IH; eauto.
Qed.

Lemma rmap_length {A B} (f : A -> result B) l l' :
  rmap f l = Ok l' -> List.length l' = List.length l.
Proof.
  revert l'. induction l as [|a l IH]; intros l' H; simpl in H.
  - now injection H as <-.
  - destruct (f a); [|discriminate]. simpl in H.
    destruct (rmap f l); [|discriminate]. simpl in H.
    injection H as <-. simpl. f_equal. now apply IH.
Qed.

Ltac rbind_inv H :=
  repeat match type of H with
  | rbind ?r _ = Ok _ =>
      let E := fresh "E" in destruct r eqn:E; [simpl in H|discriminate H]
  end.

(** What an entry of the schedule holds. *)
Lemma schedule_entry_Ok a v req t e :
  schedule_entry a v req t = Ok e ->
  exists s n p d,
    getitem (Variables.train_start_times v) (Train.id t) = Ok s
    /\ getitem (Variables.train_end_times v) (Train.id t) = Ok n
    /\ getitem (Variables.platform_assignments v) (Train.id t) = Ok p
    /\ getitem (Variables.train_delays v) (Train.id t) = Ok d
    /\ TrainScheduleEntry.scheduled_departure e
       = OptimizationRequest.requested_at req + minutes (a s)
    /\ TrainScheduleEntry.scheduled_arrival e
       = OptimizationRequest.requested_at req + minutes (a n)
    /\ TrainScheduleEntry.platform e = a p
    /\ TrainScheduleEntry.delay_adjustment_minutes e = a d
    /\ TrainScheduleEntry.train_id e = Train.id t
    /\ TrainScheduleEntry.train_number e = Train.train_number t
    /\ TrainScheduleEntry.priority_applied e = Train.priority t.
Proof.
  unfold schedule_entry. intros H. rbind_inv H. injection H as <-. simpl.
  exists a0, a1, a2, a3. repeat split; try reflexivity.
  - unfold timedelta_minutes in E3. destruct (_ && _) in E3; [|discriminate].
    injection E3 as <-. unfold datetime_add in E4. destruct (_ && _) in E4; [|discriminate].
    now injection E4 as <-.
  - unfold timedelta_minutes in E5. destruct (_ && _) in E5; [|discriminate].
    injection E5 as <-. unfold datetime_add in E6. destruct (_ && _) in E6; [|discriminate].
    now injection E6 as <-.
Qed.

Lemma shared_sections_sym t1 t2 : shared_sections t1 t2 = shared_sections t2 t1.
Proof.
  unfold shared_sections.
  assert (X : forall l1 l2,
    existsb (fun s => existsb (String.eqb s) l2) l1 = true ->
    existsb (fun s => existsb (String.eqb s) l1) l2 = true).
  { intros l1 l2 H. apply existsb_exists in H as (s & Hs & H).
    apply existsb_exists in H as (s' & Hs' & E). apply String.eqb_eq in E. subst s'.
    apply existsb_exists. exists s. split; [assumption|].
    apply existsb_exists. exists s. split; [assumption|apply String.eqb_refl]. }
  destruct (existsb _ (Train.route_sections t1)) eqn:E1.
  - symmetry. now apply X.
  - destruct (existsb _ (Train.route_sections t2)) eqn:E2; [|reflexivity].
    apply X in E2. congruence.
Qed.

(* ===================================================================== *)
(** ** Solutions and the example solvers *)
(* ===================================================================== *)

(** An equality posted without enforcement literals holds in every
    solution. *)
Lemma posted_equality m a x y :
  is_solution m a = true -> posted m (Linear (Cmp x EQ y) []) -> eval a x = eval a y.
Proof.
  intros Hsol H. pose proof (solution_posted _ _ _ Hsol H) as Q.
  unfold holds, enforced, bounded_holds in Q. cbn [forallb implb lhs rhs op compare] in Q.
  now apply Z.eqb_eq.
Qed.

Import Examples.

(** The solvers of the examples keep the library's contract. *)
Lemma naming_solver_sound table : cp_model.sound (naming_solver table).
Proof.
  intros p m st a H Hst. unfold naming_solver in H.
  destruct (is_solution m (named_assignment table m)) eqn:E.
  - now injection H as _ <-.
  - injection H as <- _. destruct Hst; discriminate.
Qed.

Lemma timeout_solver_sound : cp_model.sound timeout_solver.
Proof. intros p m st a H Hst. injection H as <- _. destruct Hst; discriminate. Qed.

Lemma crashing_solver_sound : cp_model.sound crashing_solver.
Proof. intros p m st a H. discriminate H. Qed.

(** Inversions that leave the models folded. *)
Lemma built_eq {A B} (a a' : A) (b b' : B) : (Ok a, b) = (Ok a', b') -> a = a' /\ b = b'.
Proof. intros H. now injection H. Qed.

Lemma rmap_two {A B} (f : A -> result B) x y l :
  rmap f [x; y] = Ok l -> exists a b, f x = Ok a /\ f y = Ok b /\ l = [a; b].
Proof.
  simpl. destruct (f x) as [a|]; [|discriminate]. simpl.
  destruct (f y) as [b|]; [|discriminate]. simpl. intros [= <-]. now exists a, b.
Qed.

(* ===================================================================== *)
(** ** C1: priority ordering *)
(* ===================================================================== *)

(** A loop whose body does nothing does nothing. *)
Lemma for_each_unchanged {A} (l : list A) (body : A -> M unit) m :
  (forall x, In x l -> body x m = (Ok tt, m)) -> for_each l body m = (Ok tt, m).
Proof.
  induction l as [|x l IH]; intros Hb; simpl; [reflexivity|].
  unfold bind. rewrite (Hb x (or_introl eq_refl)). apply IH.
  intros y Hy. apply Hb. now right.
Qed.

Lemma for_pairs_unchanged {A} (l : list A) (body : A -> A -> M unit) m :
  (forall x y, In x l -> In y l -> body x y m = (Ok tt, m)) ->
  for_pairs l body m = (Ok tt, m).
Proof.
  induction l as [|x l IH]; intros Hb; simpl; [reflexivity|].
  unfold bind. rewrite for_each_unchanged.
  - apply IH. intros y z Hy Hz. apply Hb; now right.
  - intros y Hy. apply Hb; [now left|now right].
Qed.

(** Priorities that are members of [TrainPriority], as the data model
    declares them, all get the default rank: the stage posts nothing. *)
Lemma priority_stage_skips_enum_members v req m :
  Forall (fun t => exists p, Train.priority t = Member p) (OptimizationRequest.trains req) ->
  _add_priority_constraints v req m = (Ok tt, m).
Proof.
  intros H. unfold _add_priority_constraints. apply for_pairs_unchanged.
  intros x y Hx Hy. rewrite Forall_forall in H.
  destruct (H x Hx) as [p ->]. destruct (H y Hy) as [q ->]. reflexivity.
Qed.

Lemma precedence_body_post v t1 t2 m u m' :
  (if engine_rank (Train.priority t1) <? engine_rank (Train.priority t2) then
     if shared_sections t1 t2 then
       start1 <- lift (getitem (Variables.train_start_times v) (Train.id t1)) ;;
       start2 <- lift (getitem (Variables.train_start_times v) (Train.id t2)) ;;
       Add (Cmp (Var start1) LE (Var start2))
     else ret tt
   else ret tt) m = (Ok u, m') ->
  precedence_posted v t1 t2 m'.
Proof.
  intros H Hr Hs. apply Z.ltb_lt in Hr. rewrite Hr, Hs in H. bind_inv H.
  exists a, a0. repeat split; try assumption.
  apply Add_Ok in H. injection H as _ <-. apply posted_last.
Qed.

Lemma precedence_posted_extends v t1 t2 m m' :
  precedence_posted v t1 t2 m -> extends m m' -> precedence_posted v t1 t2 m'.
Proof.
  intros H Hext Hr Hs. destruct (H Hr Hs) as (s1 & s2 & H1 & H2 & H3).
  exists s1, s2. repeat split; try assumption. eapply posted_extends; eassumption.
Qed.

Lemma priority_post v req m u m' :
  _add_priority_constraints v req m = (Ok u, m') ->
  forall i j t1 t2, (i < j)%nat ->
    nth_error (OptimizationRequest.trains req) i = Some t1 ->
    nth_error (OptimizationRequest.trains req) j = Some t2 ->
    precedence_posted v t1 t2 m'.
Proof.
  intros H. unfold _add_priority_constraints in H.
  eapply (for_pairs_post (precedence_posted v)); [| | |exact H].
  - intros x y. grows_auto.
  - intros x y m1 m2. apply precedence_posted_extends.
  - intros x y m1 u1 m2. apply precedence_body_post.
Qed.

Lemma build_model_precedence env req v m :
  build_model env req cp_model.empty = (Ok v, m) ->
  forall i j t1 t2, (i < j)%nat ->
    nth_error (OptimizationRequest.trains req) i = Some t1 ->
    nth_error (OptimizationRequest.trains req) j = Some t2 ->
    precedence_posted v t1 t2 m.
Proof.
  intros H. unfold build_model, _add_constraints in H.
  apply bind_Ok in H as (v0 & m0 & Hv & H).
  apply bind_Ok in H as (u1 & m6 & Hc & H).
  apply bind_Ok in H as (u2 & m7 & Ho & H).
  injection H as <- <-.
  apply bind_Ok in Hc as (? & m1 & Ht & Hc).
  apply bind_Ok in Hc as (? & m2 & Hp & Hc).
  apply bind_Ok in Hc as (? & m3 & Hs & Hc).
  apply bind_Ok in Hc as (? & m4 & Hpr & Hc).
  apply bind_Ok in Hc as (? & m5 & Hr & Hc).
  pose proof (run_extends _ _ _ _ (grows_route _ _) Hr) as X5.
  pose proof (run_extends _ _ _ _ (grows_custom _ _ _) Hc) as X6.
  pose proof (run_extends _ _ _ _ (grows_set_objective' _ _) Ho) as X7.
  assert (E4 : extends m4 m7) by (repeat (eapply extends_trans; [eassumption|]); apply extends_refl).
  intros i j t1 t2 Hij Hi Hj. eapply precedence_posted_extends; [|exact E4].
  eapply priority_post; eassumption.
Qed.

(** What the engine does enforce: of two trains sharing a section, the
    one listed first departs no later than the one listed second when
    the engine ranks it higher, which it can only do for priorities given
    as [str]. *)
Lemma precedence_in_request_order env req i j t1 t2 e1 e2 :
  cp_model.sound (Environment.Solve env) ->
  solved (optimize_schedule env req) ->
  (i < j)%nat ->
  nth_error (OptimizationRequest.trains req) i = Some t1 ->
  nth_error (OptimizationRequest.trains req) j = Some t2 ->
  engine_rank (Train.priority t1) < engine_rank (Train.priority t2) ->
  shared_sections t1 t2 = true ->
  nth_error (OptimizationResponse.optimized_schedule (optimize_schedule env req)) i = Some e1 ->
  nth_error (OptimizationResponse.optimized_schedule (optimize_schedule env req)) j = Some e2 ->
  TrainScheduleEntry.scheduled_departure e1 <= TrainScheduleEntry.scheduled_departure e2.
Proof.
  intros Hsound Hsolved Hij Hi Hj Hrank Hshare He1 He2.
  destruct (solved_inv env req Hsolved) as (v & m & st & a & Hb & Hsolve & Hst & Hmap & _).
  pose proof (Hsound _ _ _ _ Hsolve Hst) as Hsol.
  destruct (build_model_precedence env req v m Hb i j t1 t2 Hij Hi Hj Hrank Hshare)
    as (s1 & s2 & G1 & G2 & P).
  destruct (rmap_nth _ _ _ Hmap i t1 Hi) as (y1 & Y1 & F1).
  destruct (rmap_nth _ _ _ Hmap j t2 Hj) as (y2 & Y2 & F2).
  rewrite He1 in Y1. rewrite He2 in Y2. injection Y1 as <-. injection Y2 as <-.
  apply schedule_entry_Ok in F1 as (s1' & ? & ? & ? & S1 & _ & _ & _ & D1 & _).
  apply schedule_entry_Ok in F2 as (s2' & ? & ? & ? & S2 & _ & _ & _ & D2 & _).
  rewrite G1 in S1. rewrite G2 in S2. injection S1 as <-. injection S2 as <-.
  pose proof (solution_posted _ _ _ Hsol P) as Q.
  unfold holds, enforced, bounded_holds in Q.
  cbn [forallb implb lhs rhs op compare eval] in Q. apply Z.leb_le in Q.
  rewrite D1, D2. unfold minutes. lia.
Qed.

(** C1, on the code: the precedence of the train of higher priority is
    not posted when the train of lower priority is listed first, nor for
    priorities that are members of [TrainPriority]. For a freight train
    listed first and due at minute 0 and an express listed second and due
    at minute 95 on the same section, every solved schedule has the
    freight train depart before the express. *)
Theorem lower_priority_train_listed_first_departs_first env :
  cp_model.sound (Environment.Solve env) ->
  solved (optimize_schedule env freight_then_express) ->
  exists e1 e2,
    OptimizationResponse.optimized_schedule (optimize_schedule env freight_then_express)
    = [e1; e2]
    /\ shared_sections freight late_express = true
    /\ TrainScheduleEntry.priority_applied e1 = Member TrainPriority.FREIGHT
    /\ TrainScheduleEntry.priority_applied e2 = Member TrainPriority.EXPRESS
    /\ rank TrainPriority.EXPRESS < rank TrainPriority.FREIGHT
    /\ TrainScheduleEntry.scheduled_departure e1 < TrainScheduleEntry.scheduled_departure e2.
Proof.
  intros Hsound Hsolved.
  destruct (solved_inv _ _ Hsolved) as (v & m & st & a & Hb & Hsolve & Hst & Hmap & _).
  pose proof (Hsound _ _ _ _ Hsolve Hst) as Hsol.
  assert (Hc : build_model env freight_then_express cp_model.empty
               = (Ok (variables_of freight_then_express), model_of freight_then_express))
    by (vm_compute; reflexivity).
  rewrite Hc in Hb. apply built_eq in Hb as [<- <-].
  remember (OptimizationResponse.optimized_schedule (optimize_schedule env freight_then_express))
    as sched eqn:Hsched. clear Hsched.
  change (OptimizationRequest.trains freight_then_express) with [freight; late_express] in Hmap.
  apply rmap_two in Hmap as (e1 & e2 & F1 & F2 & ->).
  exists e1, e2.
  apply schedule_entry_Ok in F1 as (s1 & n1 & p1 & d1 & S1 & _ & _ & _ & D1 & _ & _ & _ & _ & _ & P1).
  apply schedule_entry_Ok in F2 as (s2 & n2 & p2 & d2 & S2 & _ & _ & _ & D2 & _ & _ & _ & _ & _ & P2).
  vm_compute in S1, S2. injection S1 as <-. injection S2 as <-.
  assert (T1 : posted (model_of freight_then_express)
                 (Linear (Cmp (Var 0%nat) EQ (Sum (Const 0) (Var 3%nat))) [])).
  { unfold posted. apply (nth_error_In _ 1%nat). vm_compute. reflexivity. }
  assert (T2 : posted (model_of freight_then_express)
                 (Linear (Cmp (Var 5%nat) EQ (Sum (Const 95) (Var 8%nat))) [])).
  { unfold posted. apply (nth_error_In _ 3%nat). vm_compute. reflexivity. }
  pose proof (posted_equality _ _ _ _ Hsol T1) as Q1.
  pose proof (posted_equality _ _ _ _ Hsol T2) as Q2.
  cbn [eval] in Q1, Q2.
  assert (B1 : -30 <= a 3%nat <= 60).
  { apply (solution_domain _ _ _ "delay_F1"%string _ _ Hsol). vm_compute. reflexivity. }
  assert (B2 : -30 <= a 8%nat <= 60).
  { apply (solution_domain _ _ _ "delay_E1"%string _ _ Hsol). vm_compute. reflexivity. }
  repeat split; try assumption; try reflexivity.
  rewrite D1, D2. unfold minutes. lia.
Qed.

(** The freight train due first, the express 95 minutes later. *)
Lemma priority_witness :
  exists e1 e2,
    OptimizationResponse.optimized_schedule freight_first_response = [e1; e2]
    /\ shared_sections freight late_express = true
    /\ TrainScheduleEntry.priority_applied e1 = Member TrainPriority.FREIGHT
    /\ TrainScheduleEntry.priority_applied e2 = Member TrainPriority.EXPRESS
    /\ rank TrainPriority.EXPRESS < rank TrainPriority.FREIGHT
    /\ TrainScheduleEntry.scheduled_departure e1 < TrainScheduleEntry.scheduled_departure e2.
Proof.
  apply (lower_priority_train_listed_first_departs_first
           (environment (naming_solver freight_first))).
  - apply naming_solver_sound.
  - right. vm_compute. reflexivity.
Defined.

(* ===================================================================== *)
(** ** C2: headway *)
(* ===================================================================== *)

Section SolvedSchedules.

Variable env : Environment.t.
Variable req : OptimizationRequest.t.
Hypothesis solver_sound : cp_model.sound (Environment.Solve env).

(** The headway of two trains, the first listed before the second. *)
Lemma headway_in_order i j t1 t2 e1 e2 :
  solved (optimize_schedule env req) -> (i < j)%nat ->
  nth_error (OptimizationRequest.trains req) i = Some t1 ->
  nth_error (OptimizationRequest.trains req) j = Some t2 ->
  shared_sections t1 t2 = true ->
  nth_error (OptimizationResponse.optimized_schedule (optimize_schedule env req)) i = Some e1 ->
  nth_error (OptimizationResponse.optimized_schedule (optimize_schedule env req)) j = Some e2 ->
  minutes 5 <=
    Z.abs (TrainScheduleEntry.scheduled_departure e1 - TrainScheduleEntry.scheduled_departure e2).
Proof.
  intros Hsolved Hij Hi Hj Hshare He1 He2.
  destruct (solved_inv env req Hsolved) as (v & m & st & a & Hb & Hsolve & Hst & Hmap & _).
  pose proof (solver_sound _ _ _ _ Hsolve Hst) as Hsol.
  destruct (build_model_posts env req v m Hb) as [_ Hhead].
  destruct (Hhead i j t1 t2 Hij Hi Hj Hshare) as (s1 & s2 & b & G1 & G2 & Gb & P1 & P2).
  destruct (rmap_nth _ _ _ Hmap i t1 Hi) as (y1 & Y1 & F1).
  destruct (rmap_nth _ _ _ Hmap j t2 Hj) as (y2 & Y2 & F2).
  rewrite He1 in Y1. rewrite He2 in Y2.
  injection Y1 as <-. injection Y2 as <-.
  apply schedule_entry_Ok in F1 as (s1' & ? & ? & ? & S1 & _ & _ & _ & D1 & _).
  apply schedule_entry_Ok in F2 as (s2' & ? & ? & ? & S2 & _ & _ & _ & D2 & _).
  rewrite G1 in S1. rewrite G2 in S2. injection S1 as <-. injection S2 as <-.
  rewrite D1, D2.
  pose proof (headway_apart m a s1 s2 b 5 Hsol Gb P1 P2 ltac:(lia)) as Hapart.
  unfold minutes. lia.
Qed.

End SolvedSchedules.

(** C2: in every solved schedule, two trains of the request that share a
    route section depart at least five minutes apart. *)
Theorem headway_between_trains_sharing_a_section env req i j t1 t2 e1 e2 :
  cp_model.sound (Environment.Solve env) ->
  solved (optimize_schedule env req) ->
  i <> j ->
  nth_error (OptimizationRequest.trains req) i = Some t1 ->
  nth_error (OptimizationRequest.trains req) j = Some t2 ->
  shared_sections t1 t2 = true ->
  nth_error (OptimizationResponse.optimized_schedule (optimize_schedule env req)) i = Some e1 ->
  nth_error (OptimizationResponse.optimized_schedule (optimize_schedule env req)) j = Some e2 ->
  minutes 5 <=
    Z.abs (TrainScheduleEntry.scheduled_departure e1 - TrainScheduleEntry.scheduled_departure e2).
Proof.
  intros Hsound Hsolved Hij Hi Hj Hshare He1 He2.
  destruct (Nat.lt_total i j) as [Hlt|[Heq|Hgt]]; [|contradiction|].
  - eapply headway_in_order; eassumption.
  - rewrite <- Z.abs_opp.
    replace (- (TrainScheduleEntry.scheduled_departure e1
                - TrainScheduleEntry.scheduled_departure e2))
      with (TrainScheduleEntry.scheduled_departure e2
            - TrainScheduleEntry.scheduled_departure e1) by lia.
    rewrite shared_sections_sym in Hshare.
    eapply headway_in_order; eassumption.
Qed.

(** The two trains of the scenario, both on time: five minutes apart. *)
Lemma headway_witness :
  solved on_time_response
  /\ shared_sections express passenger = true
  /\ minutes 5 <=
       Z.abs (TrainScheduleEntry.scheduled_departure (entry on_time_response 0)
              - TrainScheduleEntry.scheduled_departure (entry on_time_response 1)).
Proof.
  split; [right; vm_compute; reflexivity|].
  split; [reflexivity|].
  apply (headway_between_trains_sharing_a_section
           (environment (naming_solver on_time)) two_trains 0 1 express passenger).
  - apply naming_solver_sound.
  - right. vm_compute. reflexivity.
  - discriminate.
  - reflexivity.
  - reflexivity.
  - reflexivity.
  - vm_compute. reflexivity.
  - vm_compute. reflexivity.
Defined.

(* ===================================================================== *)
(** ** C3: one entry per train *)
(* ===================================================================== *)

(** A property of every element carries over a successful [rmap]. *)
Lemma rmap_Forall2 {A B} (f : A -> result B) (R : A -> B -> Prop) l l' :
  (forall x y, f x = Ok y -> R x y) -> rmap f l = Ok l' -> Forall2 R l l'.
Proof.
  intros HR. revert l'. induction l as [|a l IH]; intros l' H; simpl in H.
  - injection H as <-. constructor.
  - destruct (f a) as [b|] eqn:Hb; [|discriminate]. simpl in H.
    destruct (rmap f l) as [bs|]; [|discriminate]. simpl in H.
    injection H as <-. constructor; auto.
Qed.

(** C3: a response that reports a solution lists one entry per train of
    the request, in the request's order; a response whose status is
    INFEASIBLE or ERROR lists none. *)
Theorem schedule_follows_the_trains env req :
  (solved (optimize_schedule env req) ->
     Forall2 entry_of (OptimizationRequest.trains req)
             (OptimizationResponse.optimized_schedule (optimize_schedule env req))
     /\ List.length (OptimizationResponse.optimized_schedule (optimize_schedule env req))
        = List.length (OptimizationRequest.trains req))
  /\ (OptimizationResponse.status (optimize_schedule env req) = OptimizationStatus.INFEASIBLE
      \/ OptimizationResponse.status (optimize_schedule env req) = OptimizationStatus.ERROR ->
      OptimizationResponse.optimized_schedule (optimize_schedule env req) = []).
Proof.
  split.
  - intros Hsolved.
    destruct (solved_inv env req Hsolved) as (v & m & st & a & _ & _ & _ & Hmap & _).
    split; [|eapply rmap_length; exact Hmap].
    eapply rmap_Forall2; [|exact Hmap].
    intros t e H. apply schedule_entry_Ok in H as (? & ? & ? & ? & H).
    unfold entry_of. tauto.
  - unfold optimize_schedule, optimize_schedule_try.
    destruct (build_model env req cp_model.empty) as [[v|e] m]; simpl; [|reflexivity].
    destruct (Environment.Solve env _ m) as [[st a]|e]; simpl; [|reflexivity].
    unfold _process_solution.
    destruct st; simpl; try reflexivity.
    + destruct (rmap _ _); simpl; [|reflexivity].
      destruct (_calculate_performance_metrics _ _ _); simpl; [|reflexivity].
      intros [H|H]; discriminate H.
    + destruct (rmap _ _); simpl; [|reflexivity].
      destruct (_calculate_performance_metrics _ _ _); simpl; [|reflexivity].
      intros [H|H]; discriminate H.
Qed.

(** A solved run, a run out of time and a crashing solver. *)
Lemma schedule_order_witness :
  Forall2 entry_of (OptimizationRequest.trains two_trains)
          (OptimizationResponse.optimized_schedule on_time_response)
  /\ OptimizationResponse.optimized_schedule timed_out_response = []
  /\ OptimizationResponse.optimized_schedule
       (optimize_schedule (environment crashing_solver) two_trains) = [].
Proof.
  split.
  - apply (schedule_follows_the_trains (environment (naming_solver on_time)) two_trains).
    right. vm_compute. reflexivity.
  - split; vm_compute; reflexivity.
Defined.

(* ===================================================================== *)
(** ** C4: the time horizon *)
(* ===================================================================== *)

(** C4, on the code: the horizon is not checked. For the request of the
    engine's own error-handling test, horizon 0 and no trains, the model
    handed to the solver is the empty problem, which every assignment
    solves, and the response carries the solver's status: it is ERROR
    only if the solver calls the empty problem invalid. *)
Theorem zero_horizon_is_not_rejected env st a :
  Environment.Solve env (_configure_solver OptimizationConfig.default) empty_problem
  = Ok (st, a) ->
  build_model env zero_horizon cp_model.empty = (Ok Variables.empty, empty_problem)
  /\ is_solution empty_problem a = true
  /\ OptimizationResponse.status (optimize_schedule env zero_horizon) = status_of st
  /\ (st <> MODEL_INVALID ->
      OptimizationResponse.status (optimize_schedule env zero_horizon)
      <> OptimizationStatus.ERROR)
  /\ (st = OPTIMAL \/ st = FEASIBLE ->
      OptimizationResponse.error_message (optimize_schedule env zero_horizon) = ""%string
      /\ OptimizationResponse.optimized_schedule (optimize_schedule env zero_horizon) = []).
Proof.
  intros Hsolve.
  assert (Hb : build_model env zero_horizon cp_model.empty = (Ok Variables.empty, empty_problem))
    by reflexivity.
  assert (Hr : optimize_schedule env zero_horizon
               = match _process_solution env st a Variables.empty zero_horizon with
                 | Ok r => r
                 | Raise e => _create_error_response env zero_horizon (str_exn e)
                 end).
  { unfold optimize_schedule, optimize_schedule_try. rewrite Hb.
    change (OptimizationRequest.config zero_horizon) with OptimizationConfig.default.
    rewrite Hsolve. reflexivity. }
  split; [exact Hb|]. split; [reflexivity|].
  rewrite Hr. destruct st; repeat split; try reflexivity; try discriminate;
    try (intros H; now contradiction H);
    try match goal with H : _ \/ _ |- _ => destruct H; discriminate end.
Qed.

(** The solver that tries the lower bounds answers FEASIBLE on the empty
    problem. *)
Lemma zero_horizon_witness :
  OptimizationResponse.status
    (optimize_schedule (environment (naming_solver [])) zero_horizon)
  = OptimizationStatus.FEASIBLE
  /\ OptimizationResponse.error_message
       (optimize_schedule (environment (naming_solver [])) zero_horizon) = ""%string.
Proof.
  destruct (zero_horizon_is_not_rejected (environment (naming_solver [])) FEASIBLE
              (named_assignment [] empty_problem))
    as (_ & _ & Hs & _ & He).
  - vm_compute. reflexivity.
  - split; [exact Hs|]. apply He. now right.
Defined.

(* ===================================================================== *)
(** ** C5: confidence *)
(* ===================================================================== *)

(** C5, as stated, fails: when the solver runs out of time the response
    has status TIME_LIMIT_EXCEEDED and confidence 0.0, not 0.75. *)
Lemma timeout_confidence_counterexample :
  OptimizationResponse.status timed_out_response = OptimizationStatus.TIME_LIMIT_EXCEEDED
  /\ OptimizationResponse.confidence_score timed_out_response = 0.0%float
  /\ specified_confidence (OptimizationResponse.status timed_out_response) = 0.75%float
  /\ OptimizationResponse.confidence_score timed_out_response
     <> specified_confidence (OptimizationResponse.status timed_out_response).
Proof.
  repeat split; try (vm_compute; reflexivity).
  intros H. apply (f_equal (fun x => PrimFloat.eqb x 0)) in H. vm_compute in H. discriminate H.
Qed.

(** C5, as the code has it: the confidence of a response is 1.0 when its
    status is OPTIMAL, 0.85 when it is FEASIBLE, and 0.0 for every other
    status, TIME_LIMIT_EXCEEDED included. The helper
    [_calculate_confidence_score] has the mapping of the specification,
    0.75 for TIME_LIMIT_EXCEEDED, but the pipeline calls it for OPTIMAL
    and FEASIBLE only. *)
Theorem confidence_follows_the_status env req :
  OptimizationResponse.confidence_score (optimize_schedule env req)
  = confidence_of_status (OptimizationResponse.status (optimize_schedule env req))
  /\ forall s, _calculate_confidence_score s = specified_confidence s.
Proof.
  split; [|intros s; destruct s; reflexivity].
  unfold optimize_schedule, optimize_schedule_try.
  destruct (build_model env req cp_model.empty) as [[v|e] m]; simpl; [|reflexivity].
  destruct (Environment.Solve env _ m) as [[st a]|e]; simpl; [|reflexivity].
  unfold _process_solution.
  destruct st; simpl; try reflexivity.
  - destruct (rmap _ _); simpl; [|reflexivity].
    destruct (_calculate_performance_metrics _ _ _); reflexivity.
  - destruct (rmap _ _); simpl; [|reflexivity].
    destruct (_calculate_performance_metrics _ _ _); reflexivity.
Qed.

(* ===================================================================== *)
(** ** C6: exceptions *)
(* ===================================================================== *)

(** C6: [optimize_schedule] always answers a response. An exception
    raised while the variables are created, while the constraints are
    applied, by the solver, or anywhere else under [try], becomes the
    response with status ERROR, an empty schedule and the exception's
    text as its error message. *)
Theorem exceptions_become_error_responses env req e :
  fst (_create_decision_variables req cp_model.empty) = Raise e
  \/ (exists v m, _create_decision_variables req cp_model.empty = (Ok v, m)
                  /\ fst (_add_constraints env v req m) = Raise e)
  \/ (exists v m, build_model env req cp_model.empty = (Ok v, m)
                  /\ Environment.Solve env
                       (_configure_solver (OptimizationRequest.config req)) m = Raise e)
  \/ optimize_schedule_try env req = Raise e ->
  optimize_schedule env req = _create_error_response env req (str_exn e)
  /\ OptimizationResponse.status (optimize_schedule env req) = OptimizationStatus.ERROR
  /\ OptimizationResponse.error_message (optimize_schedule env req) = str_exn e
  /\ OptimizationResponse.optimized_schedule (optimize_schedule env req) = []
  /\ OptimizationResponse.request_id (optimize_schedule env req)
     = OptimizationRequest.request_id req.
Proof.
  intros H.
  assert (Htry : optimize_schedule_try env req = Raise e).
  { unfold optimize_schedule_try, build_model.
    destruct H as [H|[(v & m & Hv & H)|[(v & m & Hb & H)|H]]].
    - unfold bind at 1. destruct (_create_decision_variables req cp_model.empty) as [[v|e'] m];
        simpl in H; [discriminate|]. now injection H as ->.
    - unfold bind at 1. rewrite Hv. unfold bind at 1.
      destruct (_add_constraints env v req m) as [[u|e'] m']; simpl in H; [discriminate|].
      now injection H as ->.
    - unfold build_model in Hb. rewrite Hb. rewrite H. reflexivity.
    - exact H. }
  unfold optimize_schedule. rewrite Htry. simpl. auto.
Qed.

(** A train whose maximum speed is NaN: [int] raises while the variables
    are created. *)
Lemma error_response_witness :
  OptimizationResponse.status
    (optimize_schedule (environment timeout_solver) broken_request) = OptimizationStatus.ERROR
  /\ OptimizationResponse.error_message
       (optimize_schedule (environment timeout_solver) broken_request)
     = "cannot convert float NaN to integer"%string.
Proof.
  destruct (exceptions_become_error_responses (environment timeout_solver) broken_request
              (ValueError "cannot convert float NaN to integer"))
    as (_ & Hs & He & _).
  - left. vm_compute. reflexivity.
  - split; [exact Hs|exact He].
Defined.

(* ===================================================================== *)
(** ** C7: the delay objective *)
(* ===================================================================== *)

(** The value of [sum(terms)]. *)
Lemma eval_sum a ts e0 :
  eval a (List.fold_left Sum ts e0) = List.fold_left Z.add (List.map (eval a) ts) (eval a e0).
Proof.
  revert e0. induction ts as [|t ts IH]; intros e0; simpl; [reflexivity|]. now rewrite IH.
Qed.

Lemma getitem_get {V} (d : dict V) k x : getitem d k = Ok x -> get d k = Some x.
Proof. unfold getitem. destruct (get d k); [now intros [= ->]|discriminate]. Qed.

Lemma delay_terms_fold v a l acc m ts m' :
  for_fold l acc
    (fun objective_terms train =>
       delay_var <- lift (getitem (Variables.train_delays v) (Train.id train)) ;;
       ret (objective_terms ++ [Var delay_var])) m = (Ok ts, m') ->
  m' = m /\ List.map (eval a) ts = List.map (eval a) acc ++ List.map (delay_value a v) l.
Proof.
  revert acc m ts m'. induction l as [|t l IH]; intros acc m ts m' H; simpl in H.
  - injection H as <- <-. now rewrite app_nil_r.
  - unfold bind at 1 in H. unfold bind at 1, lift at 1 in H.
    destruct (getitem _ _) as [d|] eqn:Hd; [|discriminate]. cbn [ret] in H.
    destruct (IH _ _ _ _ H) as [E1 E2]. split; [exact E1|].
    rewrite E2, map_app, <- app_assoc. simpl. unfold delay_value at 2.
    now rewrite (getitem_get _ _ _ Hd).
Qed.

Lemma delay_terms_Ok v req m ts m' :
  delay_terms v req m = (Ok ts, m') ->
  m' = m /\ forall a, eval a (cp_model.sum ts) = total_signed_delay a v (OptimizationRequest.trains req).
Proof.
  intros H. split.
  - exact (proj1 (delay_terms_fold v (fun _ => 0) _ _ _ _ _ H)).
  - intros a. pose proof (proj2 (delay_terms_fold v a _ _ _ _ _ H)) as H'.
    unfold cp_model.sum, total_signed_delay, Py.sum. rewrite eval_sum, H'. reflexivity.
Qed.

Lemma set_objective_minimize_delay v req m u m' :
  asks_minimize_delay req -> _set_objective v req m = (Ok u, m') ->
  exists e, objective m' = Some (Minimizing e)
            /\ forall a, eval a e = total_signed_delay a v (OptimizationRequest.trains req).
Proof.
  intros Hask H.
  assert (H' : (objective_terms <- delay_terms v req ;; Minimize (cp_model.sum objective_terms)) m
               = (Ok u, m')).
  { unfold _set_objective in H. destruct Hask as [E|E]; rewrite E in H; exact H. }
  apply bind_Ok in H' as (ts & m1 & Hd & Hm).
  apply delay_terms_Ok in Hd as [-> Hd].
  unfold Minimize, set_objective in Hm. injection Hm as _ <-. simpl.
  exists (cp_model.sum ts). split; [reflexivity|exact Hd].
Qed.

(** C7, as stated, fails: with the express five minutes early and the
    passenger train two minutes late, the objective of the model is
    -5 + 2 = -3, while the weighted positive delay is 8 * 0 + 4 * 2 = 8. *)
Lemma weighted_delay_counterexample :
  asks_minimize_delay two_trains
  /\ build_model (environment (naming_solver shifted)) two_trains cp_model.empty
     = (Ok (variables_of two_trains), model_of two_trains)
  /\ solved shifted_response
  /\ objective (model_of two_trains)
     = Some (Minimizing (Sum (Sum (Const 0) (Var 3%nat)) (Var 9%nat)))
  /\ eval (named_assignment shifted (model_of two_trains)) (Sum (Sum (Const 0) (Var 3%nat)) (Var 9%nat))
     = -3
  /\ specified_delay_objective (named_assignment shifted (model_of two_trains))
       (variables_of two_trains) (OptimizationRequest.trains two_trains) = 8.
Proof.
  split; [left; reflexivity|].
  split; [vm_compute; reflexivity|].
  split; [right; vm_compute; reflexivity|].
  repeat split; vm_compute; reflexivity.
Qed.

(** C7, as the code has it: when the request asks to minimise delay, the
    objective the solver minimises is the plain sum of the trains' delay
    variables: no weight by priority, and an early departure counts
    negative. *)
Theorem minimize_delay_objective_is_the_signed_sum env req v m :
  asks_minimize_delay req ->
  build_model env req cp_model.empty = (Ok v, m) ->
  exists e, objective m = Some (Minimizing e)
            /\ forall a, eval a e = total_signed_delay a v (OptimizationRequest.trains req).
Proof.
  intros Hask H. unfold build_model in H.
  apply bind_Ok in H as (v0 & m0 & Hv & H).
  apply bind_Ok in H as (u1 & m6 & Hc & H).
  apply bind_Ok in H as (u2 & m7 & Ho & H).
  injection H as <- <-.
  eapply set_objective_minimize_delay; eassumption.
Qed.

(** The objective of the scenario's model. *)
Lemma objective_witness :
  exists e, objective (model_of two_trains) = Some (Minimizing e)
            /\ forall a, eval a e
                         = total_signed_delay a (variables_of two_trains)
                             (OptimizationRequest.trains two_trains).
Proof.
  apply (minimize_delay_objective_is_the_signed_sum
           (environment (naming_solver shifted)) two_trains).
  - left. reflexivity.
  - vm_compute. reflexivity.
Defined.

(* ===================================================================== *)
(** ** C8: timing *)
(* ===================================================================== *)

(** C8, as stated, fails: for seven sections at 42 km/h the engine's
    journey time is 124 minutes, while [int(60 * (10 * 7) / min(0.8 * 42, 80))]
    is 125; the solved schedule has the train arrive 124 minutes after
    it departs. *)
Lemma journey_time_counterexample :
  cp_model.sound (naming_solver slow_values)
  /\ solved slow_response
  /\ nth_error (OptimizationRequest.trains slow_request) 0 = Some slow_train
  /\ nth_error (OptimizationResponse.optimized_schedule slow_response) 0
     = Some (entry slow_response 0)
  /\ specified_journey_time slow_train = Ok 125
  /\ _calculate_journey_time slow_train = Ok 124
  /\ TrainScheduleEntry.scheduled_arrival (entry slow_response 0)
     = TrainScheduleEntry.scheduled_departure (entry slow_response 0) + minutes 124
  /\ TrainScheduleEntry.scheduled_arrival (entry slow_response 0)
     <> TrainScheduleEntry.scheduled_departure (entry slow_response 0) + minutes 125.
Proof.
  split; [apply naming_solver_sound|].
  split; [right; vm_compute; reflexivity|].
  repeat split; try (vm_compute; reflexivity).
  vm_compute. discriminate.
Qed.

(** C8, as the code has it: in every solved schedule a train arrives its
    journey time, as [_calculate_journey_time] computes it, after it
    departs, and departs at its scheduled offset from the request's
    reference time plus its delay. *)
Theorem timing_of_a_solved_train env req i t e :
  cp_model.sound (Environment.Solve env) ->
  solved (optimize_schedule env req) ->
  nth_error (OptimizationRequest.trains req) i = Some t ->
  nth_error (OptimizationResponse.optimized_schedule (optimize_schedule env req)) i = Some e ->
  exists journey_time offset,
    _calculate_journey_time t = Ok journey_time
    /\ _datetime_to_minutes (Train.scheduled_departure t)
                            (OptimizationRequest.requested_at req) = Ok offset
    /\ TrainScheduleEntry.scheduled_arrival e
       = TrainScheduleEntry.scheduled_departure e + minutes journey_time
    /\ TrainScheduleEntry.scheduled_departure e
       = OptimizationRequest.requested_at req
         + minutes (offset + TrainScheduleEntry.delay_adjustment_minutes e).
Proof.
  intros Hsound Hsolved Hi He.
  destruct (solved_inv env req Hsolved) as (v & m & st & a & Hb & Hsolve & Hst & Hmap & _).
  pose proof (Hsound _ _ _ _ Hsolve Hst) as Hsol.
  destruct (build_model_posts env req v m Hb) as [Htime _].
  destruct (Htime t (nth_error_In _ _ Hi))
    as (s & n & d & jt & off & G1 & G2 & G3 & J & O & P1 & P2).
  destruct (rmap_nth _ _ _ Hmap i t Hi) as (y & Y & F).
  rewrite He in Y. injection Y as <-.
  apply schedule_entry_Ok in F as (s' & n' & p' & d' & S1 & S2 & _ & S4 & D1 & D2 & _ & D4 & _).
  rewrite G1 in S1. rewrite G2 in S2. rewrite G3 in S4.
  injection S1 as <-. injection S2 as <-. injection S4 as <-.
  pose proof (posted_equality _ _ _ _ Hsol P1) as Q1.
  pose proof (posted_equality _ _ _ _ Hsol P2) as Q2.
  cbn [eval] in Q1, Q2.
  exists jt, off. rewrite D1, D2, D4. unfold minutes. repeat split; try assumption; lia.
Qed.

(** The express of the scenario, solved five minutes early. *)
Lemma timing_witness :
  exists journey_time offset,
    _calculate_journey_time express = Ok journey_time
    /\ _datetime_to_minutes (Train.scheduled_departure express) base_time = Ok offset
    /\ TrainScheduleEntry.scheduled_arrival (entry shifted_response 0)
       = TrainScheduleEntry.scheduled_departure (entry shifted_response 0) + minutes journey_time
    /\ TrainScheduleEntry.scheduled_departure (entry shifted_response 0)
       = base_time
         + minutes (offset
                    + TrainScheduleEntry.delay_adjustment_minutes (entry shifted_response 0)).
Proof.
  apply (timing_of_a_solved_train (environment (naming_solver shifted)) two_trains 0 express).
  - apply naming_solver_sound.
  - right. vm_compute. reflexivity.
  - reflexivity.
  - vm_compute. reflexivity.
Defined.

(* ===================================================================== *)
(** ** Request-supplied constraints never raise *)
(* ===================================================================== *)

(** A loop whose body never raises never raises. *)
Lemma for_each_total {A} (l : list A) (body : A -> M unit) :
  (forall x m, exists m', body x m = (Ok tt, m')) ->
  forall m, exists m', for_each l body m = (Ok tt, m').
Proof.
  intros Hb. induction l as [|x l IH]; intros m; simpl.
  - now exists m.
  - unfold bind. destruct (Hb x m) as [m1 ->]. apply IH.
Qed.






Lemma registry_add_constraint_total env v c m :
  exists ok m', ConstraintBuilder.add_constraint env v c m = (Ok ok, m').
Proof.
  unfold ConstraintBuilder.add_constraint.
  destruct (negb _); [now exists false, m|].
  unfold catch.
  match goal with |- context [match ?x with _ => _ end] => destruct x as [[ok|e] m1] end.
  - now exists ok, m1.
  - now exists false, m1.
Qed.



(* ===================================================================== *)
(** ** C10: performance metrics *)
(* ===================================================================== *)

(** The quotient of two [int]s, the divisor a non-zero constant. *)
Lemma truediv_int_Ok n d fd q :
  d <> 0 -> float_of_int d = Ok fd -> truediv (Int n) (Int d) = Ok q ->
  exists fn, float_of_int n = Ok fn /\ q = Float (fn / fd)%float.
Proof.
  intros Hd Hfd. unfold truediv.
  destruct (Z.eqb_spec d 0) as [->|_]; [contradiction|].
  destruct (float_of_int n) as [fn|]; [|discriminate]. cbn [rbind].
  rewrite Hfd. cbn [rbind]. intros [= <-]. now exists fn.
Qed.

Lemma float_of_int_2 : float_of_int 2 = Ok 2%float.
Proof. vm_compute. reflexivity. Qed.

Lemma float_of_int_20 : float_of_int 20 = Ok 20%float.
Proof. vm_compute. reflexivity. Qed.

Lemma float_of_int_100 : float_of_int 100 = Ok 100%float.
Proof. vm_compute. reflexivity. Qed.

(** C10: the throughput and the utilisation of a solved schedule of [n]
    entries are [n / 2] and [min(n / 20 * 100, 100)], whatever the
    request's time horizon. *)
Theorem metrics_use_a_two_hour_window env req :
  solved (optimize_schedule env req) ->
  exists n : float,
    float_of_int (len (OptimizationResponse.optimized_schedule (optimize_schedule env req)))
    = Ok n
    /\ len (OptimizationResponse.optimized_schedule (optimize_schedule env req))
       = len (OptimizationRequest.trains req)
    /\ PerformanceMetrics.throughput_trains_per_hour
         (OptimizationResponse.kpis (optimize_schedule env req))
       = Float (n / 2)%float
    /\ PerformanceMetrics.utilization_percent
         (OptimizationResponse.kpis (optimize_schedule env req))
       = Py.min (Float (n / 20 * 100)%float) (Int 100).
Proof.
  intros Hsolved.
  destruct (solved_inv env req Hsolved) as (v & m & st & a & _ & _ & _ & Hmap & Hk).
  apply rmap_length in Hmap.
  remember (OptimizationResponse.optimized_schedule (optimize_schedule env req)) as sched.
  remember (OptimizationResponse.kpis (optimize_schedule env req)) as kpis.
  clear Heqsched Heqkpis.
  unfold _calculate_performance_metrics in Hk. rbind_inv Hk.
  injection Hk as <-. simpl.
  change (2 * 10) with 20 in E1.
  destruct (truediv_int_Ok _ 20 _ _ ltac:(lia) float_of_int_20 E1) as (fn & Hn & ->).
  destruct (truediv_int_Ok _ 2 _ _ ltac:(lia) float_of_int_2 E3) as (fn' & Hn' & ->).
  rewrite Hn in Hn'. injection Hn' as <-.
  exists fn. repeat split.
  - exact Hn.
  - unfold len. now rewrite Hmap.
  - unfold mul, to_float in E2. rewrite float_of_int_100 in E2. cbn [rbind] in E2.
    now injection E2 as <-.
Qed.

(** The metrics of the scenario's two entries. *)
Lemma metrics_witness :
  exists n : float,
    float_of_int (len (OptimizationResponse.optimized_schedule on_time_response)) = Ok n
    /\ len (OptimizationResponse.optimized_schedule on_time_response)
       = len (OptimizationRequest.trains two_trains)
    /\ PerformanceMetrics.throughput_trains_per_hour (OptimizationResponse.kpis on_time_response)
       = Float (n / 2)%float
    /\ PerformanceMetrics.utilization_percent (OptimizationResponse.kpis on_time_response)
       = Py.min (Float (n / 20 * 100)%float) (Int 100).
Proof.
  apply (metrics_use_a_two_hour_window (environment (naming_solver on_time)) two_trains).
  right. vm_compute. reflexivity.
Defined.

Import Scenarios.

(* ===================================================================== *)
(** ** Domains of the decision variables *)
(* ===================================================================== *)

Lemma get_set_same {V} (d : dict V) k v : get (set d k v) k = Some v.
Proof.
  induction d as [|[k' v'] d IH]; simpl.
  - now rewrite String.eqb_refl.
  - destruct (String.eqb k' k) eqn:E; simpl.
    + now rewrite String.eqb_refl.
    + now rewrite E.
Qed.

Lemma get_set_other {V} (d : dict V) k k' v : k <> k' -> get (set d k v) k' = get d k'.
Proof.
  intros Hne. induction d as [|[k0 v0] d IH]; simpl.
  - destruct (String.eqb_spec k k'); [contradiction|reflexivity].
  - destruct (String.eqb_spec k0 k) as [->|Hk]; simpl.
    + destruct (String.eqb_spec k k'); [contradiction|reflexivity].
    + destruct (String.eqb k0 k'); [reflexivity|exact IH].
Qed.

Lemma keys_set {V W} (d1 : dict V) (d2 : dict W) k v w :
  keys d1 = keys d2 -> keys (set d1 k v) = keys (set d2 k w).
Proof.
  revert d2. induction d1 as [|[k1 v1] d1 IH]; intros [|[k2 v2] d2] H; simpl in *;
    try discriminate; [reflexivity|].
  injection H as -> H. destruct (String.eqb k2 k); simpl.
  - now rewrite H.
  - f_equal. now apply IH.
Qed.

Lemma has_domain_extends m m' x lb ub : extends m m' -> has_domain m x lb ub -> has_domain m' x lb ub.
Proof.
  intros [[vs Hvs] _] [name H]. exists name. rewrite Hvs.
  rewrite nth_error_app1; [exact H|]. apply nth_error_Some. now rewrite H.
Qed.

Lemma all_in_extends m m' d lb ub : extends m m' -> all_in m d lb ub -> all_in m' d lb ub.
Proof. intros He H k x Hk. eapply has_domain_extends; [exact He|]. eapply H; exact Hk. Qed.

Lemma all_in_set m d k x lb ub :
  all_in m d lb ub -> has_domain m x lb ub -> all_in m (set d k x) lb ub.
Proof.
  intros H Hx k' y Hy. destruct (String.eqb_spec k k') as [<-|Hne].
  - rewrite get_set_same in Hy. now injection Hy as <-.
  - rewrite get_set_other in Hy by exact Hne. eapply H; exact Hy.
Qed.

Lemma add_variable_Ok name lb ub m x m' :
  add_variable name lb ub m = (Ok x, m') -> has_domain m' x lb ub /\ extends m m'.
Proof.
  intros H. split.
  - unfold add_variable in H. injection H as <- <-. exists name. simpl.
    rewrite nth_error_app2 by lia. now rewrite Nat.sub_diag.
  - eapply run_extends; [apply grows_add_variable|exact H].
Qed.

Lemma bounded_variables_extends h v m m' : extends m m' -> bounded_variables h v m -> bounded_variables h v m'.
Proof.
  intros He (H1 & H2 & H3 & H4 & K).
  repeat split; try (eapply all_in_extends; eassumption); apply K.
Qed.

(** The invariant only reads the four per-train dictionaries. *)
Lemma bounded_variables_same h v v' m :
  Variables.train_start_times v' = Variables.train_start_times v ->
  Variables.train_end_times v' = Variables.train_end_times v ->
  Variables.platform_assignments v' = Variables.platform_assignments v ->
  Variables.train_delays v' = Variables.train_delays v ->
  bounded_variables h v m -> bounded_variables h v' m.
Proof. unfold bounded_variables. intros -> -> -> ->. exact (fun H => H). Qed.

(** A loop keeps what each of its rounds keeps. *)
Lemma for_fold_inv {A S} (I : S -> CpModel -> Prop) (body : S -> A -> M S) :
  (forall s x m r m', I s m -> body s x m = (Ok r, m') -> I r m') ->
  forall l s m r m', I s m -> for_fold l s body m = (Ok r, m') -> I r m'.
Proof.
  intros Hb. induction l as [|x l IH]; intros s m r m' Hi H; simpl in H.
  - now injection H as <- <-.
  - apply bind_Ok in H as (s1 & m1 & H1 & H2). eapply IH; [|exact H2]. eapply Hb; eassumption.
Qed.

Lemma create_decision_variables_bounded_variables req m0 v m :
  _create_decision_variables req m0 = (Ok v, m) ->
  bounded_variables (OptimizationRequest.time_horizon_minutes req) v m.
Proof.
  intros H. unfold _create_decision_variables in H.
  apply bind_Ok in H as (v1 & m1 & H1 & H2).
  set (h := OptimizationRequest.time_horizon_minutes req) in *.
  assert (W1 : bounded_variables h v1 m1).
  { eapply (for_fold_inv (bounded_variables h)); [| |exact H1].
    - clear. intros s t m r m' Hs Hbody.
      apply bind_Ok in Hbody as (sv & ma & Ha & Hbody).
      apply bind_Ok in Hbody as (ev & mb & Hb & Hbody).
      apply bind_Ok in Hbody as (pv & mc & Hc & Hbody).
      apply bind_Ok in Hbody as (dv & md & Hd & Hbody).
      apply add_variable_Ok in Ha as [Da Ea]. apply add_variable_Ok in Hb as [Db Eb].
      apply add_variable_Ok in Hc as [Dc Ec]. apply add_variable_Ok in Hd as [Dd Ed].
      eapply (for_fold_inv (bounded_variables h)); [| |exact Hbody].
      + clear. intros s x m r m' Hs Hbody.
        apply bind_Ok in Hbody as (u & ma & Ha & Hbody). apply lift_Ok in Ha as [_ ->].
        apply bind_Ok in Hbody as (sp & mb & Hb & Hbody).
        injection Hbody as <- <-.
        eapply bounded_variables_same; [reflexivity..|].
        eapply bounded_variables_extends; [|exact Hs].
        eapply run_extends; [apply grows_add_variable|exact Hb].
      + destruct Hs as (S1 & S2 & S3 & S4 & K1 & K2 & K3).
        assert (Ead : extends ma md)
          by (eapply extends_trans; [exact Eb|]; eapply extends_trans; [exact Ec|exact Ed]).
        assert (Ebd : extends mb md) by (eapply extends_trans; [exact Ec|exact Ed]).
        assert (Emd : extends m md) by (eapply extends_trans; [exact Ea|exact Ead]).
        unfold bounded_variables. cbn [Variables.train_start_times Variables.train_end_times
                                 Variables.platform_assignments Variables.train_delays].
        repeat split.
        * apply all_in_set; [eapply all_in_extends; [exact Emd|exact S1]|].
          eapply has_domain_extends; [exact Ead|exact Da].
        * apply all_in_set; [eapply all_in_extends; [exact Emd|exact S2]|].
          eapply has_domain_extends; [exact Ebd|exact Db].
        * apply all_in_set; [eapply all_in_extends; [exact Emd|exact S3]|].
          eapply has_domain_extends; [exact Ed|exact Dc].
        * apply all_in_set; [eapply all_in_extends; [exact Emd|exact S4]|exact Dd].
        * now apply keys_set.
        * now apply keys_set.
        * now apply keys_set.
    - repeat split; try (intros k x Hk; discriminate Hk). }
  eapply (for_fold_inv (bounded_variables h)); [| exact W1 |exact H2].
  clear. intros s t m r m' Hs Hbody.
  eapply (for_fold_inv (bounded_variables h)); [| exact Hs |exact Hbody].
  clear. intros s sec m r m' Hs Hbody.
  eapply (for_fold_inv (bounded_variables h)); [| exact Hs |exact Hbody].
  clear. intros s k m r m' Hs Hbody.
  apply bind_Ok in Hbody as (b & ma & Ha & Hbody). injection Hbody as <- <-.
  eapply bounded_variables_same; [reflexivity..|].
  eapply bounded_variables_extends; [|exact Hs].
  eapply run_extends; [apply grows_add_variable|exact Ha].
Qed.

Lemma grows_constraints env v r : grows (_add_constraints env v r).
Proof.
  unfold _add_constraints.
  repeat (apply grows_bind; [|intros _]);
    auto using grows_timing, grows_platform, grows_safety, grows_priority, grows_route,
               grows_custom.
Qed.

(** The variables of a built model are those made first, and the model
    keeps their domains. *)
Lemma build_model_bounded_variables env req v m :
  build_model env req cp_model.empty = (Ok v, m) ->
  bounded_variables (OptimizationRequest.time_horizon_minutes req) v m.
Proof.
  intros H. unfold build_model in H.
  apply bind_Ok in H as (v0 & m0 & Hv & H).
  apply bind_Ok in H as (u1 & m6 & Hc & H).
  apply bind_Ok in H as (u2 & m7 & Ho & H).
  injection H as <- <-.
  apply create_decision_variables_bounded_variables in Hv.
  eapply bounded_variables_extends; [|exact Hv].
  eapply extends_trans.
  - eapply run_extends; [apply grows_constraints|exact Hc].
  - eapply run_extends; [apply grows_set_objective'|exact Ho].
Qed.

(** What a solved run found for one train. *)
Lemma solved_values env req i t e :
  cp_model.sound (Environment.Solve env) ->
  solved (optimize_schedule env req) ->
  nth_error (OptimizationRequest.trains req) i = Some t ->
  nth_error (OptimizationResponse.optimized_schedule (optimize_schedule env req)) i = Some e ->
  exists v m a s n p d,
    build_model env req cp_model.empty = (Ok v, m)
    /\ is_solution m a = true
    /\ getitem (Variables.train_start_times v) (Train.id t) = Ok s
    /\ getitem (Variables.train_end_times v) (Train.id t) = Ok n
    /\ getitem (Variables.platform_assignments v) (Train.id t) = Ok p
    /\ getitem (Variables.train_delays v) (Train.id t) = Ok d
    /\ TrainScheduleEntry.scheduled_departure e
       = OptimizationRequest.requested_at req + minutes (a s)
    /\ TrainScheduleEntry.scheduled_arrival e
       = OptimizationRequest.requested_at req + minutes (a n)
    /\ TrainScheduleEntry.platform e = a p
    /\ TrainScheduleEntry.delay_adjustment_minutes e = a d
    /\ 0 <= a s <= OptimizationRequest.time_horizon_minutes req
    /\ 0 <= a n <= OptimizationRequest.time_horizon_minutes req
    /\ 1 <= a p <= 10
    /\ -30 <= a d <= 60.
Proof.
  intros Hsound Hsolved Hi He.
  destruct (solved_inv env req Hsolved) as (v & m & st & a & Hb & Hsolve & Hst & Hmap & _).
  pose proof (Hsound _ _ _ _ Hsolve Hst) as Hsol.
  destruct (build_model_bounded_variables env req v m Hb) as (W1 & W2 & W3 & W4 & _).
  destruct (rmap_nth _ _ _ Hmap i t Hi) as (y & Y & F).
  rewrite He in Y. injection Y as <-.
  apply schedule_entry_Ok in F as (s & n & p & d & S1 & S2 & S3 & S4 & D1 & D2 & D3 & D4 & _).
  exists v, m, a, s, n, p, d.
  destruct (W1 _ _ (getitem_get _ _ _ S1)) as [n1 N1].
  destruct (W2 _ _ (getitem_get _ _ _ S2)) as [n2 N2].
  destruct (W3 _ _ (getitem_get _ _ _ S3)) as [n3 N3].
  destruct (W4 _ _ (getitem_get _ _ _ S4)) as [n4 N4].
  pose proof (solution_domain _ _ _ _ _ _ Hsol N1).
  pose proof (solution_domain _ _ _ _ _ _ Hsol N2).
  pose proof (solution_domain _ _ _ _ _ _ Hsol N3).
  pose proof (solution_domain _ _ _ _ _ _ Hsol N4).
  repeat split; try assumption; lia.
Qed.

(* ===================================================================== *)
(** ** Bounds of a solved schedule *)
(* ===================================================================== *)

(** Every entry of a solved schedule stands at the place of a train. *)
Lemma entry_train env req i e :
  solved (optimize_schedule env req) ->
  nth_error (OptimizationResponse.optimized_schedule (optimize_schedule env req)) i = Some e ->
  exists t, nth_error (OptimizationRequest.trains req) i = Some t.
Proof.
  intros Hsolved He.
  destruct (solved_inv env req Hsolved) as (v & m & st & a & _ & _ & _ & Hmap & _).
  destruct (nth_error (OptimizationRequest.trains req) i) as [t|] eqn:E; [now exists t|].
  apply nth_error_None in E. apply rmap_length in Hmap.
  assert (nth_error (OptimizationResponse.optimized_schedule (optimize_schedule env req)) i
          = None) as X by (apply nth_error_None; lia).
  congruence.
Qed.

Lemma train_entry env req i t :
  solved (optimize_schedule env req) ->
  nth_error (OptimizationRequest.trains req) i = Some t ->
  exists e,
    nth_error (OptimizationResponse.optimized_schedule (optimize_schedule env req)) i = Some e.
Proof.
  intros Hsolved Hi.
  destruct (solved_inv env req Hsolved) as (v & m & st & a & _ & _ & _ & Hmap & _).
  destruct (rmap_nth _ _ _ Hmap i t Hi) as (y & Y & _). now exists y.
Qed.

(** X1: in every solved schedule the platform of an entry lies between 1
    and 10. *)
Theorem platform_between_1_and_10 env req i e :
  cp_model.sound (Environment.Solve env) ->
  solved (optimize_schedule env req) ->
  nth_error (OptimizationResponse.optimized_schedule (optimize_schedule env req)) i = Some e ->
  1 <= TrainScheduleEntry.platform e <= 10.
Proof.
  intros Hsound Hsolved He.
  destruct (entry_train env req i e Hsolved He) as [t Hi].
  destruct (solved_values env req i t e Hsound Hsolved Hi He)
    as (v' & m' & a' & s & n & p & d & _ & _ & _ & _ & _ & _ & _ & _ & D3 & _ & _ & _ & B3 & _).
  now rewrite D3.
Qed.

Lemma platform_range_witness :
  1 <= TrainScheduleEntry.platform (entry on_time_response 1) <= 10.
Proof.
  apply (platform_between_1_and_10 (environment (naming_solver on_time)) two_trains 1).
  - apply naming_solver_sound.
  - right. vm_compute. reflexivity.
  - vm_compute. reflexivity.
Defined.

(** X2: in every solved schedule the delay adjustment of an entry lies
    between 30 minutes early and 60 minutes late. *)
Theorem delay_between_minus_30_and_60 env req i e :
  cp_model.sound (Environment.Solve env) ->
  solved (optimize_schedule env req) ->
  nth_error (OptimizationResponse.optimized_schedule (optimize_schedule env req)) i = Some e ->
  -30 <= TrainScheduleEntry.delay_adjustment_minutes e <= 60.
Proof.
  intros Hsound Hsolved He.
  destruct (entry_train env req i e Hsolved He) as [t Hi].
  destruct (solved_values env req i t e Hsound Hsolved Hi He)
    as (v' & m' & a' & s & n & p & d & _ & _ & _ & _ & _ & _ & _ & _ & _ & D4 & _ & _ & _ & B4).
  now rewrite D4.
Qed.

Lemma delay_range_witness :
  -30 <= TrainScheduleEntry.delay_adjustment_minutes (entry shifted_response 0) <= 60.
Proof.
  apply (delay_between_minus_30_and_60 (environment (naming_solver shifted)) two_trains 0).
  - apply naming_solver_sound.
  - right. vm_compute. reflexivity.
  - vm_compute. reflexivity.
Defined.

(** X3: in every solved schedule a train departs and arrives inside the
    planning window, which starts at the request's reference time and
    lasts the time horizon. *)
Theorem schedule_inside_the_horizon env req i e :
  cp_model.sound (Environment.Solve env) ->
  solved (optimize_schedule env req) ->
  nth_error (OptimizationResponse.optimized_schedule (optimize_schedule env req)) i = Some e ->
  let window_start := OptimizationRequest.requested_at req in
  let window_end :=
    OptimizationRequest.requested_at req
    + minutes (OptimizationRequest.time_horizon_minutes req) in
  window_start <= TrainScheduleEntry.scheduled_departure e <= window_end
  /\ window_start <= TrainScheduleEntry.scheduled_arrival e <= window_end.
Proof.
  intros Hsound Hsolved He.
  destruct (entry_train env req i e Hsolved He) as [t Hi].
  destruct (solved_values env req i t e Hsound Hsolved Hi He)
    as (v' & m' & a' & s & n & p & d & _ & _ & _ & _ & _ & _ & D1 & D2 & _ & _ & B1 & B2 & _).
  cbv zeta. rewrite D1, D2. unfold minutes. lia.
Qed.

Lemma horizon_witness :
  (base_time <= TrainScheduleEntry.scheduled_departure (entry on_time_response 0)
   <= base_time + minutes 60)
  /\ (base_time <= TrainScheduleEntry.scheduled_arrival (entry on_time_response 0)
      <= base_time + minutes 60).
Proof.
  apply (schedule_inside_the_horizon (environment (naming_solver on_time)) two_trains 0).
  - apply naming_solver_sound.
  - right. vm_compute. reflexivity.
  - vm_compute. reflexivity.
Defined.

(** X4: a solved schedule exists only if every train fits the window: the
    horizon is not negative, the train's journey time is at most the
    horizon, and its scheduled departure lies between 60 minutes before
    the reference time and 30 minutes after the end of the horizon. *)
Theorem solved_trains_fit_the_horizon env req i t :
  cp_model.sound (Environment.Solve env) ->
  solved (optimize_schedule env req) ->
  nth_error (OptimizationRequest.trains req) i = Some t ->
  exists journey_time offset,
    _calculate_journey_time t = Ok journey_time
    /\ _datetime_to_minutes (Train.scheduled_departure t)
                            (OptimizationRequest.requested_at req) = Ok offset
    /\ 0 <= OptimizationRequest.time_horizon_minutes req
    /\ - OptimizationRequest.time_horizon_minutes req <= journey_time
       <= OptimizationRequest.time_horizon_minutes req
    /\ -60 <= offset <= OptimizationRequest.time_horizon_minutes req + 30.
Proof.
  intros Hsound Hsolved Hi.
  destruct (train_entry env req i t Hsolved Hi) as [e He].
  destruct (solved_values env req i t e Hsound Hsolved Hi He)
    as (v & m & a & s & n & p & d & Hb & Hsol & S1 & S2 & _ & S4 & _ & _ & _ & _
        & B1 & B2 & _ & B4).
  destruct (build_model_posts env req v m Hb) as [Htime _].
  destruct (Htime t (nth_error_In _ _ Hi))
    as (s' & n' & d' & jt & off & G1 & G2 & G3 & J & O & P1 & P2).
  rewrite S1 in G1. rewrite S2 in G2. rewrite S4 in G3.
  injection G1 as <-. injection G2 as <-. injection G3 as <-.
  pose proof (posted_equality _ _ _ _ Hsol P1) as Q1.
  pose proof (posted_equality _ _ _ _ Hsol P2) as Q2.
  cbn [eval] in Q1, Q2.
  exists jt, off. repeat split; try assumption; lia.
Qed.

Lemma fit_witness :
  exists journey_time offset,
    _calculate_journey_time express = Ok journey_time
    /\ _datetime_to_minutes (Train.scheduled_departure express) base_time = Ok offset
    /\ 0 <= 60
    /\ -60 <= journey_time <= 60
    /\ -60 <= offset <= 60 + 30.
Proof.
  apply (solved_trains_fit_the_horizon (environment (naming_solver on_time)) two_trains 0).
  - apply naming_solver_sound.
  - right. vm_compute. reflexivity.
  - reflexivity.
Defined.

(** Numbers of a window that lie five apart are few. *)
Lemma spaced_values_are_few (xs : list Z) (h : Z) :
  0 <= h ->
  (forall x, In x xs -> 0 <= x <= h) ->
  (forall i j x y, (i < j)%nat -> nth_error xs i = Some x -> nth_error xs j = Some y ->
                   5 <= Z.abs (x - y)) ->
  Z.of_nat (List.length xs) <= h / 5 + 1.
Proof.
  intros Hh Hb Hs.
  set (g := fun x => Z.to_nat (x / 5)).
  assert (Hnd : NoDup (List.map g xs)).
  { apply NoDup_nth_error. intros i j Hi E. rewrite length_map in Hi.
    rewrite !nth_error_map in E.
    destruct (nth_error xs i) as [x|] eqn:Ex; [|apply nth_error_None in Ex; lia].
    destruct (nth_error xs j) as [y|] eqn:Ey; [|discriminate].
    simpl in E. injection E as E. unfold g in E.
    pose proof (Hb x (nth_error_In _ _ Ex)). pose proof (Hb y (nth_error_In _ _ Ey)).
    assert (x / 5 = y / 5) as Q by (apply Z2Nat.inj; try apply Z.div_pos; lia).
    destruct (Nat.lt_total i j) as [L|[L|L]]; [|exact L|].
    - pose proof (Hs i j x y L Ex Ey). exfalso. Z.div_mod_to_equations. lia.
    - pose proof (Hs j i y x L Ey Ex). exfalso. Z.div_mod_to_equations. lia. }
  assert (Hin : incl (List.map g xs) (seq 0 (Z.to_nat (h / 5) + 1))).
  { intros k Hk. apply in_map_iff in Hk as (x & <- & Hx). apply in_seq.
    pose proof (Hb x Hx). unfold g.
    assert (x / 5 <= h / 5) by (apply Z.div_le_mono; lia).
    assert (0 <= x / 5) by (apply Z.div_pos; lia). lia. }
  pose proof (NoDup_incl_length Hnd Hin) as L.
  rewrite length_map, length_seq in L.
  assert (0 <= h / 5) by (apply Z.div_pos; lia). lia.
Qed.

(** X5: trains that all share a section with one another are scheduled
    only as far as the horizon has room for departures five minutes
    apart: a solved schedule has at most [horizon / 5 + 1] of them. *)
Theorem trains_on_one_section_are_bounded_by_the_horizon env req :
  cp_model.sound (Environment.Solve env) ->
  solved (optimize_schedule env req) ->
  0 <= OptimizationRequest.time_horizon_minutes req ->
  (forall i j t1 t2, (i < j)%nat ->
     nth_error (OptimizationRequest.trains req) i = Some t1 ->
     nth_error (OptimizationRequest.trains req) j = Some t2 ->
     shared_sections t1 t2 = true) ->
  len (OptimizationRequest.trains req) <= OptimizationRequest.time_horizon_minutes req / 5 + 1.
Proof.
  intros Hsound Hsolved Hh Hshare.
  destruct (solved_inv env req Hsolved) as (v & m & st & a & Hb & Hsolve & Hst & Hmap & _).
  pose proof (Hsound _ _ _ _ Hsolve Hst) as Hsol.
  destruct (build_model_posts env req v m Hb) as [Htime Hhead].
  destruct (build_model_bounded_variables env req v m Hb) as (W1 & _).
  set (f := fun t => match get (Variables.train_start_times v) (Train.id t) with
                     | Some s => a s
                     | None => 0
                     end).
  unfold len. rewrite <- (length_map f).
  apply spaced_values_are_few; [exact Hh| |].
  - intros x Hx. apply in_map_iff in Hx as (t & <- & Ht).
    destruct (Htime t Ht) as (s & _ & _ & _ & _ & G1 & _).
    unfold f. rewrite (getitem_get _ _ _ G1).
    destruct (W1 _ _ (getitem_get _ _ _ G1)) as [name N].
    exact (solution_domain _ _ _ _ _ _ Hsol N).
  - intros i j x y Hij Hi Hj. rewrite nth_error_map in Hi, Hj.
    destruct (nth_error (OptimizationRequest.trains req) i) as [t1|] eqn:E1; [|discriminate].
    destruct (nth_error (OptimizationRequest.trains req) j) as [t2|] eqn:E2; [|discriminate].
    simpl in Hi, Hj. injection Hi as <-. injection Hj as <-.
    destruct (Hhead i j t1 t2 Hij E1 E2 (Hshare i j t1 t2 Hij E1 E2))
      as (s1 & s2 & b & G1 & G2 & Gb & P1 & P2).
    unfold f. rewrite (getitem_get _ _ _ G1), (getitem_get _ _ _ G2).
    exact (headway_apart m a s1 s2 b 5 Hsol Gb P1 P2 ltac:(lia)).
Qed.

Lemma capacity_witness : len (OptimizationRequest.trains two_trains) <= 60 / 5 + 1.
Proof.
  apply (trains_on_one_section_are_bounded_by_the_horizon
           (environment (naming_solver on_time)) two_trains).
  - apply naming_solver_sound.
  - right. vm_compute. reflexivity.
  - simpl. lia.
  - intros i j t1 t2 Hij Hi Hj.
    destruct i as [|[|i]]; destruct j as [|[|j]]; simpl in Hi, Hj;
      try lia; try discriminate;
      try (injection Hi as <-; injection Hj as <-; reflexivity);
      destruct j; discriminate.
Defined.

(** X6: the engine keys its variables by train id. Two trains entered
    under the same id get the same departure, arrival, platform and delay
    in every solved schedule, and no schedule is solved if they share a
    section. *)
Theorem trains_with_one_id_share_their_schedule env req i j t1 t2 e1 e2 :
  cp_model.sound (Environment.Solve env) ->
  solved (optimize_schedule env req) ->
  i <> j ->
  nth_error (OptimizationRequest.trains req) i = Some t1 ->
  nth_error (OptimizationRequest.trains req) j = Some t2 ->
  Train.id t1 = Train.id t2 ->
  nth_error (OptimizationResponse.optimized_schedule (optimize_schedule env req)) i = Some e1 ->
  nth_error (OptimizationResponse.optimized_schedule (optimize_schedule env req)) j = Some e2 ->
  TrainScheduleEntry.scheduled_departure e1 = TrainScheduleEntry.scheduled_departure e2
  /\ TrainScheduleEntry.scheduled_arrival e1 = TrainScheduleEntry.scheduled_arrival e2
  /\ TrainScheduleEntry.platform e1 = TrainScheduleEntry.platform e2
  /\ TrainScheduleEntry.delay_adjustment_minutes e1
     = TrainScheduleEntry.delay_adjustment_minutes e2
  /\ shared_sections t1 t2 = false.
Proof.
  intros Hsound Hsolved Hij Hi Hj Hid He1 He2.
  destruct (solved_inv env req Hsolved) as (v & m & st & a & Hb & Hsolve & Hst & Hmap & _).
  destruct (rmap_nth _ _ _ Hmap i t1 Hi) as (y1 & Y1 & F1).
  destruct (rmap_nth _ _ _ Hmap j t2 Hj) as (y2 & Y2 & F2).
  rewrite He1 in Y1. rewrite He2 in Y2. injection Y1 as <-. injection Y2 as <-.
  apply schedule_entry_Ok in F1
    as (s1 & n1 & p1 & d1 & S1 & N1 & P1 & D1 & A1 & A2 & A3 & A4 & _).
  apply schedule_entry_Ok in F2
    as (s2 & n2 & p2 & d2 & S2 & N2 & P2 & D2 & B1 & B2 & B3 & B4 & _).
  rewrite Hid in S1, N1, P1, D1.
  rewrite S2 in S1. rewrite N2 in N1. rewrite P2 in P1. rewrite D2 in D1.
  injection S1 as <-. injection N1 as <-. injection P1 as <-. injection D1 as <-.
  assert (Hdep : TrainScheduleEntry.scheduled_departure e1
                 = TrainScheduleEntry.scheduled_departure e2) by congruence.
  repeat split; try congruence.
  destruct (shared_sections t1 t2) eqn:Hs; [exfalso|reflexivity].
  destruct (Nat.lt_total i j) as [L|[L|L]]; [|contradiction|].
  - pose proof (headway_in_order env req Hsound i j t1 t2 e1 e2 Hsolved L Hi Hj Hs He1 He2) as X.
    rewrite Hdep in X. unfold minutes in X. lia.
  - rewrite shared_sections_sym in Hs.
    pose proof (headway_in_order env req Hsound j i t2 t1 e2 e1 Hsolved L Hj Hi Hs He2 He1) as X.
    rewrite Hdep in X. unfold minutes in X. lia.
Qed.

Lemma twins_witness :
  TrainScheduleEntry.scheduled_departure (entry twins_response 0)
  = TrainScheduleEntry.scheduled_departure (entry twins_response 1)
  /\ TrainScheduleEntry.scheduled_arrival (entry twins_response 0)
     = TrainScheduleEntry.scheduled_arrival (entry twins_response 1)
  /\ TrainScheduleEntry.platform (entry twins_response 0)
     = TrainScheduleEntry.platform (entry twins_response 1)
  /\ TrainScheduleEntry.delay_adjustment_minutes (entry twins_response 0)
     = TrainScheduleEntry.delay_adjustment_minutes (entry twins_response 1)
  /\ shared_sections twin_a twin_b = false.
Proof.
  apply (trains_with_one_id_share_their_schedule
           (environment (naming_solver twins_values)) twins 0 1 twin_a twin_b).
  - apply naming_solver_sound.
  - right. vm_compute. reflexivity.
  - discriminate.
  - reflexivity.
  - reflexivity.
  - reflexivity.
  - vm_compute. reflexivity.
  - vm_compute. reflexivity.
Defined.

(* ===================================================================== *)
(** ** What every response carries, and constraints that change nothing *)
(* ===================================================================== *)

Ltac envelope :=
  repeat split; try reflexivity; try discriminate;
  try (intros [X|X]; discriminate X);
  try (exfalso; match goal with H : ~ _ |- _ => apply H; auto end).

(** X7: every response carries the id of its request and no alternative
    schedule. A solved response has an empty error message; any other
    response has an empty schedule, the default metrics and confidence 0,
    and says why when the solver found the problem infeasible or ran out
    of time. *)
Theorem every_response_answers_its_request env req :
  let r := optimize_schedule env req in
  OptimizationResponse.request_id r = OptimizationRequest.request_id req
  /\ OptimizationResponse.alternatives r = []
  /\ (solved r -> OptimizationResponse.error_message r = ""%string)
  /\ (~ solved r ->
      OptimizationResponse.optimized_schedule r = []
      /\ OptimizationResponse.kpis r = PerformanceMetrics.default
      /\ OptimizationResponse.confidence_score r = 0%float)
  /\ (OptimizationResponse.status r = OptimizationStatus.INFEASIBLE ->
      OptimizationResponse.error_message r = "Problem is infeasible"%string)
  /\ (OptimizationResponse.status r = OptimizationStatus.TIME_LIMIT_EXCEEDED ->
      OptimizationResponse.error_message r = "Solver status unknown"%string).
Proof.
  unfold optimize_schedule, optimize_schedule_try, solved.
  destruct (build_model env req cp_model.empty) as [[v|e] m]; cbn zeta;
    [|simpl; envelope].
  destruct (Environment.Solve env _ m) as [[st a]|e]; simpl; [|envelope].
  unfold _process_solution.
  destruct st; simpl; try solve [envelope].
  - destruct (rmap _ _); simpl; [|envelope].
    destruct (_calculate_performance_metrics _ _ _); simpl; envelope.
  - destruct (rmap _ _); simpl; [|envelope].
    destruct (_calculate_performance_metrics _ _ _); simpl; envelope.
Qed.

Lemma inert_add_constraint env v c m :
  inert c = true -> exists ok, ConstraintBuilder.add_constraint env v c m = (Ok ok, m).
Proof.
  unfold inert, ConstraintBuilder.add_constraint.
  destruct (Constraint.type c) as [k|s] eqn:T; [intros _; now exists false|].
  unfold mem_str, mem, ConstraintBuilder.registry_getitem, getitem,
    ConstraintBuilder.constraint_registry.
  cbn [get]. intros H.
  repeat match goal with
  | |- context [String.eqb ?k s] => destruct (String.eqb_spec k s) as [<-|?]
  end; try discriminate H; cbn [negb].
  - now exists true.
  - unfold ConstraintBuilder._add_crossing_time_constraint, catch, bind, lift.
    destruct (ConstraintBuilder.int_parameter _ _ _ _); eexists; reflexivity.
  - unfold ConstraintBuilder._add_energy_efficiency_constraint, catch, bind, lift.
    destruct (ConstraintBuilder.float_parameter _ _ _ _); [|eexists; reflexivity].
    destruct (ConstraintBuilder.float_parameter _ _ _ _); eexists; reflexivity.
  - now exists false.
Qed.

Lemma custom_constraints_inert env v req m :
  forallb inert (OptimizationRequest.constraints req) = true ->
  _add_custom_constraints env v req m = (Ok tt, m).
Proof.
  intros H. unfold _add_custom_constraints. apply for_each_unchanged.
  intros c Hc. rewrite forallb_forall in H.
  unfold catch, bind. destruct (inert_add_constraint env v c m (H c Hc)) as [ok ->].
  reflexivity.
Qed.

Lemma bind_congr {A B} (c : M A) (k k' : A -> M B) m :
  (forall a m', k a m' = k' a m') -> bind c k m = bind c k' m.
Proof. intros H. unfold bind. destruct (c m) as [[a|e] m']; [apply H|reflexivity]. Qed.

Lemma add_constraints_inert env v req m :
  forallb inert (OptimizationRequest.constraints req) = true ->
  _add_constraints env v req m = _add_constraints env v (without_constraints req) m.
Proof.
  intros H. unfold _add_constraints.
  change (_add_timing_constraints v (without_constraints req))
    with (_add_timing_constraints v req).
  change (_add_platform_constraints v (without_constraints req))
    with (_add_platform_constraints v req).
  change (_add_safety_constraints v (without_constraints req))
    with (_add_safety_constraints v req).
  change (_add_priority_constraints v (without_constraints req))
    with (_add_priority_constraints v req).
  change (_add_route_constraints v (without_constraints req))
    with (_add_route_constraints v req).
  do 5 (apply bind_congr; intros _ ?).
  rewrite (custom_constraints_inert env v req _ H).
  now rewrite (custom_constraints_inert env v (without_constraints req)).
Qed.

Lemma build_model_inert env req :
  forallb inert (OptimizationRequest.constraints req) = true ->
  build_model env req cp_model.empty = build_model env (without_constraints req) cp_model.empty.
Proof.
  intros H. unfold build_model.
  change (_create_decision_variables (without_constraints req))
    with (_create_decision_variables req).
  apply bind_congr. intros v m0.
  unfold bind at 1. rewrite (add_constraints_inert env v req m0 H). reflexivity.
Qed.

(** X8: constraints of the request whose kind is a member of
    [ConstraintType], as the data model declares it, or a string the
    registry does not know, or TRAIN_PRIORITY, CROSSING_TIME or
    ENERGY_EFFICIENCY, have no effect: the response is that of the
    request without them. *)
Theorem inert_constraints_change_nothing env req :
  forallb inert (OptimizationRequest.constraints req) = true ->
  optimize_schedule env req = optimize_schedule env (without_constraints req).
Proof.
  intros H. unfold optimize_schedule, optimize_schedule_try.
  rewrite (build_model_inert env req H). reflexivity.
Qed.

Lemma inert_witness :
  optimize_schedule (environment (naming_solver on_time)) with_inert
  = optimize_schedule (environment (naming_solver on_time)) (without_constraints with_inert).
Proof.
  apply (inert_constraints_change_nothing (environment (naming_solver on_time)) with_inert).
  reflexivity.
Defined.

(** Without trains no handler of the registry touches the model. *)
Lemma handlers_without_trains env c h m :
  In h (List.map snd (ConstraintBuilder.constraint_registry env)) ->
  snd (h Variables.empty c m) = m.
Proof.
  simpl. intros H.
  repeat (destruct H as [<-|H]; [|]); try contradiction.
  - unfold ConstraintBuilder._add_safety_distance_constraint, bind, lift.
    destruct (ConstraintBuilder.int_parameter _ _ _ _); reflexivity.
  - unfold ConstraintBuilder._add_platform_capacity_constraint, bind at 1, lift.
    destruct (ConstraintBuilder.int_parameter _ _ _ _); [|reflexivity].
    rewrite for_each_unchanged; [reflexivity|]. intros t _.
    rewrite for_each_unchanged; [reflexivity|]. intros p _. reflexivity.
  - reflexivity.
  - unfold ConstraintBuilder._add_maintenance_window_constraint, bind, lift.
    destruct (ConstraintBuilder.int_parameter _ _ _ _); [|reflexivity].
    destruct (ConstraintBuilder.int_parameter _ _ _ _); reflexivity.
  - unfold ConstraintBuilder._add_speed_limit_constraint, bind at 1, lift.
    destruct (ConstraintBuilder.float_parameter _ _ _ _); [|reflexivity].
    rewrite for_each_unchanged; [reflexivity|]. intros s _. reflexivity.
  - unfold ConstraintBuilder._add_crossing_time_constraint, bind, lift.
    destruct (ConstraintBuilder.int_parameter _ _ _ _); reflexivity.
  - unfold ConstraintBuilder._add_signal_spacing_constraint, bind, lift.
    destruct (ConstraintBuilder.int_parameter _ _ _ _); reflexivity.
  - unfold ConstraintBuilder._add_energy_efficiency_constraint, bind, lift.
    destruct (ConstraintBuilder.float_parameter _ _ _ _); [|reflexivity].
    destruct (ConstraintBuilder.float_parameter _ _ _ _); reflexivity.
  - unfold ConstraintBuilder._add_passenger_transfer_constraint, bind at 1, lift.
    destruct (ConstraintBuilder.int_parameter _ _ _ _); [|reflexivity].
    destruct (2 <=? _); [|reflexivity].
    rewrite for_each_unchanged; [reflexivity|]. intros i _. reflexivity.
Qed.

Lemma add_constraint_without_trains env c m :
  snd (ConstraintBuilder.add_constraint env Variables.empty c m) = m.
Proof.
  unfold ConstraintBuilder.add_constraint.
  destruct (negb _); [reflexivity|].
  unfold catch, bind at 1, lift.
  destruct (ConstraintBuilder.registry_getitem env (Constraint.type c)) as [h|e] eqn:Hh;
    [|reflexivity].
  assert (Hs : snd (h Variables.empty c m) = m).
  { apply (handlers_without_trains env). unfold ConstraintBuilder.registry_getitem in Hh.
    destruct (Constraint.type c); [discriminate|]. eapply getitem_In; exact Hh. }
  unfold bind. destruct (h Variables.empty c m) as [[u|e] m1]; exact Hs.
Qed.

Lemma custom_constraints_without_trains env req m :
  _add_custom_constraints env Variables.empty req m = (Ok tt, m).
Proof.
  unfold _add_custom_constraints. apply for_each_unchanged. intros c _.
  unfold catch, bind.
  pose proof (add_constraint_without_trains env c m) as Hs.
  destruct (registry_add_constraint_total env Variables.empty c m) as (ok & m1 & E).
  rewrite E in Hs |- *. simpl in Hs. now subst m1.
Qed.

Lemma build_model_without_trains env req :
  OptimizationRequest.trains req = [] ->
  exists o,
    build_model env req cp_model.empty
    = (Ok Variables.empty, {| variables := []; constraints := []; objective := Some o |}).
Proof.
  intros E.
  unfold build_model, _create_decision_variables, _add_constraints, _add_timing_constraints,
    _add_platform_constraints, _add_safety_constraints, _add_priority_constraints,
    _add_route_constraints, _set_objective, delay_terms.
  rewrite E. cbn [for_fold for_each for_pairs group_by_station fold_left].
  unfold bind at 1. cbn [ret]. unfold bind at 1. unfold bind at 1. cbn [ret].
  repeat (unfold bind at 1; cbn [ret]).
  rewrite custom_constraints_without_trains.
  repeat match goal with |- context [if ?b then _ else _] => destruct b end;
    eexists; reflexivity.
Qed.

(** X9: a request without trains gives the solver a model without
    variables and constraints, whatever horizon, objective and constraints
    of its own it has: every assignment solves it, and a solved response
    has an empty schedule and zero delay, platform changes and resolved
    conflicts. *)
Theorem a_request_without_trains_has_an_empty_model env req :
  OptimizationRequest.trains req = [] ->
  exists o,
    build_model env req cp_model.empty
    = (Ok Variables.empty, {| variables := []; constraints := []; objective := Some o |})
    /\ (forall a,
          is_solution {| variables := []; constraints := []; objective := Some o |} a = true)
    /\ (solved (optimize_schedule env req) ->
        OptimizationResponse.optimized_schedule (optimize_schedule env req) = []
        /\ PerformanceMetrics.total_delay_minutes
             (OptimizationResponse.kpis (optimize_schedule env req)) = Int 0
        /\ PerformanceMetrics.platform_changes
             (OptimizationResponse.kpis (optimize_schedule env req)) = 0
        /\ PerformanceMetrics.conflicts_resolved
             (OptimizationResponse.kpis (optimize_schedule env req)) = 0).
Proof.
  intros E. destruct (build_model_without_trains env req E) as [o Hb].
  exists o. split; [exact Hb|]. split; [reflexivity|].
  intros Hsolved.
  destruct (solved_inv env req Hsolved) as (v & m & st & a & Hb' & _ & _ & Hmap & Hk).
  rewrite Hb in Hb'. apply built_eq in Hb' as [<- _].
  remember (OptimizationResponse.optimized_schedule (optimize_schedule env req)) as sched.
  remember (OptimizationResponse.kpis (optimize_schedule env req)) as kpis.
  clear Heqsched Heqkpis.
  rewrite E in Hmap, Hk. simpl in Hmap. injection Hmap as <-.
  vm_compute in Hk. injection Hk as <-. repeat split; reflexivity.
Qed.

Lemma no_trains_witness :
  exists o,
    build_model (environment (naming_solver [])) no_trains cp_model.empty
    = (Ok Variables.empty, {| variables := []; constraints := []; objective := Some o |})
    /\ (forall a,
          is_solution {| variables := []; constraints := []; objective := Some o |} a = true)
    /\ (solved (optimize_schedule (environment (naming_solver [])) no_trains) ->
        OptimizationResponse.optimized_schedule
          (optimize_schedule (environment (naming_solver [])) no_trains) = []
        /\ PerformanceMetrics.total_delay_minutes
             (OptimizationResponse.kpis
                (optimize_schedule (environment (naming_solver [])) no_trains)) = Int 0
        /\ PerformanceMetrics.platform_changes
             (OptimizationResponse.kpis
                (optimize_schedule (environment (naming_solver [])) no_trains)) = 0
        /\ PerformanceMetrics.conflicts_resolved
             (OptimizationResponse.kpis
                (optimize_schedule (environment (naming_solver [])) no_trains)) = 0).
Proof.
  apply (a_request_without_trains_has_an_empty_model (environment (naming_solver [])) no_trains).
  reflexivity.
Defined.

(* ===================================================================== *)
(** ** Trains that cannot move *)
(* ===================================================================== *)

Lemma eqb_zero (f : float) : PrimFloat.eqb f 0 = true -> f = 0%float \/ f = (-0)%float.
Proof.
  intros H. rewrite FloatAxioms.eqb_spec in H.
  rewrite <- (FloatAxioms.SF2Prim_Prim2SF f).
  destruct (Prim2SF f) as [s|s| |s m e].
  - destruct s; [right|left]; reflexivity.
  - destruct s; discriminate H.
  - discriminate H.
  - destruct s; discriminate H.
Qed.

Lemma is_nan_nan (f : float) : PrimFloat.is_nan f = true -> f = nan.
Proof.
  unfold PrimFloat.is_nan. intros H. apply negb_true_iff in H.
  rewrite FloatAxioms.eqb_spec in H.
  rewrite <- (FloatAxioms.SF2Prim_Prim2SF f).
  destruct (Prim2SF f) as [s|s| |s m e].
  - destruct s; discriminate H.
  - destruct s; discriminate H.
  - reflexivity.
  - exfalso. unfold SFeqb, SFcompare in H.
    destruct s; rewrite Z.compare_refl, Pos.compare_cont_refl in H; discriminate H.
Qed.

Lemma div_nan (x : float) : (x / nan)%float = nan.
Proof.
  rewrite <- (FloatAxioms.SF2Prim_Prim2SF (x / nan)). rewrite FloatAxioms.div_spec.
  change (Prim2SF nan) with S754_nan.
  destruct (Prim2SF x) as [s|s| |s m e]; reflexivity.
Qed.

(** No journey time for a train that cannot move. *)
Lemma journey_time_raises t :
  speed_unusable (Train.max_speed_kmh t) = true ->
  exists e, _calculate_journey_time t = Raise e.
Proof.
  unfold speed_unusable. intros H. apply orb_true_iff in H.
  unfold _calculate_journey_time.
  set (d := len (Train.route_sections t) * 10).
  destruct H as [H|H].
  - assert (Hz : forall z : float,
              PrimFloat.eqb z 0 = true ->
              exists e, truediv (Int d) (Float z) = Raise e).
    { intros z Hz. unfold truediv, to_float.
      destruct (float_of_int d) as [fa|e]; cbn [rbind]; [|now exists e].
      rewrite Hz. eexists; reflexivity. }
    apply eqb_zero in H as [-> | ->].
    + change (mul (Float 0) (Float 0.8)) with (Ok (Float 0)). cbn [rbind].
      change (min (Float 0) (Int 80)) with (Float 0).
      destruct (Hz 0%float eq_refl) as [e ->]. now exists e.
    + change (mul (Float (-0)) (Float 0.8)) with (Ok (Float (-0))). cbn [rbind].
      change (min (Float (-0)) (Int 80)) with (Float (-0)).
      destruct (Hz (-0)%float eq_refl) as [e ->]. now exists e.
  - apply is_nan_nan in H. rewrite H.
    change (mul (Float nan) (Float 0.8)) with (Ok (Float nan)). cbn [rbind].
    change (min (Float nan) (Int 80)) with (Float nan).
    unfold truediv, to_float.
    destruct (float_of_int d) as [fa|e]; cbn [rbind]; [|now exists e].
    change (PrimFloat.eqb nan 0) with false. cbn iota. rewrite div_nan.
    eexists. vm_compute. reflexivity.
Qed.

(** A loop raises when one of its rounds always does. *)
Lemma for_each_raises {A} (l : list A) (body : A -> M unit) x :
  In x l -> (forall m, exists e m', body x m = (Raise e, m')) ->
  forall m, exists e m', for_each l body m = (Raise e, m').
Proof.
  intros Hin Hx. induction l as [|a l IH]; intros m; [contradiction|].
  simpl. unfold bind. destruct Hin as [->|Hin].
  - destruct (Hx m) as (e & m' & ->). now exists e, m'.
  - destruct (body a m) as [[u|e] m1]; [apply IH; exact Hin|now exists e, m1].
Qed.

Lemma timing_constraints_raise v req t m :
  In t (OptimizationRequest.trains req) ->
  speed_unusable (Train.max_speed_kmh t) = true ->
  exists e m', _add_timing_constraints v req m = (Raise e, m').
Proof.
  intros Hin Hs. unfold _add_timing_constraints.
  apply (for_each_raises _ _ t Hin). clear m. intros m.
  destruct (journey_time_raises t Hs) as [e He].
  unfold bind, lift. rewrite He.
  destruct (getitem _ _); [|eexists; eexists; reflexivity].
  destruct (getitem _ _); [|eexists; eexists; reflexivity].
  destruct (getitem _ _); eexists; eexists; reflexivity.
Qed.

(** X10: a request with a train whose maximum speed is zero or not a
    number is answered with status ERROR and an empty schedule, whatever
    else it holds: the journey time of that train divides by the speed. *)
Theorem a_train_that_cannot_move_is_an_error env req t :
  In t (OptimizationRequest.trains req) ->
  speed_unusable (Train.max_speed_kmh t) = true ->
  OptimizationResponse.status (optimize_schedule env req) = OptimizationStatus.ERROR
  /\ OptimizationResponse.optimized_schedule (optimize_schedule env req) = [].
Proof.
  intros Hin Hs.
  assert (Htry : exists e, optimize_schedule_try env req = Raise e).
  { unfold optimize_schedule_try, build_model. unfold bind at 1.
    destruct (_create_decision_variables req cp_model.empty) as [[v|e] m0];
      [|now exists e].
    unfold bind at 1. unfold _add_constraints. unfold bind at 1.
    destruct (timing_constraints_raise v req t m0 Hin Hs) as (e & m' & ->).
    now exists e. }
  destruct Htry as [e Htry]. unfold optimize_schedule. rewrite Htry. split; reflexivity.
Qed.

Lemma cannot_move_witness :
  OptimizationResponse.status (optimize_schedule (environment timeout_solver) broken_request)
  = OptimizationStatus.ERROR
  /\ OptimizationResponse.optimized_schedule
       (optimize_schedule (environment timeout_solver) broken_request) = [].
Proof.
  apply (a_train_that_cannot_move_is_an_error (environment timeout_solver) broken_request
           broken_train).
  - left. reflexivity.
  - reflexivity.
Defined.

(* ===================================================================== *)
(** ** Offsets in minutes *)
(* ===================================================================== *)

Lemma holds_from_spec (P : Z -> bool) (n : nat) :
  forall lo, holds_from P lo n = true -> forall k, lo <= k < lo + Z.of_nat n -> P k = true.
Proof.
  induction n as [|n IH]; intros lo H k Hk; [lia|].
  simpl in H. apply andb_true_iff in H as [H0 H].
  destruct (Z.eq_dec k lo) as [->|Hne]; [exact H0|].
  apply (IH (lo + 1) H). lia.
Qed.

Lemma holds_from_range (P : Z -> bool) (lo n : Z) :
  holds_from P lo (Z.to_nat n) = true -> forall k, lo <= k < lo + n -> P k = true.
Proof. intros H k Hk. apply (holds_from_spec P (Z.to_nat n) lo H). lia. Qed.

Lemma datetime_to_minutes_shift dt reference :
  _datetime_to_minutes dt reference = _datetime_to_minutes (dt - reference) 0.
Proof. unfold _datetime_to_minutes, datetime_sub. now rewrite Z.sub_0_r. Qed.

Lemma minutes_checked : holds_from reads_minutes (-1440) (Z.to_nat 11521) = true.
Proof. vm_compute. reflexivity. Qed.

Lemma seconds_checked : holds_from reads_seconds (-3600) (Z.to_nat 7201) = true.
Proof. vm_compute. reflexivity. Qed.

(** X11: the scheduled offset of a train is its distance from the
    reference time in minutes, rounded toward zero: a whole number of
    minutes between a day before and a week after the reference time is
    read exactly, and a whole number of seconds within an hour of it is
    divided by 60 toward zero, so that a departure less than a minute
    before the reference time has offset 0. *)
Theorem offsets_are_minutes_rounded_toward_zero dt reference :
  (forall k, -1440 <= k <= 10080 -> dt - reference = minutes k ->
             _datetime_to_minutes dt reference = Ok k)
  /\ (forall s, -3600 <= s <= 3600 -> dt - reference = s * 1000000 ->
                _datetime_to_minutes dt reference = Ok (Z.quot s 60)).
Proof.
  split.
  - intros k Hk E. rewrite datetime_to_minutes_shift, E.
    pose proof (holds_from_range reads_minutes (-1440) 11521 minutes_checked k ltac:(lia)) as H.
    unfold reads_minutes in H.
    destruct (_datetime_to_minutes (minutes k) 0) as [z|]; [|discriminate].
    apply Z.eqb_eq in H. now subst z.
  - intros s Hs E. rewrite datetime_to_minutes_shift, E.
    pose proof (holds_from_range reads_seconds (-3600) 7201 seconds_checked s ltac:(lia)) as H.
    unfold reads_seconds in H.
    destruct (_datetime_to_minutes (s * 1000000) 0) as [z|]; [|discriminate].
    apply Z.eqb_eq in H. now subst z.
Qed.

(* ===================================================================== *)
(** ** Metrics and speed profiles *)
(* ===================================================================== *)

Lemma keys_set_step {V} (d : dict V) k v :
  keys (set d k v) = if existsb (String.eqb k) (keys d) then keys d else (keys d ++ [k])%list.
Proof.
  unfold keys. induction d as [|[k' v'] d IH]; simpl; [reflexivity|].
  rewrite (String.eqb_sym k k').
  destruct (String.eqb_spec k' k) as [->|Hne]; simpl; [reflexivity|].
  rewrite IH. now destruct (existsb _ _).
Qed.

Lemma mem_set {V} (d : dict V) k v k' : mem d k' = true -> mem (set d k v) k' = true.
Proof.
  unfold mem. destruct (String.eqb_spec k k') as [<-|Hne].
  - now rewrite get_set_same.
  - now rewrite get_set_other.
Qed.

Lemma mem_set_same {V} (d : dict V) k v : mem (set d k v) k = true.
Proof. unfold mem. now rewrite get_set_same. Qed.

(** A loop whose rounds each extend what holds of the rounds before. *)
Lemma for_fold_prefix {A S} (I : list A -> S -> CpModel -> Prop) (body : S -> A -> M S) :
  (forall pre s x m r m', I pre s m -> body s x m = (Ok r, m') -> I (pre ++ [x])%list r m') ->
  forall l pre s m r m', I pre s m -> for_fold l s body m = (Ok r, m') -> I (pre ++ l)%list r m'.
Proof.
  intros Hb. induction l as [|x l IH]; intros pre s m r m' Hi H; simpl in H.
  - injection H as <- <-. now rewrite app_nil_r.
  - apply bind_Ok in H as (s1 & m1 & H1 & H2).
    replace (pre ++ x :: l)%list with ((pre ++ [x]) ++ l)%list by now rewrite <- app_assoc.
    eapply IH; [|exact H2]. eapply Hb; eassumption.
Qed.

Lemma speed_floor_extends m m' d : extends m m' -> speed_floor m d -> speed_floor m' d.
Proof.
  intros [[vs Hvs] _] H k x Hk. destruct (H k x Hk) as (name & ub & Hn).
  exists name, ub. rewrite Hvs. rewrite nth_error_app1; [exact Hn|].
  apply nth_error_Some. now rewrite Hn.
Qed.

Lemma create_decision_variables_created req m0 v m :
  _create_decision_variables req m0 = (Ok v, m) ->
  created (OptimizationRequest.trains req) v m.
Proof.
  intros H. unfold _create_decision_variables in H.
  apply bind_Ok in H as (v1 & m1 & H1 & H2).
  assert (C1 : created (OptimizationRequest.trains req) v1 m1).
  { change (OptimizationRequest.trains req) with ([] ++ OptimizationRequest.trains req)%list.
    eapply (for_fold_prefix created); [| |exact H1].
    - clear. intros pre s t m r m' (K & F & P) Hbody.
      apply bind_Ok in Hbody as (sv & ma & Ha & Hbody).
      apply bind_Ok in Hbody as (ev & mb & Hb & Hbody).
      apply bind_Ok in Hbody as (pv & mc & Hc & Hbody).
      apply bind_Ok in Hbody as (dv & md & Hd & Hbody).
      apply add_variable_Ok in Ha as [_ Ea]. apply add_variable_Ok in Hb as [_ Eb].
      apply add_variable_Ok in Hc as [_ Ec]. apply add_variable_Ok in Hd as [_ Ed].
      assert (Emd : extends m md).
      { eapply extends_trans; [exact Ea|]. eapply extends_trans; [exact Eb|].
        eapply extends_trans; [exact Ec|exact Ed]. }
      pose (J := fun (done : list string) (s' : Variables.t) (m' : CpModel) =>
                   keys (Variables.train_start_times s')
                   = distinct (List.map Train.id (pre ++ [t]))
                   /\ speed_floor m' (Variables.speed_variables s')
                   /\ Forall (speeds_known (Variables.speed_variables s')) pre
                   /\ forall section, In section done ->
                        mem (Variables.speed_variables s')
                            (Train.id t ++ "_" ++ section)%string = true).
      assert (HJ : J ([] ++ Train.route_sections t)%list r m').
      { eapply (for_fold_prefix J); [| |exact Hbody].
        - clear. intros done s sec m r m' (K & F & P & Q) Hbody.
          apply bind_Ok in Hbody as (u & ma & Ha & Hbody). apply lift_Ok in Ha as [_ ->].
          apply bind_Ok in Hbody as (sp & mb & Hb & Hbody).
          injection Hbody as <- <-.
          unfold J. cbn [Variables.train_start_times Variables.speed_variables].
          change (Train.id t ++ String "_" sec)%string
            with (Train.id t ++ "_" ++ sec)%string.
          pose proof (run_extends _ _ _ _ (grows_add_variable _ _ _) Hb) as E.
          split; [exact K|]. split; [|split].
          + intros k x Hk. destruct (String.eqb_spec (Train.id t ++ "_" ++ sec)%string k)
              as [<-|Hne].
            * rewrite get_set_same in Hk. injection Hk as <-.
              unfold NewIntVar, add_variable in Hb. injection Hb as <- <-.
              eexists. eexists. simpl. rewrite nth_error_app2 by lia.
              rewrite Nat.sub_diag. reflexivity.
            * rewrite get_set_other in Hk by exact Hne.
              eapply speed_floor_extends; [exact E|exact F|exact Hk].
          + eapply Forall_impl; [|exact P]. intros t' Ht' section Hin.
            apply mem_set. now apply Ht'.
          + intros section Hin. apply in_app_or in Hin as [Hin|[<-|[]]].
            * apply mem_set. now apply Q.
            * apply mem_set_same.
        - unfold J. cbn [Variables.train_start_times Variables.speed_variables].
          split; [|split; [|split]].
          + rewrite keys_set_step, K. unfold distinct.
            rewrite map_app, fold_left_app. reflexivity.
          + eapply speed_floor_extends; [exact Emd|exact F].
          + exact P.
          + intros section []. }
      destruct HJ as (K' & F' & P' & Q'). split; [exact K'|]. split; [exact F'|].
      apply Forall_app. split; [exact P'|]. constructor; [|constructor].
      exact Q'.
    - split; [reflexivity|]. split; [|constructor]. intros k x Hk. discriminate Hk. }
  set (ts := OptimizationRequest.trains req) in *.
  eapply (for_fold_inv (created ts)); [| exact C1 |exact H2].
  clear. intros s t m r m' Hs Hbody.
  eapply (for_fold_inv (created ts)); [| exact Hs |exact Hbody].
  clear. intros s sec m r m' Hs Hbody.
  eapply (for_fold_inv (created ts)); [| exact Hs |exact Hbody].
  clear. intros s k m r m' (K & F & P) Hbody.
  apply bind_Ok in Hbody as (b & ma & Ha & Hbody). injection Hbody as <- <-.
  split; [exact K|]. split; [|exact P].
  eapply speed_floor_extends; [|exact F].
  eapply run_extends; [apply grows_add_variable|exact Ha].
Qed.

Lemma build_model_created env req v m :
  build_model env req cp_model.empty = (Ok v, m) ->
  created (OptimizationRequest.trains req) v m.
Proof.
  intros H. unfold build_model in H.
  apply bind_Ok in H as (v0 & m0 & Hv & H).
  apply bind_Ok in H as (u1 & m6 & Hc & H).
  apply bind_Ok in H as (u2 & m7 & Ho & H).
  injection H as <- <-.
  apply create_decision_variables_created in Hv. destruct Hv as (K & F & P).
  split; [exact K|]. split; [|exact P].
  eapply speed_floor_extends; [|exact F].
  eapply extends_trans.
  - eapply run_extends; [apply grows_constraints|exact Hc].
  - eapply run_extends; [apply grows_set_objective'|exact Ho].
Qed.

Lemma sum_from l acc : fold_left Z.add l acc = acc + Py.sum l.
Proof.
  unfold Py.sum. revert acc. induction l as [|x l IH]; intros acc; simpl; [lia|].
  rewrite IH, (IH x). lia.
Qed.

Lemma sum_between {A} (f : A -> Z) (l : list A) lo hi :
  (forall x, In x l -> lo <= f x <= hi) ->
  lo * len l <= Py.sum (List.map f l) <= hi * len l.
Proof.
  unfold len. induction l as [|x l IH]; intros H; [unfold Py.sum; simpl; lia|].
  unfold Py.sum. simpl. rewrite sum_from.
  pose proof (H x (or_introl eq_refl)).
  assert (forall y, In y l -> lo <= f y <= hi) as H' by (intros y Hy; apply H; now right).
  specialize (IH H'). lia.
Qed.

Lemma count_platform_changes_len schedule trains :
  _count_platform_changes schedule trains = len schedule.
Proof.
  unfold _count_platform_changes, len.
  assert (G : forall l acc, fold_left (fun changes (_ : TrainScheduleEntry.t) => changes + 1) l acc
                            = acc + Z.of_nat (List.length l)).
  { induction l as [|x l IH]; intros acc; simpl; [lia|]. rewrite IH. lia. }
  now rewrite G.
Qed.

(** X12: the delay a solved response reports counts late trains only: it
    is the sum of the positive delay adjustments, between 0 and 60 minutes
    per train. Its platform changes are the number of trains, and its
    resolved conflicts a third of the number of distinct train ids,
    whatever schedule was found. *)
Theorem metrics_count_trains_not_events env req :
  cp_model.sound (Environment.Solve env) ->
  solved (optimize_schedule env req) ->
  let r := optimize_schedule env req in
  let n := len (OptimizationRequest.trains req) in
  exists total,
    PerformanceMetrics.total_delay_minutes (OptimizationResponse.kpis r) = Int total
    /\ total = Py.sum (List.map (fun e => Z.max 0 (TrainScheduleEntry.delay_adjustment_minutes e))
                                (OptimizationResponse.optimized_schedule r))
    /\ 0 <= total <= 60 * n
    /\ PerformanceMetrics.platform_changes (OptimizationResponse.kpis r) = n
    /\ PerformanceMetrics.conflicts_resolved (OptimizationResponse.kpis r)
       = len (distinct (List.map Train.id (OptimizationRequest.trains req))) / 3.
Proof.
  intros Hsound Hsolved. cbv zeta.
  destruct (solved_inv env req Hsolved) as (v & m & st & a & Hb & Hsolve & Hst & Hmap & Hk).
  pose proof (rmap_length _ _ _ Hmap) as Hlen.
  assert (Hd : forall e, In e (OptimizationResponse.optimized_schedule (optimize_schedule env req)) ->
                         0 <= Z.max 0 (TrainScheduleEntry.delay_adjustment_minutes e) <= 60).
  { intros e He. apply In_nth_error in He as [i He].
    destruct (entry_train env req i e Hsolved He) as [t Hi].
    destruct (solved_values env req i t e Hsound Hsolved Hi He)
      as (_ & _ & a' & _ & _ & _ & d & _ & _ & _ & _ & _ & _ & _ & _ & _ & D4 & _ & _ & _ & B4).
    rewrite D4. lia. }
  destruct (build_model_created env req v m Hb) as (K & _).
  remember (OptimizationResponse.optimized_schedule (optimize_schedule env req)) as sched.
  remember (OptimizationResponse.kpis (optimize_schedule env req)) as kpis.
  clear Heqsched Heqkpis.
  unfold _calculate_performance_metrics in Hk. rbind_inv Hk. injection Hk as <-.
  cbn [PerformanceMetrics.total_delay_minutes PerformanceMetrics.platform_changes
       PerformanceMetrics.conflicts_resolved].
  eexists. split; [reflexivity|]. split; [reflexivity|].
  split; [|split].
  - pose proof (sum_between (fun e => Z.max 0 (TrainScheduleEntry.delay_adjustment_minutes e))
                  sched 0 60 Hd) as B.
    unfold len in *. rewrite Hlen in B. lia.
  - rewrite count_platform_changes_len. unfold len. now rewrite Hlen.
  - unfold _count_conflicts_resolved. unfold len at 1.
    replace (List.length (Variables.train_start_times v))
      with (List.length (keys (Variables.train_start_times v)))
      by (unfold keys; apply length_map).
    now rewrite K.
Qed.

Lemma metrics_witness_counts :
  exists total,
    PerformanceMetrics.total_delay_minutes (OptimizationResponse.kpis shifted_response)
    = Int total
    /\ total = Py.sum (List.map (fun e => Z.max 0 (TrainScheduleEntry.delay_adjustment_minutes e))
                                (OptimizationResponse.optimized_schedule shifted_response))
    /\ 0 <= total <= 60 * len (OptimizationRequest.trains two_trains)
    /\ PerformanceMetrics.platform_changes (OptimizationResponse.kpis shifted_response)
       = len (OptimizationRequest.trains two_trains)
    /\ PerformanceMetrics.conflicts_resolved (OptimizationResponse.kpis shifted_response)
       = len (distinct (List.map Train.id (OptimizationRequest.trains two_trains))) / 3.
Proof.
  apply (metrics_count_trains_not_events (environment (naming_solver shifted)) two_trains).
  - apply naming_solver_sound.
  - right. vm_compute. reflexivity.
Defined.

Lemma schedule_entry_profile a v req t e :
  schedule_entry a v req t = Ok e ->
  _generate_speed_profile a v t = Ok (TrainScheduleEntry.speed_profile e).
Proof.
  unfold schedule_entry. intros H. rbind_inv H. now injection H as <-.
Qed.

Lemma rmap_nth_inv {A B} (f : A -> result B) l l' :
  rmap f l = Ok l' ->
  forall i y, nth_error l' i = Some y -> exists x, nth_error l i = Some x /\ f x = Ok y.
Proof.
  revert l'. induction l as [|a l IH]; intros l' H i y Hi; simpl in H.
  - injection H as <-. destruct i; discriminate.
  - destruct (f a) as [b|e] eqn:Hb; [|discriminate]. simpl in H.
    destruct (rmap f l) as [bs|e] eqn:Hbs; [|discriminate]. simpl in H.
    injection H as <-. destruct i as [|i]; simpl in *.
    + injection Hi as <-. now exists a.
    + eapply IH; eauto.
Qed.

Lemma enumerate_nth {A} (l : list A) k i x :
  nth_error (enumerate l) k = Some (i, x) -> i = Z.of_nat k /\ nth_error l k = Some x.
Proof.
  unfold enumerate.
  assert (G : forall n s k, nth_error (List.combine (List.map Z.of_nat (seq s n)) l) k
                            = Some (i, x) ->
                            i = Z.of_nat (s + k) /\ nth_error l k = Some x).
  { clear k. revert l. induction l as [|a l IH]; intros n s k H.
    - destruct n; destruct k; discriminate.
    - destruct n as [|n]; [destruct k; discriminate|]. simpl in H.
      destruct k as [|k]; simpl in *.
      + injection H as <- <-. split; [f_equal; lia|reflexivity].
      + destruct (IH n (S s) k H) as [-> Hx]. split; [f_equal; lia|exact Hx]. }
  intros H. destruct (G _ _ _ H) as [-> Hx]. now split.
Qed.

(** X13: the speed profile of a solved train has one point per route
    section, 10 km and 15 minutes apart, and the speed of each point is
    the value solved for a speed variable, at least 20 km/h: the fall-back
    of 80% of the maximum speed is never used. *)
Theorem speed_profile_follows_the_sections env req i t e :
  cp_model.sound (Environment.Solve env) ->
  solved (optimize_schedule env req) ->
  nth_error (OptimizationRequest.trains req) i = Some t ->
  nth_error (OptimizationResponse.optimized_schedule (optimize_schedule env req)) i = Some e ->
  List.length (TrainScheduleEntry.speed_profile e) = List.length (Train.route_sections t)
  /\ forall k p, nth_error (TrainScheduleEntry.speed_profile e) k = Some p ->
       SpeedProfilePoint.position_km p = Int (Z.of_nat k * 10)
       /\ SpeedProfilePoint.time_offset_minutes p = Int (Z.of_nat k * 15)
       /\ exists speed, SpeedProfilePoint.speed_kmh p = Int speed /\ 20 <= speed.
Proof.
  intros Hsound Hsolved Hi He.
  destruct (solved_inv env req Hsolved) as (v & m & st & a & Hb & Hsolve & Hst & Hmap & _).
  pose proof (Hsound _ _ _ _ Hsolve Hst) as Hsol.
  destruct (build_model_created env req v m Hb) as (_ & F & P).
  destruct (rmap_nth _ _ _ Hmap i t Hi) as (y & Y & Fe).
  rewrite He in Y. injection Y as <-.
  apply schedule_entry_profile in Fe. unfold _generate_speed_profile in Fe.
  split.
  - rewrite (rmap_length _ _ _ Fe). unfold enumerate.
    rewrite length_combine, length_map, length_seq. lia.
  - intros k p Hp.
    destruct (rmap_nth_inv _ _ _ Fe k p Hp) as ([j section] & Hx & Hf).
    apply enumerate_nth in Hx as [-> Hsec].
    rewrite Forall_forall in P.
    pose proof (P t (nth_error_In _ _ Hi) section (nth_error_In _ _ Hsec)) as Hmem.
    rewrite Hmem in Hf. unfold mem in Hmem. unfold getitem in Hf.
    destruct (get (Variables.speed_variables v) (Train.id t ++ "_" ++ section)%string)
      as [x|] eqn:Hx; [|discriminate].
    simpl in Hf. injection Hf as <-. simpl.
    split; [reflexivity|]. split; [reflexivity|].
    exists (a x). split; [reflexivity|].
    destruct (F _ _ Hx) as (name & ub & Hn).
    pose proof (solution_domain _ _ _ _ _ _ Hsol Hn). lia.
Qed.

Lemma speed_profile_witness :
  List.length (TrainScheduleEntry.speed_profile (entry on_time_response 0))
  = List.length (Train.route_sections express)
  /\ forall k p,
       nth_error (TrainScheduleEntry.speed_profile (entry on_time_response 0)) k = Some p ->
       SpeedProfilePoint.position_km p = Int (Z.of_nat k * 10)
       /\ SpeedProfilePoint.time_offset_minutes p = Int (Z.of_nat k * 15)
       /\ exists speed, SpeedProfilePoint.speed_kmh p = Int speed /\ 20 <= speed.
Proof.
  apply (speed_profile_follows_the_sections (environment (naming_solver on_time)) two_trains
           0 express).
  - apply naming_solver_sound.
  - right. vm_compute. reflexivity.
  - reflexivity.
  - vm_compute. reflexivity.
Defined.

(* ===================================================================== *)
(** ** Signal spacing and safety distance *)
(* ===================================================================== *)

Lemma getitem_keys {V} (d : dict V) k : In k (keys d) -> exists x, getitem d k = Ok x.
Proof.
  unfold getitem, keys. induction d as [|[k' v'] d IH]; simpl; [contradiction|].
  intros [->|Hin].
  - rewrite String.eqb_refl. now exists v'.
  - destruct (String.eqb k' k); [now exists v'|apply IH; exact Hin].
Qed.

Lemma getitem_position {V} (d : dict V) k x :
  getitem d k = Ok x -> exists p, nth_error (keys d) p = Some k.
Proof.
  unfold getitem, keys. induction d as [|[k' v'] d IH]; simpl; [discriminate|].
  destruct (String.eqb_spec k' k) as [->|Hne].
  - intros _. now exists 0%nat.
  - intros H. destruct (IH H) as [p Hp]. now exists (S p).
Qed.

Lemma for_each_total_in {A} (l : list A) (body : A -> M unit) :
  (forall x m, In x l -> exists m', body x m = (Ok tt, m')) ->
  forall m, exists m', for_each l body m = (Ok tt, m').
Proof.
  induction l as [|x l IH]; intros Hb m; simpl.
  - now exists m.
  - unfold bind. destruct (Hb x m (or_introl eq_refl)) as [m1 ->].
    apply IH. intros y m' Hy. apply Hb. now right.
Qed.

Lemma for_pairs_total_in {A} (l : list A) (body : A -> A -> M unit) :
  (forall x y m, In x l -> In y l -> exists m', body x y m = (Ok tt, m')) ->
  forall m, exists m', for_pairs l body m = (Ok tt, m').
Proof.
  induction l as [|x l IH]; intros Hb m; simpl.
  - now exists m.
  - unfold bind.
    destruct (for_each_total_in l (body x)
                (fun y m' Hy => Hb x y m' (or_introl eq_refl) (or_intror Hy)) m) as [m1 ->].
    apply IH. intros y z m' Hy Hz. apply Hb; now right.
Qed.

(** What the loop over the request's constraints leaves in the model. *)
Lemma custom_post env v req (P : Constraint.t -> CpModel -> Prop) :
  (forall c m m', P c m -> extends m m' -> P c m') ->
  (forall c m ok m', ConstraintBuilder.add_constraint env v c m = (Ok ok, m') -> P c m') ->
  forall m u m', _add_custom_constraints env v req m = (Ok u, m') ->
  forall c, In c (OptimizationRequest.constraints req) -> P c m'.
Proof.
  intros Hs Hb m u m' H. unfold _add_custom_constraints in H.
  eapply (for_each_post P); [| |  |exact H].
  - intros c. grows_auto. apply grows_registry_add_constraint.
  - exact Hs.
  - intros c m1 u1 m2 Hrun. unfold catch, bind in Hrun.
    destruct (registry_add_constraint_total env v c m1) as (ok & m3 & E).
    rewrite E in Hrun. injection Hrun as _ <-. eapply Hb; exact E.
Qed.

(** A registered handler that succeeds is what [add_constraint] runs. *)
Lemma add_constraint_runs env v c m ok m' name h :
  of_kind c name ->
  getitem (ConstraintBuilder.constraint_registry env) name = Ok h ->
  (forall m0, exists m1, h v c m0 = (Ok tt, m1)) ->
  ConstraintBuilder.add_constraint env v c m = (Ok ok, m') ->
  h v c m = (Ok tt, m').
Proof.
  unfold of_kind. intros Hk Hh Htotal H.
  unfold ConstraintBuilder.add_constraint in H. rewrite Hk in H.
  unfold mem_str, mem, ConstraintBuilder.registry_getitem in H.
  rewrite (getitem_get _ _ _ Hh) in H. cbn [negb] in H.
  rewrite Hh in H. unfold catch, bind, lift in H.
  destruct (Htotal m) as [m1 E]. rewrite E in H |- *. now injection H as _ <-.
Qed.

Lemma spacing_posted_extends v gap k1 k2 m m' :
  spacing_posted v gap k1 k2 m -> extends m m' -> spacing_posted v gap k1 k2 m'.
Proof.
  intros (s1 & s2 & b & H1 & H2 & H3 & H4 & H5) Hext.
  exists s1, s2, b. repeat split; try assumption.
  - eapply is_bool_var_extends; eassumption.
  - eapply posted_extends; eassumption.
  - eapply posted_extends; eassumption.
Qed.

Lemma signal_spacing_total env v c h m :
  ConstraintBuilder.int_parameter env (Constraint.parameters c) "min_headway_seconds" 180 = Ok h ->
  is_int64 (h / 60) = true ->
  exists m', ConstraintBuilder._add_signal_spacing_constraint env v c m = (Ok tt, m').
Proof.
  intros Hh Hfit. unfold ConstraintBuilder._add_signal_spacing_constraint.
  unfold bind at 1, lift at 1. rewrite Hh.
  apply for_pairs_total_in. intros k1 k2 m0 H1 H2.
  destruct (getitem_keys _ _ H1) as [s1 E1]. destruct (getitem_keys _ _ H2) as [s2 E2].
  in_range Hfit. unfold bind, lift. rewrite E1, E2. eexists. reflexivity.
Qed.

Lemma signal_spacing_post env v c h m u m' :
  ConstraintBuilder.int_parameter env (Constraint.parameters c) "min_headway_seconds" 180 = Ok h ->
  ConstraintBuilder._add_signal_spacing_constraint env v c m = (Ok u, m') ->
  forall p q k1 k2, (p < q)%nat ->
    nth_error (keys (Variables.train_start_times v)) p = Some k1 ->
    nth_error (keys (Variables.train_start_times v)) q = Some k2 ->
    spacing_posted v (h / 60) k1 k2 m'.
Proof.
  intros Hh H. unfold ConstraintBuilder._add_signal_spacing_constraint in H.
  unfold bind at 1, lift at 1 in H. rewrite Hh in H.
  eapply (for_pairs_post (spacing_posted v (h / 60))); [| | |exact H].
  - intros x y. grows_auto.
  - intros x y m1 m2. apply spacing_posted_extends.
  - clear. intros k1 k2 m u m' H. cbv beta in H. bind_inv H.
    exists a, a0, a1. repeat split; try assumption.
    + apply AddOnlyEnforceIf_Ok in H, H1. injection H1 as _ <-. injection H as _ <-.
      unfold NewBoolVar, add_variable in H0. injection H0 as <- <-.
      eexists. simpl. rewrite nth_error_app2 by lia. rewrite Nat.sub_diag. reflexivity.
    + apply AddOnlyEnforceIf_Ok in H, H1. injection H1 as _ <-. injection H as _ <-.
      unfold posted. simpl. rewrite <- app_assoc. apply in_or_app. right. now left.
    + apply AddOnlyEnforceIf_Ok in H. injection H as _ <-. apply posted_last.
Qed.

(** A pair of enforced inequalities, one for each order, keeps the two
    values the gap apart. *)
Lemma spacing_apart m a s1 s2 b gap :
  is_solution m a = true -> is_bool_var m b ->
  posted m (Linear (Cmp (Var s2) GE (Sum (Var s1) (Const gap))) [Pos b]) ->
  posted m (Linear (Cmp (Var s1) GE (Sum (Var s2) (Const gap))) [Not b]) ->
  gap <= Z.abs (a s1 - a s2).
Proof.
  intros Hsol Hb H1 H2.
  pose proof (solution_posted _ _ _ Hsol H1) as P1.
  pose proof (solution_posted _ _ _ Hsol H2) as P2.
  destruct (solution_bool _ _ _ Hsol Hb) as [E|E];
    cbn in P1, P2; rewrite E in P1, P2; cbn in P1, P2.
  - apply Z.leb_le in P2. lia.
  - apply Z.leb_le in P1. lia.
Qed.

(** The model of a request that supplies a signal-spacing constraint. *)
Lemma build_model_spacing env req v m c h :
  build_model env req cp_model.empty = (Ok v, m) ->
  In c (OptimizationRequest.constraints req) ->
  of_kind c "SIGNAL_SPACING" ->
  ConstraintBuilder.int_parameter env (Constraint.parameters c) "min_headway_seconds" 180 = Ok h ->
  is_int64 (h / 60) = true ->
  forall p q k1 k2, (p < q)%nat ->
    nth_error (keys (Variables.train_start_times v)) p = Some k1 ->
    nth_error (keys (Variables.train_start_times v)) q = Some k2 ->
    spacing_posted v (h / 60) k1 k2 m.
Proof.
  intros H Hin Hk Hh Hfit. unfold build_model, _add_constraints in H.
  apply bind_Ok in H as (v0 & m0 & Hv & H).
  apply bind_Ok in H as (u1 & m6 & Hc & H).
  apply bind_Ok in H as (u2 & m7 & Ho & H).
  injection H as <- <-.
  apply bind_Ok in Hc as (? & m1 & Ht & Hc).
  apply bind_Ok in Hc as (? & m2 & Hp & Hc).
  apply bind_Ok in Hc as (? & m3 & Hs & Hc).
  apply bind_Ok in Hc as (? & m4 & Hpr & Hc).
  apply bind_Ok in Hc as (? & m5 & Hr & Hc).
  pose proof (run_extends _ _ _ _ (grows_set_objective' _ _) Ho) as X7.
  set (P := fun (c : Constraint.t) (m : CpModel) =>
              of_kind c "SIGNAL_SPACING" ->
              forall h, ConstraintBuilder.int_parameter env (Constraint.parameters c)
                          "min_headway_seconds" 180 = Ok h ->
              is_int64 (h / 60) = true ->
              forall p q k1 k2, (p < q)%nat ->
                nth_error (keys (Variables.train_start_times v0)) p = Some k1 ->
                nth_error (keys (Variables.train_start_times v0)) q = Some k2 ->
                spacing_posted v0 (h / 60) k1 k2 m).
  assert (HP1 : forall c m m', P c m -> extends m m' -> P c m').
  { intros c0 ma mb HP Hext Hk0 h0 Hh0 Hf0 p q k1 k2 Hpq Hp1 Hq1.
    eapply spacing_posted_extends; [|exact Hext]. eapply HP; eassumption. }
  assert (HP2 : forall c m ok m',
             ConstraintBuilder.add_constraint env v0 c m = (Ok ok, m') -> P c m').
  { intros c0 ma ok mb Hrun Hk0 h0 Hh0 Hf0.
    eapply signal_spacing_post; [exact Hh0|].
    eapply (add_constraint_runs env v0 c0 ma ok mb "SIGNAL_SPACING");
      [exact Hk0|reflexivity| |exact Hrun].
    intros mz. eapply signal_spacing_total; [exact Hh0|exact Hf0]. }
  pose proof (custom_post env v0 req P HP1 HP2 m5 u1 m6 Hc c Hin Hk h Hh Hfit) as Q.
  intros p q k1 k2 Hpq Hp1 Hq1.
  eapply spacing_posted_extends; [|exact X7]. eapply Q; eassumption.
Qed.

(** X14: a SIGNAL_SPACING constraint of the request keeps every two
    trains with different ids apart, whether or not they share a section:
    in a solved schedule their departures differ by at least the
    constraint's [min_headway_seconds], 180 when it gives none, divided
    by 60 and rounded down, in minutes, provided that number of minutes
    is in the 64-bit range the library accepts. *)
Theorem signal_spacing_keeps_all_trains_apart env req c h i j t1 t2 e1 e2 :
  cp_model.sound (Environment.Solve env) ->
  solved (optimize_schedule env req) ->
  In c (OptimizationRequest.constraints req) ->
  of_kind c "SIGNAL_SPACING" ->
  ConstraintBuilder.int_parameter env (Constraint.parameters c) "min_headway_seconds" 180 = Ok h ->
  is_int64 (h / 60) = true ->
  nth_error (OptimizationRequest.trains req) i = Some t1 ->
  nth_error (OptimizationRequest.trains req) j = Some t2 ->
  Train.id t1 <> Train.id t2 ->
  nth_error (OptimizationResponse.optimized_schedule (optimize_schedule env req)) i = Some e1 ->
  nth_error (OptimizationResponse.optimized_schedule (optimize_schedule env req)) j = Some e2 ->
  minutes (h / 60) <=
    Z.abs (TrainScheduleEntry.scheduled_departure e1 - TrainScheduleEntry.scheduled_departure e2).
Proof.
  intros Hsound Hsolved Hin Hk Hh Hfit Hi Hj Hne He1 He2.
  destruct (solved_inv env req Hsolved) as (v & m & st & a & Hb & Hsolve & Hst & Hmap & _).
  pose proof (Hsound _ _ _ _ Hsolve Hst) as Hsol.
  destruct (rmap_nth _ _ _ Hmap i t1 Hi) as (y1 & Y1 & F1).
  destruct (rmap_nth _ _ _ Hmap j t2 Hj) as (y2 & Y2 & F2).
  rewrite He1 in Y1. rewrite He2 in Y2. injection Y1 as <-. injection Y2 as <-.
  apply schedule_entry_Ok in F1 as (s1 & ? & ? & ? & S1 & _ & _ & _ & D1 & _).
  apply schedule_entry_Ok in F2 as (s2 & ? & ? & ? & S2 & _ & _ & _ & D2 & _).
  destruct (getitem_position _ _ _ S1) as [p Hp].
  destruct (getitem_position _ _ _ S2) as [q Hq].
  pose proof (build_model_spacing env req v m c h Hb Hin Hk Hh Hfit) as Hpost.
  assert (Hgap : h / 60 <= Z.abs (a s1 - a s2)).
  { destruct (Nat.lt_total p q) as [L|[L|L]].
    - destruct (Hpost p q _ _ L Hp Hq) as (s1' & s2' & b & G1 & G2 & Gb & P1 & P2).
      rewrite S1 in G1. rewrite S2 in G2. injection G1 as <-. injection G2 as <-.
      exact (spacing_apart m a s1 s2 b _ Hsol Gb P1 P2).
    - exfalso. subst q. rewrite Hp in Hq. now injection Hq.
    - destruct (Hpost q p _ _ L Hq Hp) as (s2' & s1' & b & G2 & G1 & Gb & P1 & P2).
      rewrite S1 in G1. rewrite S2 in G2. injection G1 as <-. injection G2 as <-.
      pose proof (spacing_apart m a s2 s1 b _ Hsol Gb P1 P2). lia. }
  rewrite D1, D2. unfold minutes. lia.
Qed.

Lemma signal_spacing_witness :
  minutes (300 / 60) <=
    Z.abs (TrainScheduleEntry.scheduled_departure (entry spacing_response 0)
           - TrainScheduleEntry.scheduled_departure (entry spacing_response 1)).
Proof.
  apply (signal_spacing_keeps_all_trains_apart
           (environment (naming_solver on_time_spaced)) with_spacing well_formed 300
           0 1 express passenger).
  - apply naming_solver_sound.
  - right. vm_compute. reflexivity.
  - simpl. auto 10.
  - reflexivity.
  - reflexivity.
  - reflexivity.
  - reflexivity.
  - reflexivity.
  - discriminate.
  - vm_compute. reflexivity.
  - vm_compute. reflexivity.
Defined.

Lemma distance_posted_extends v gap k1 k2 m m' :
  distance_posted v gap k1 k2 m -> extends m m' -> distance_posted v gap k1 k2 m'.
Proof.
  intros (s1 & s2 & e1 & e2 & b & H1 & H2 & H3 & H4 & H5 & H6 & H7) Hext.
  exists s1, s2, e1, e2, b. repeat split; try assumption.
  - eapply is_bool_var_extends; eassumption.
  - eapply posted_extends; eassumption.
  - eapply posted_extends; eassumption.
Qed.

Lemma safety_distance_total env v c h m :
  keys (Variables.train_end_times v) = keys (Variables.train_start_times v) ->
  ConstraintBuilder.int_parameter env (Constraint.parameters c) "min_distance_seconds" 300 = Ok h ->
  is_int64 (h / 60) = true ->
  exists m', ConstraintBuilder._add_safety_distance_constraint env v c m = (Ok tt, m').
Proof.
  intros K Hh Hfit. unfold ConstraintBuilder._add_safety_distance_constraint.
  unfold bind at 1, lift at 1. rewrite Hh.
  apply for_pairs_total_in. intros k1 k2 m0 H1 H2.
  destruct (getitem_keys _ _ H1) as [s1 E1]. destruct (getitem_keys _ _ H2) as [s2 E2].
  rewrite <- K in H1, H2.
  destruct (getitem_keys _ _ H1) as [n1 N1]. destruct (getitem_keys _ _ H2) as [n2 N2].
  in_range Hfit. unfold bind, lift. cbn [NewBoolVar add_variable]. rewrite E1, E2, N1, N2.
  eexists. reflexivity.
Qed.

Lemma safety_distance_post env v c h m u m' :
  ConstraintBuilder.int_parameter env (Constraint.parameters c) "min_distance_seconds" 300 = Ok h ->
  ConstraintBuilder._add_safety_distance_constraint env v c m = (Ok u, m') ->
  forall p q k1 k2, (p < q)%nat ->
    nth_error (keys (Variables.train_start_times v)) p = Some k1 ->
    nth_error (keys (Variables.train_start_times v)) q = Some k2 ->
    distance_posted v (h / 60) k1 k2 m'.
Proof.
  intros Hh H. unfold ConstraintBuilder._add_safety_distance_constraint in H.
  unfold bind at 1, lift at 1 in H. rewrite Hh in H.
  eapply (for_pairs_post (distance_posted v (h / 60))); [| | |exact H].
  - intros x y. grows_auto.
  - intros x y m1 m2. apply distance_posted_extends.
  - clear. intros k1 k2 m u m' H. cbv beta in H.
    apply bind_Ok in H as (b & mb & Hb & H). bind_inv H.
    exists a, a0, a1, a2, b. repeat split; try assumption.
    + apply AddOnlyEnforceIf_Ok in H, H0. injection H0 as _ <-. injection H as _ <-.
      unfold NewBoolVar, add_variable in Hb. injection Hb as <- <-.
      eexists. simpl. rewrite nth_error_app2 by lia. rewrite Nat.sub_diag. reflexivity.
    + apply AddOnlyEnforceIf_Ok in H, H0. injection H0 as _ <-. injection H as _ <-.
      unfold posted. simpl. rewrite <- app_assoc. apply in_or_app. right. now left.
    + apply AddOnlyEnforceIf_Ok in H. injection H as _ <-. apply posted_last.
Qed.

(** The model of a request that supplies a safety-distance constraint. *)
Lemma build_model_distance env req v m c h :
  build_model env req cp_model.empty = (Ok v, m) ->
  In c (OptimizationRequest.constraints req) ->
  of_kind c "SAFETY_DISTANCE" ->
  ConstraintBuilder.int_parameter env (Constraint.parameters c) "min_distance_seconds" 300 = Ok h ->
  is_int64 (h / 60) = true ->
  forall p q k1 k2, (p < q)%nat ->
    nth_error (keys (Variables.train_start_times v)) p = Some k1 ->
    nth_error (keys (Variables.train_start_times v)) q = Some k2 ->
    distance_posted v (h / 60) k1 k2 m.
Proof.
  intros H Hin Hk Hh Hfit.
  destruct (build_model_bounded_variables env req v m H) as (_ & _ & _ & _ & K & _).
  unfold build_model, _add_constraints in H.
  apply bind_Ok in H as (v0 & m0 & Hv & H).
  apply bind_Ok in H as (u1 & m6 & Hc & H).
  apply bind_Ok in H as (u2 & m7 & Ho & H).
  injection H as <- <-.
  apply bind_Ok in Hc as (? & m1 & Ht & Hc).
  apply bind_Ok in Hc as (? & m2 & Hp & Hc).
  apply bind_Ok in Hc as (? & m3 & Hs & Hc).
  apply bind_Ok in Hc as (? & m4 & Hpr & Hc).
  apply bind_Ok in Hc as (? & m5 & Hr & Hc).
  pose proof (run_extends _ _ _ _ (grows_set_objective' _ _) Ho) as X7.
  set (P := fun (c : Constraint.t) (m : CpModel) =>
              of_kind c "SAFETY_DISTANCE" ->
              forall h, ConstraintBuilder.int_parameter env (Constraint.parameters c)
                          "min_distance_seconds" 300 = Ok h ->
              is_int64 (h / 60) = true ->
              forall p q k1 k2, (p < q)%nat ->
                nth_error (keys (Variables.train_start_times v0)) p = Some k1 ->
                nth_error (keys (Variables.train_start_times v0)) q = Some k2 ->
                distance_posted v0 (h / 60) k1 k2 m).
  assert (HP1 : forall c m m', P c m -> extends m m' -> P c m').
  { intros c0 ma mb HP Hext Hk0 h0 Hh0 Hf0 p q k1 k2 Hpq Hp1 Hq1.
    eapply distance_posted_extends; [|exact Hext]. eapply HP; eassumption. }
  assert (HP2 : forall c m ok m',
             ConstraintBuilder.add_constraint env v0 c m = (Ok ok, m') -> P c m').
  { intros c0 ma ok mb Hrun Hk0 h0 Hh0 Hf0.
    eapply safety_distance_post; [exact Hh0|].
    eapply (add_constraint_runs env v0 c0 ma ok mb "SAFETY_DISTANCE");
      [exact Hk0|reflexivity| |exact Hrun].
    intros mz. eapply safety_distance_total; [exact K|exact Hh0|exact Hf0]. }
  pose proof (custom_post env v0 req P HP1 HP2 m5 u1 m6 Hc c Hin Hk h Hh Hfit) as Q.
  intros p q k1 k2 Hpq Hp1 Hq1.
  eapply distance_posted_extends; [|exact X7]. eapply Q; eassumption.
Qed.

(** X15: a SAFETY_DISTANCE constraint of the request lets no two trains
    with different ids run at the same time, whether or not they share a
    section: in a solved schedule one of them arrives at least the
    constraint's [min_distance_seconds], 300 when it gives none, divided
    by 60 and rounded down, in minutes before the other departs, provided
    that number of minutes is in the 64-bit range the library accepts. *)
Theorem safety_distance_runs_trains_one_after_the_other env req c h i j t1 t2 e1 e2 :
  cp_model.sound (Environment.Solve env) ->
  solved (optimize_schedule env req) ->
  In c (OptimizationRequest.constraints req) ->
  of_kind c "SAFETY_DISTANCE" ->
  ConstraintBuilder.int_parameter env (Constraint.parameters c) "min_distance_seconds" 300 = Ok h ->
  is_int64 (h / 60) = true ->
  nth_error (OptimizationRequest.trains req) i = Some t1 ->
  nth_error (OptimizationRequest.trains req) j = Some t2 ->
  Train.id t1 <> Train.id t2 ->
  nth_error (OptimizationResponse.optimized_schedule (optimize_schedule env req)) i = Some e1 ->
  nth_error (OptimizationResponse.optimized_schedule (optimize_schedule env req)) j = Some e2 ->
  TrainScheduleEntry.scheduled_arrival e1 + minutes (h / 60)
    <= TrainScheduleEntry.scheduled_departure e2
  \/ TrainScheduleEntry.scheduled_arrival e2 + minutes (h / 60)
       <= TrainScheduleEntry.scheduled_departure e1.
Proof.
  intros Hsound Hsolved Hin Hk Hh Hfit Hi Hj Hne He1 He2.
  destruct (solved_inv env req Hsolved) as (v & m & st & a & Hb & Hsolve & Hst & Hmap & _).
  pose proof (Hsound _ _ _ _ Hsolve Hst) as Hsol.
  destruct (rmap_nth _ _ _ Hmap i t1 Hi) as (y1 & Y1 & F1).
  destruct (rmap_nth _ _ _ Hmap j t2 Hj) as (y2 & Y2 & F2).
  rewrite He1 in Y1. rewrite He2 in Y2. injection Y1 as <-. injection Y2 as <-.
  apply schedule_entry_Ok in F1 as (s1 & n1 & ? & ? & S1 & N1 & _ & _ & D1 & A1 & _).
  apply schedule_entry_Ok in F2 as (s2 & n2 & ? & ? & S2 & N2 & _ & _ & D2 & A2 & _).
  destruct (getitem_position _ _ _ S1) as [p Hp].
  destruct (getitem_position _ _ _ S2) as [q Hq].
  pose proof (build_model_distance env req v m c h Hb Hin Hk Hh Hfit) as Hpost.
  assert (Hgap : a n1 + h / 60 <= a s2 \/ a n2 + h / 60 <= a s1).
  { assert (Hcase : forall k1 k2 w1 w2 z1 z2,
              distance_posted v (h / 60) k1 k2 m ->
              getitem (Variables.train_start_times v) k1 = Ok w1 ->
              getitem (Variables.train_start_times v) k2 = Ok w2 ->
              getitem (Variables.train_end_times v) k1 = Ok z1 ->
              getitem (Variables.train_end_times v) k2 = Ok z2 ->
              a z1 + h / 60 <= a w2 \/ a z2 + h / 60 <= a w1).
    { intros k1 k2 w1 w2 z1 z2 (w1' & w2' & z1' & z2' & b & G1 & G2 & G3 & G4 & Gb & P1 & P2)
             X1 X2 Z1 Z2.
      rewrite X1 in G1. rewrite X2 in G2. rewrite Z1 in G3. rewrite Z2 in G4.
      injection G1 as <-. injection G2 as <-. injection G3 as <-. injection G4 as <-.
      pose proof (solution_posted _ _ _ Hsol P1) as Q1.
      pose proof (solution_posted _ _ _ Hsol P2) as Q2.
      destruct (solution_bool _ _ _ Hsol Gb) as [E|E];
        cbn in Q1, Q2; rewrite E in Q1, Q2; cbn in Q1, Q2.
      - apply Z.leb_le in Q2. right. lia.
      - apply Z.leb_le in Q1. left. lia. }
    destruct (Nat.lt_total p q) as [L|[L|L]].
    - exact (Hcase _ _ _ _ _ _ (Hpost p q _ _ L Hp Hq) S1 S2 N1 N2).
    - exfalso. subst q. rewrite Hp in Hq. now injection Hq.
    - destruct (Hcase _ _ _ _ _ _ (Hpost q p _ _ L Hq Hp) S2 S1 N2 N1); [right|left];
        assumption. }
  rewrite D1, D2, A1, A2. unfold minutes. lia.
Qed.

Lemma safety_distance_witness :
  TrainScheduleEntry.scheduled_arrival (entry distance_response 0) + minutes (300 / 60)
    <= TrainScheduleEntry.scheduled_departure (entry distance_response 1)
  \/ TrainScheduleEntry.scheduled_arrival (entry distance_response 1) + minutes (300 / 60)
       <= TrainScheduleEntry.scheduled_departure (entry distance_response 0).
Proof.
  apply (safety_distance_runs_trains_one_after_the_other
           (environment (naming_solver one_after_the_other)) with_distance safe_distance 300
           0 1 express passenger).
  - apply naming_solver_sound.
  - right. vm_compute. reflexivity.
  - left. reflexivity.
  - reflexivity.
  - reflexivity.
  - reflexivity.
  - reflexivity.
  - reflexivity.
  - discriminate.
  - vm_compute. reflexivity.
  - vm_compute. reflexivity.
Defined.

(* ===================================================================== *)
(** ** Passenger transfers and speed limits *)
(* ===================================================================== *)

Lemma transfer_posted_extends v gap k1 k2 m m' :
  transfer_posted v gap k1 k2 m -> extends m m' -> transfer_posted v gap k1 k2 m'.
Proof. intros H Hext n s Hn Hs. eapply posted_extends; [exact Hext|]. now apply H. Qed.

Lemma mem_getitem {V} (d : dict V) k : mem d k = true -> exists x, getitem d k = Ok x.
Proof. unfold mem, getitem. destruct (get d k) as [x|]; [now exists x|discriminate]. Qed.

Lemma getitem_mem {V} (d : dict V) k x : getitem d k = Ok x -> mem d k = true.
Proof. unfold mem, getitem. destruct (get d k); [reflexivity|discriminate]. Qed.

Lemma passenger_transfer_total env v c gap m :
  ConstraintBuilder.int_parameter env (Constraint.parameters c) "min_transfer_minutes" 10 = Ok gap ->
  is_int64 gap = true ->
  exists m', ConstraintBuilder._add_passenger_transfer_constraint env v c m = (Ok tt, m').
Proof.
  intros Hg Hfit. unfold ConstraintBuilder._add_passenger_transfer_constraint.
  unfold bind at 1, lift at 1. rewrite Hg.
  destruct (2 <=? _); [|now exists m].
  apply for_each_total. intros i m0.
  destruct (mem (Variables.train_end_times v) _) eqn:M1; [|now exists m0].
  destruct (mem (Variables.train_start_times v) _) eqn:M2; [|now exists m0].
  cbn [andb].
  destruct (mem_getitem _ _ M1) as [n E1]. destruct (mem_getitem _ _ M2) as [s E2].
  in_range Hfit. unfold bind, lift. rewrite E1, E2. eexists. reflexivity.
Qed.

Lemma passenger_transfer_post env v c gap m u m' :
  ConstraintBuilder.int_parameter env (Constraint.parameters c) "min_transfer_minutes" 10 = Ok gap ->
  ConstraintBuilder._add_passenger_transfer_constraint env v c m = (Ok u, m') ->
  let connecting_trains :=
    split "," (ConstraintBuilder.str_parameter (Constraint.parameters c) "connecting_trains" "") in
  forall k x1 x2,
    nth_error connecting_trains k = Some x1 ->
    nth_error connecting_trains (S k) = Some x2 ->
    transfer_posted v gap (strip x1) (strip x2) m'.
Proof.
  intros Hg H connecting_trains k x1 x2 H1 H2.
  unfold ConstraintBuilder._add_passenger_transfer_constraint in H.
  unfold bind at 1, lift at 1 in H. rewrite Hg in H.
  fold connecting_trains in H.
  assert (Hlen : (S k < List.length connecting_trains)%nat)
    by (apply nth_error_Some; now rewrite H2).
  destruct (Z.leb_spec 2 (len connecting_trains)) as [_|Hlt]; [|unfold len in Hlt; lia].
  pose (P := fun (i : Z) (m : CpModel) =>
               transfer_posted v gap
                 (strip (nth (Z.to_nat i) connecting_trains ""%string))
                 (strip (nth (Z.to_nat (i + 1)) connecting_trains ""%string)) m).
  assert (HP : P (Z.of_nat k) m').
  { eapply (for_each_post P); [| | |exact H|].
    - intros i. grows_auto.
    - intros i m1 m2. apply transfer_posted_extends.
    - clear. intros i m u m' H n s Hn Hs. cbv beta zeta in H.
      rewrite (getitem_mem _ _ _ Hn), (getitem_mem _ _ _ Hs) in H. cbn [andb] in H.
      unfold bind, lift in H. rewrite Hn, Hs in H.
      apply Add_Ok in H. injection H as _ <-. apply posted_last.
    - unfold range. apply in_map_iff. exists k. split; [reflexivity|].
      apply in_seq. unfold len. lia. }
  unfold P in HP.
  replace (Z.to_nat (Z.of_nat k + 1)) with (S k) in HP by lia.
  rewrite Nat2Z.id in HP.
  rewrite (nth_error_nth _ _ _ H1), (nth_error_nth _ _ _ H2) in HP. exact HP.
Qed.

Lemma build_model_transfer env req v m c gap :
  build_model env req cp_model.empty = (Ok v, m) ->
  In c (OptimizationRequest.constraints req) ->
  of_kind c "PASSENGER_TRANSFER" ->
  ConstraintBuilder.int_parameter env (Constraint.parameters c) "min_transfer_minutes" 10 = Ok gap ->
  is_int64 gap = true ->
  forall k x1 x2,
    nth_error (split "," (ConstraintBuilder.str_parameter (Constraint.parameters c)
                            "connecting_trains" "")) k = Some x1 ->
    nth_error (split "," (ConstraintBuilder.str_parameter (Constraint.parameters c)
                            "connecting_trains" "")) (S k) = Some x2 ->
    transfer_posted v gap (strip x1) (strip x2) m.
Proof.
  intros H Hin Hk Hg Hfit. unfold build_model, _add_constraints in H.
  apply bind_Ok in H as (v0 & m0 & Hv & H).
  apply bind_Ok in H as (u1 & m6 & Hc & H).
  apply bind_Ok in H as (u2 & m7 & Ho & H).
  injection H as <- <-.
  apply bind_Ok in Hc as (? & m1 & Ht & Hc).
  apply bind_Ok in Hc as (? & m2 & Hp & Hc).
  apply bind_Ok in Hc as (? & m3 & Hs & Hc).
  apply bind_Ok in Hc as (? & m4 & Hpr & Hc).
  apply bind_Ok in Hc as (? & m5 & Hr & Hc).
  pose proof (run_extends _ _ _ _ (grows_set_objective' _ _) Ho) as X7.
  set (P := fun (c : Constraint.t) (m : CpModel) =>
              of_kind c "PASSENGER_TRANSFER" ->
              forall gap, ConstraintBuilder.int_parameter env (Constraint.parameters c)
                            "min_transfer_minutes" 10 = Ok gap ->
              is_int64 gap = true ->
              forall k x1 x2,
                nth_error (split "," (ConstraintBuilder.str_parameter (Constraint.parameters c)
                                        "connecting_trains" "")) k = Some x1 ->
                nth_error (split "," (ConstraintBuilder.str_parameter (Constraint.parameters c)
                                        "connecting_trains" "")) (S k) = Some x2 ->
                transfer_posted v0 gap (strip x1) (strip x2) m).
  assert (HP1 : forall c m m', P c m -> extends m m' -> P c m').
  { intros c0 ma mb HP Hext Hk0 g0 Hg0 Hf0 k y1 y2 H1 H2.
    eapply transfer_posted_extends; [|exact Hext]. eapply HP; eassumption. }
  assert (HP2 : forall c m ok m',
             ConstraintBuilder.add_constraint env v0 c m = (Ok ok, m') -> P c m').
  { intros c0 ma ok mb Hrun Hk0 g0 Hg0 Hf0.
    eapply passenger_transfer_post; [exact Hg0|].
    eapply (add_constraint_runs env v0 c0 ma ok mb "PASSENGER_TRANSFER");
      [exact Hk0|reflexivity| |exact Hrun].
    intros mz. eapply passenger_transfer_total; [exact Hg0|exact Hf0]. }
  pose proof (custom_post env v0 req P HP1 HP2 m5 u1 m6 Hc c Hin Hk gap Hg Hfit) as Q.
  intros k y1 y2 H1 H2.
  eapply transfer_posted_extends; [|exact X7]. eapply Q; eassumption.
Qed.

(** X16: a PASSENGER_TRANSFER constraint of the request lists connecting
    trains, separated by commas; in a solved schedule a train named at
    one place of the list, white space around the name set aside,
    arrives at least [min_transfer_minutes], 10 when the constraint gives
    none, before the train named at the next place departs, provided that
    number of minutes is in the 64-bit range the library accepts. *)
Theorem passenger_transfer_leaves_time_to_change env req c gap k x1 x2 i j t1 t2 e1 e2 :
  cp_model.sound (Environment.Solve env) ->
  solved (optimize_schedule env req) ->
  In c (OptimizationRequest.constraints req) ->
  of_kind c "PASSENGER_TRANSFER" ->
  ConstraintBuilder.int_parameter env (Constraint.parameters c) "min_transfer_minutes" 10 = Ok gap ->
  is_int64 gap = true ->
  nth_error (split "," (ConstraintBuilder.str_parameter (Constraint.parameters c)
                          "connecting_trains" "")) k = Some x1 ->
  nth_error (split "," (ConstraintBuilder.str_parameter (Constraint.parameters c)
                          "connecting_trains" "")) (S k) = Some x2 ->
  nth_error (OptimizationRequest.trains req) i = Some t1 ->
  nth_error (OptimizationRequest.trains req) j = Some t2 ->
  Train.id t1 = strip x1 ->
  Train.id t2 = strip x2 ->
  nth_error (OptimizationResponse.optimized_schedule (optimize_schedule env req)) i = Some e1 ->
  nth_error (OptimizationResponse.optimized_schedule (optimize_schedule env req)) j = Some e2 ->
  TrainScheduleEntry.scheduled_arrival e1 + minutes gap
    <= TrainScheduleEntry.scheduled_departure e2.
Proof.
  intros Hsound Hsolved Hin Hk Hg Hfit H1 H2 Hi Hj Hid1 Hid2 He1 He2.
  destruct (solved_inv env req Hsolved) as (v & m & st & a & Hb & Hsolve & Hst & Hmap & _).
  pose proof (Hsound _ _ _ _ Hsolve Hst) as Hsol.
  destruct (rmap_nth _ _ _ Hmap i t1 Hi) as (y1 & Y1 & F1).
  destruct (rmap_nth _ _ _ Hmap j t2 Hj) as (y2 & Y2 & F2).
  rewrite He1 in Y1. rewrite He2 in Y2. injection Y1 as <-. injection Y2 as <-.
  apply schedule_entry_Ok in F1 as (s1 & n1 & ? & ? & S1 & N1 & _ & _ & D1 & A1 & _).
  apply schedule_entry_Ok in F2 as (s2 & n2 & ? & ? & S2 & N2 & _ & _ & D2 & A2 & _).
  rewrite Hid1 in N1. rewrite Hid2 in S2.
  pose proof (build_model_transfer env req v m c gap Hb Hin Hk Hg Hfit k x1 x2 H1 H2 n1 s2 N1 S2)
    as Hpost.
  pose proof (solution_posted _ _ _ Hsol Hpost) as Q.
  unfold holds, enforced, bounded_holds in Q.
  cbn [forallb implb lhs rhs op compare eval] in Q. apply Z.leb_le in Q.
  rewrite A1, D2. unfold minutes. lia.
Qed.

Lemma passenger_transfer_witness :
  TrainScheduleEntry.scheduled_arrival (entry transfer_response 0) + minutes 10
    <= TrainScheduleEntry.scheduled_departure (entry transfer_response 1).
Proof.
  apply (passenger_transfer_leaves_time_to_change
           (environment (naming_solver connecting)) with_transfer transfer 10
           0 "T1" " T2" 0 1 express passenger).
  - apply naming_solver_sound.
  - right. vm_compute. reflexivity.
  - left. reflexivity.
  - reflexivity.
  - reflexivity.
  - reflexivity.
  - reflexivity.
  - reflexivity.
  - reflexivity.
  - reflexivity.
  - reflexivity.
  - reflexivity.
  - vm_compute. reflexivity.
  - vm_compute. reflexivity.
Defined.

Lemma limit_posted_extends v limit section key m m' :
  limit_posted v limit section key m -> extends m m' -> limit_posted v limit section key m'.
Proof.
  intros H Hext Hc. destruct (H Hc) as (x & Hx & Hp). exists x. split; [exact Hx|].
  eapply posted_extends; eassumption.
Qed.

Lemma speed_limit_total env v c f limit m :
  ConstraintBuilder.float_parameter env (Constraint.parameters c) "max_speed_kmh" (Int 80) = Ok f ->
  int_of_float f = Ok limit ->
  is_int64 limit = true ->
  exists m', ConstraintBuilder._add_speed_limit_constraint env v c m = (Ok tt, m').
Proof.
  intros Hf Hl Hfit. unfold ConstraintBuilder._add_speed_limit_constraint.
  unfold bind at 1, lift at 1. rewrite Hf.
  apply for_each_total. intros section m0.
  apply for_each_total_in. intros key m1 Hkey.
  destruct (contains section key); [|now exists m1].
  destruct (getitem_keys _ _ Hkey) as [x E].
  unfold bind, lift. rewrite E, Hl. cbv beta iota. in_range Hfit. eexists. reflexivity.
Qed.

Lemma speed_limit_post env v c f limit m u m' :
  ConstraintBuilder.float_parameter env (Constraint.parameters c) "max_speed_kmh" (Int 80) = Ok f ->
  int_of_float f = Ok limit ->
  ConstraintBuilder._add_speed_limit_constraint env v c m = (Ok u, m') ->
  forall section key,
    In section (split "," (ConstraintBuilder.str_parameter (Constraint.parameters c) "sections" "")) ->
    In key (keys (Variables.speed_variables v)) ->
    limit_posted v limit section key m'.
Proof.
  intros Hf Hl H section key Hsec Hkey.
  unfold ConstraintBuilder._add_speed_limit_constraint in H.
  unfold bind at 1, lift at 1 in H. rewrite Hf in H.
  revert key Hkey.
  eapply (for_each_post
            (fun section m => forall key, In key (keys (Variables.speed_variables v)) ->
                                          limit_posted v limit section key m));
    [| | |exact H|exact Hsec].
  - intros s. grows_auto.
  - intros s m1 m2 HP Hext key Hkey. eapply limit_posted_extends; [|exact Hext]. now apply HP.
  - clear - Hl. intros s m u m' H key Hkey.
    eapply (for_each_post (limit_posted v limit s)); [| | |exact H|exact Hkey].
    + intros k. grows_auto.
    + intros k m1 m2. apply limit_posted_extends.
    + clear - Hl. intros k m u m' H Hc. cbv beta in H. rewrite Hc in H. bind_inv H.
      assert (a0 = limit) by congruence. subst a0.
      exists a. split; [reflexivity|].
      apply Add_Ok in H. injection H as _ <-. apply posted_last.
Qed.

Lemma build_model_limit env req v m c f limit :
  build_model env req cp_model.empty = (Ok v, m) ->
  In c (OptimizationRequest.constraints req) ->
  of_kind c "SPEED_LIMIT" ->
  ConstraintBuilder.float_parameter env (Constraint.parameters c) "max_speed_kmh" (Int 80) = Ok f ->
  int_of_float f = Ok limit ->
  is_int64 limit = true ->
  forall section key,
    In section (split "," (ConstraintBuilder.str_parameter (Constraint.parameters c) "sections" "")) ->
    In key (keys (Variables.speed_variables v)) ->
    limit_posted v limit section key m.
Proof.
  intros H Hin Hk Hf Hl Hfit. unfold build_model, _add_constraints in H.
  apply bind_Ok in H as (v0 & m0 & Hv & H).
  apply bind_Ok in H as (u1 & m6 & Hc & H).
  apply bind_Ok in H as (u2 & m7 & Ho & H).
  injection H as <- <-.
  apply bind_Ok in Hc as (? & m1 & Ht & Hc).
  apply bind_Ok in Hc as (? & m2 & Hp & Hc).
  apply bind_Ok in Hc as (? & m3 & Hs & Hc).
  apply bind_Ok in Hc as (? & m4 & Hpr & Hc).
  apply bind_Ok in Hc as (? & m5 & Hr & Hc).
  pose proof (run_extends _ _ _ _ (grows_set_objective' _ _) Ho) as X7.
  set (P := fun (c : Constraint.t) (m : CpModel) =>
              of_kind c "SPEED_LIMIT" ->
              forall f limit,
                ConstraintBuilder.float_parameter env (Constraint.parameters c)
                  "max_speed_kmh" (Int 80) = Ok f ->
                int_of_float f = Ok limit ->
                is_int64 limit = true ->
                forall section key,
                  In section (split "," (ConstraintBuilder.str_parameter
                                           (Constraint.parameters c) "sections" "")) ->
                  In key (keys (Variables.speed_variables v0)) ->
                  limit_posted v0 limit section key m).
  assert (HP1 : forall c m m', P c m -> extends m m' -> P c m').
  { intros c0 ma mb HP Hext Hk0 f0 l0 Hf0 Hl0 Hfit0 section key Hsec Hkey.
    eapply limit_posted_extends; [|exact Hext]. eapply HP; eassumption. }
  assert (HP2 : forall c m ok m',
             ConstraintBuilder.add_constraint env v0 c m = (Ok ok, m') -> P c m').
  { intros c0 ma ok mb Hrun Hk0 f0 l0 Hf0 Hl0 Hfit0.
    eapply speed_limit_post; [exact Hf0|exact Hl0|].
    eapply (add_constraint_runs env v0 c0 ma ok mb "SPEED_LIMIT");
      [exact Hk0|reflexivity| |exact Hrun].
    intros mz. eapply speed_limit_total; [exact Hf0|exact Hl0|exact Hfit0]. }
  pose proof (custom_post env v0 req P HP1 HP2 m5 u1 m6 Hc c Hin Hk f limit Hf Hl Hfit) as Q.
  intros section key Hsec Hkey.
  eapply limit_posted_extends; [|exact X7]. eapply Q; eassumption.
Qed.

(** X17: a SPEED_LIMIT constraint of the request caps the speed of a
    train on a route section when the name of one of the constraint's
    [sections] occurs in the text [<train id>_<section>]: the speed of
    that point of a solved speed profile is at most the integer part of
    [max_speed_kmh], 80 when the constraint gives none, provided that
    integer is in the 64-bit range the library accepts. *)
Theorem speed_limit_caps_the_sections_it_names env req c f limit section i t e k route_section p :
  cp_model.sound (Environment.Solve env) ->
  solved (optimize_schedule env req) ->
  In c (OptimizationRequest.constraints req) ->
  of_kind c "SPEED_LIMIT" ->
  ConstraintBuilder.float_parameter env (Constraint.parameters c) "max_speed_kmh" (Int 80) = Ok f ->
  int_of_float f = Ok limit ->
  is_int64 limit = true ->
  In section (split "," (ConstraintBuilder.str_parameter (Constraint.parameters c) "sections" "")) ->
  nth_error (OptimizationRequest.trains req) i = Some t ->
  nth_error (OptimizationResponse.optimized_schedule (optimize_schedule env req)) i = Some e ->
  nth_error (Train.route_sections t) k = Some route_section ->
  contains section (Train.id t ++ "_" ++ route_section) = true ->
  nth_error (TrainScheduleEntry.speed_profile e) k = Some p ->
  exists speed, SpeedProfilePoint.speed_kmh p = Int speed /\ speed <= limit.
Proof.
  intros Hsound Hsolved Hin Hk Hf Hl Hfit Hsec Hi He Hroute Hc Hp.
  destruct (solved_inv env req Hsolved) as (v & m & st & a & Hb & Hsolve & Hst & Hmap & _).
  pose proof (Hsound _ _ _ _ Hsolve Hst) as Hsol.
  destruct (build_model_created env req v m Hb) as (_ & _ & P).
  destruct (rmap_nth _ _ _ Hmap i t Hi) as (y & Y & Fe).
  rewrite He in Y. injection Y as <-.
  apply schedule_entry_profile in Fe. unfold _generate_speed_profile in Fe.
  destruct (rmap_nth_inv _ _ _ Fe k p Hp) as ([j sec] & Hx & Hpoint).
  apply enumerate_nth in Hx as [-> Hsec'].
  rewrite Hroute in Hsec'. injection Hsec' as <-.
  rewrite Forall_forall in P.
  pose proof (P t (nth_error_In _ _ Hi) route_section (nth_error_In _ _ Hroute)) as Hmem.
  rewrite Hmem in Hpoint.
  destruct (mem_getitem _ _ Hmem) as [x Hx]. rewrite Hx in Hpoint.
  simpl in Hpoint. injection Hpoint as <-. simpl.
  exists (a x). split; [reflexivity|].
  destruct (getitem_position _ _ _ Hx) as [q Hq].
  destruct (build_model_limit env req v m c f limit Hb Hin Hk Hf Hl Hfit section _ Hsec
              (nth_error_In _ _ Hq) Hc) as (x' & Hx' & Hpost).
  rewrite Hx in Hx'. injection Hx' as <-.
  pose proof (solution_posted _ _ _ Hsol Hpost) as Q.
  unfold holds, enforced, bounded_holds in Q.
  cbn [forallb implb lhs rhs op compare eval] in Q. now apply Z.leb_le in Q.
Qed.

Lemma speed_limit_witness :
  exists speed,
    SpeedProfilePoint.speed_kmh
      (nth 0 (TrainScheduleEntry.speed_profile (entry limit_response 0))
           (SpeedProfilePoint.mk (Int 0) (Int 0) (Int 0)))
    = Int speed
    /\ speed <= 80.
Proof.
  apply (speed_limit_caps_the_sections_it_names
           (environment (naming_solver on_time)) with_limit limit_on_s1 80%float 80 "S1"
           0 express (entry limit_response 0) 0 "S1").
  - apply naming_solver_sound.
  - right. vm_compute. reflexivity.
  - left. reflexivity.
  - reflexivity.
  - reflexivity.
  - reflexivity.
  - reflexivity.
  - left. reflexivity.
  - reflexivity.
  - vm_compute. reflexivity.
  - reflexivity.
  - reflexivity.
  - vm_compute. reflexivity.
Defined.

(* ===================================================================== *)
(** ** Platform conflicts *)
(* ===================================================================== *)

Lemma listed_set_same {A} (d : dict (list A)) k l : listed (set d k l) k = l.
Proof. unfold listed. now rewrite get_set_same. Qed.

Lemma listed_set_other {A} (d : dict (list A)) k k' l :
  k <> k' -> listed (set d k l) k' = listed d k'.
Proof. intros H. unfold listed. now rewrite get_set_other. Qed.

Lemma listed_station_append d station t s :
  listed (station_append d station t) s
  = (listed d s ++ if String.eqb station s then [t] else [])%list.
Proof.
  unfold station_append.
  destruct (String.eqb_spec station s) as [<-|Hne].
  - unfold listed at 2. destruct (get d station) as [l|]; now rewrite listed_set_same.
  - rewrite app_nil_r. destruct (get d station); now rewrite listed_set_other.
Qed.

Lemma listed_ensure {A} (d : dict (list A)) k s :
  listed (if mem d k then d else set d k []) s = listed d s.
Proof.
  unfold mem. destruct (get d k) as [l|] eqn:E; [reflexivity|].
  destruct (String.eqb_spec k s) as [<-|Hne].
  - rewrite listed_set_same. unfold listed. now rewrite E.
  - now apply listed_set_other.
Qed.

(** The list of a station holds, in the order of the request, every
    train once for each end of its journey that is the station. *)
Lemma group_by_station_listed trains station :
  listed (group_by_station trains) station = flat_map (calls_at station) trains.
Proof.
  unfold group_by_station.
  set (step := fun (station_trains : dict (list Train.t)) (train : Train.t) => _).
  assert (G : forall l d, listed (fold_left step l d) station
                          = (listed d station ++ flat_map (calls_at station) l)%list).
  { induction l as [|t l IH]; intros d; simpl; [now rewrite app_nil_r|].
    rewrite IH. unfold step. cbv zeta.
    rewrite !listed_station_append, !listed_ensure. unfold calls_at.
    now rewrite <- !app_assoc. }
  apply (G trains []).
Qed.

Lemma get_In {V} (d : dict V) k x : get d k = Some x -> In (k, x) d.
Proof.
  induction d as [|[k' v'] d IH]; simpl; [discriminate|].
  destruct (String.eqb_spec k' k) as [->|Hne].
  - intros [= ->]. now left.
  - intros H. right. now apply IH.
Qed.

Lemma flat_map_same {A B} (f : A -> list B) (l : list A) i x p q a b :
  nth_error l i = Some x -> (p < q)%nat ->
  nth_error (f x) p = Some a -> nth_error (f x) q = Some b ->
  exists p' q', (p' < q')%nat
    /\ nth_error (flat_map f l) p' = Some a /\ nth_error (flat_map f l) q' = Some b.
Proof.
  revert i. induction l as [|y l IH]; intros i Hi Hpq Hp Hq; [destruct i; discriminate|].
  destruct i as [|i]; simpl in Hi.
  - injection Hi as ->. exists p, q. simpl. split; [exact Hpq|].
    split; (rewrite nth_error_app1; [assumption|apply nth_error_Some; congruence]).
  - destruct (IH i Hi Hpq Hp Hq) as (p' & q' & L & Hp' & Hq').
    exists (List.length (f y) + p')%nat, (List.length (f y) + q')%nat. simpl.
    split; [lia|].
    split; (rewrite nth_error_app2 by lia);
      [replace (_ + p' - _)%nat with p' by lia|replace (_ + q' - _)%nat with q' by lia];
      assumption.
Qed.

Lemma flat_map_apart {A B} (f : A -> list B) (l : list A) i j x y a b :
  (i < j)%nat -> nth_error l i = Some x -> nth_error l j = Some y ->
  In a (f x) -> In b (f y) ->
  exists p q, (p < q)%nat
    /\ nth_error (flat_map f l) p = Some a /\ nth_error (flat_map f l) q = Some b.
Proof.
  revert i j. induction l as [|z l IH]; intros i j Hij Hi Hj Ha Hb; [destruct i; discriminate|].
  destruct j as [|j]; [lia|]. simpl in Hj.
  destruct i as [|i]; simpl in Hi.
  - injection Hi as ->.
    apply In_nth_error in Ha as [p Hp].
    assert (Hb' : In b (flat_map f l)).
    { apply in_flat_map. exists y. split; [eapply nth_error_In; exact Hj|exact Hb]. }
    apply In_nth_error in Hb' as [q Hq].
    assert (p < List.length (f x))%nat by (apply nth_error_Some; congruence).
    exists p, (List.length (f x) + q)%nat. simpl. split; [lia|]. split.
    + rewrite nth_error_app1; assumption.
    + rewrite nth_error_app2 by lia. now replace (_ + q - _)%nat with q by lia.
  - destruct (IH i j ltac:(lia) Hi Hj Ha Hb) as (p & q & L & Hp & Hq).
    exists (List.length (f z) + p)%nat, (List.length (f z) + q)%nat. simpl.
    split; [lia|].
    split; (rewrite nth_error_app2 by lia);
      [replace (_ + p - _)%nat with p by lia|replace (_ + q - _)%nat with q by lia];
      assumption.
Qed.

Lemma conflict_posted_extends v t1 t2 m m' :
  conflict_posted v t1 t2 m -> extends m m' -> conflict_posted v t1 t2 m'.
Proof.
  intros (p1 & p2 & s1 & e1 & s2 & e2 & same & no & G1 & G2 & G3 & G4 & G5 & G6
          & B1 & B2 & P1 & P2 & P3 & P4) Hext.
  exists p1, p2, s1, e1, s2, e2, same, no.
  repeat split; try assumption;
    solve [eapply is_bool_var_extends; eassumption|eapply posted_extends; eassumption].
Qed.

Lemma conflict_body_post v t1 t2 m u m' :
  _add_platform_conflict_constraint v t1 t2 m = (Ok u, m') -> conflict_posted v t1 t2 m'.
Proof.
  intros H. unfold _add_platform_conflict_constraint in H. bind_inv H.
  apply AddOnlyEnforceIf_Ok in H, H1, H2, H4.
  unfold NewBoolVar, add_variable in H0, H3.
  injection H as _ <-. injection H4 as _ <-. injection H3 as <- <-.
  injection H2 as _ <-. injection H1 as _ <-. injection H0 as <- <-.
  exists a, a0, a1, a2, a3, a4, (List.length (variables m)),
         (List.length (variables m) + 1)%nat.
  repeat split; try assumption; unfold posted, is_bool_var; simpl;
    rewrite ?length_app; simpl.
  - eexists. rewrite <- app_assoc. rewrite nth_error_app2 by lia.
    rewrite Nat.sub_diag. reflexivity.
  - eexists. rewrite nth_error_app2 by (rewrite length_app; simpl; lia).
    rewrite length_app. simpl.
    replace (_ - _)%nat with 0%nat by lia. reflexivity.
  - rewrite <- !app_assoc. apply in_or_app. right. now left.
  - rewrite <- !app_assoc. apply in_or_app. right. right. now left.
  - rewrite <- !app_assoc. apply in_or_app. right. right. right. now left.
  - rewrite <- !app_assoc. apply in_or_app. right. right. right. right. now left.
Qed.

Lemma platform_post v req m u m' :
  _add_platform_constraints v req m = (Ok u, m') ->
  forall station p q t1 t2, (p < q)%nat ->
    nth_error (flat_map (calls_at station) (OptimizationRequest.trains req)) p = Some t1 ->
    nth_error (flat_map (calls_at station) (OptimizationRequest.trains req)) q = Some t2 ->
    conflict_posted v t1 t2 m'.
Proof.
  intros H station p q t1 t2 Hpq Hp Hq. unfold _add_platform_constraints in H.
  cbv zeta in H.
  rewrite <- group_by_station_listed in Hp, Hq.
  unfold listed in Hp, Hq.
  destruct (get (group_by_station (OptimizationRequest.trains req)) station) as [l|] eqn:E;
    [|destruct p; discriminate].
  apply get_In in E.
  pose proof (for_each_post
    (fun (x : string * list Train.t) m => forall p q t1 t2, (p < q)%nat ->
       nth_error (snd x) p = Some t1 -> nth_error (snd x) q = Some t2 ->
       conflict_posted v t1 t2 m)
    (fun '(station, trains) => for_pairs trains (_add_platform_conflict_constraint v))) as F.
  eapply (F ltac:(intros [s0 l0]; unfold _add_platform_conflict_constraint; grows_auto)
            ltac:(intros x ma mb HP Hext p0 q0 x1 x2 L X1 X2;
                  eapply conflict_posted_extends; [eapply HP; eassumption|exact Hext])
            ltac:(intros [s0 l0] ma ua mb Hrun p0 q0 x1 x2 L X1 X2; simpl in X1, X2;
                  eapply (for_pairs_post (conflict_posted v)); [| | |exact Hrun|exact L|exact X1|exact X2];
                  [intros x y; unfold _add_platform_conflict_constraint; grows_auto
                  |intros x y m1 m2; apply conflict_posted_extends
                  |intros x y m1 u1 m2; apply conflict_body_post])
            _ m u m' H (station, l) E p q t1 t2 Hpq Hp Hq).
Qed.

(** In a solution, two trains with a posted platform conflict that get
    the same platform do not overlap. *)
Lemma conflict_apart v t1 t2 m a p1 p2 s1 e1 s2 e2 :
  is_solution m a = true ->
  conflict_posted v t1 t2 m ->
  getitem (Variables.platform_assignments v) (Train.id t1) = Ok p1 ->
  getitem (Variables.platform_assignments v) (Train.id t2) = Ok p2 ->
  getitem (Variables.train_start_times v) (Train.id t1) = Ok s1 ->
  getitem (Variables.train_end_times v) (Train.id t1) = Ok e1 ->
  getitem (Variables.train_start_times v) (Train.id t2) = Ok s2 ->
  getitem (Variables.train_end_times v) (Train.id t2) = Ok e2 ->
  a p1 = a p2 -> a e1 <= a s2 \/ a e2 <= a s1.
Proof.
  intros Hsol (p1' & p2' & s1' & e1' & s2' & e2' & same & no & G1 & G2 & G3 & G4 & G5 & G6
               & B1 & B2 & P1 & P2 & P3 & P4) X1 X2 X3 X4 X5 X6 Hsame.
  rewrite X1 in G1. rewrite X2 in G2. rewrite X3 in G3. rewrite X4 in G4.
  rewrite X5 in G5. rewrite X6 in G6.
  injection G1 as <-. injection G2 as <-. injection G3 as <-. injection G4 as <-.
  injection G5 as <-. injection G6 as <-.
  pose proof (solution_posted _ _ _ Hsol P2) as Q2.
  pose proof (solution_posted _ _ _ Hsol P3) as Q3.
  pose proof (solution_posted _ _ _ Hsol P4) as Q4.
  destruct (solution_bool _ _ _ Hsol B1) as [S|S];
    destruct (solution_bool _ _ _ Hsol B2) as [N|N];
    cbn in Q2, Q3, Q4; rewrite S in Q2; rewrite S in Q3; rewrite S in Q4;
    rewrite N in Q3; rewrite N in Q4; cbn in Q2, Q3, Q4.
  - apply negb_true_iff, Z.eqb_neq in Q2. contradiction.
  - apply negb_true_iff, Z.eqb_neq in Q2. contradiction.
  - apply Z.leb_le in Q4. now right.
  - apply Z.leb_le in Q3. now left.
Qed.

(** The model of a request holds a platform conflict for every two
    entries of a station's list. *)
Lemma build_model_conflicts env req v m :
  build_model env req cp_model.empty = (Ok v, m) ->
  forall station p q t1 t2, (p < q)%nat ->
    nth_error (flat_map (calls_at station) (OptimizationRequest.trains req)) p = Some t1 ->
    nth_error (flat_map (calls_at station) (OptimizationRequest.trains req)) q = Some t2 ->
    conflict_posted v t1 t2 m.
Proof.
  intros H. unfold build_model, _add_constraints in H.
  apply bind_Ok in H as (v0 & m0 & Hv & H).
  apply bind_Ok in H as (u1 & m6 & Hc & H).
  apply bind_Ok in H as (u2 & m7 & Ho & H).
  injection H as <- <-.
  apply bind_Ok in Hc as (? & m1 & Ht & Hc).
  apply bind_Ok in Hc as (? & m2 & Hp & Hc).
  apply bind_Ok in Hc as (? & m3 & Hs & Hc).
  apply bind_Ok in Hc as (? & m4 & Hpr & Hc).
  apply bind_Ok in Hc as (? & m5 & Hr & Hc).
  pose proof (run_extends _ _ _ _ (grows_safety _ _) Hs) as X3.
  pose proof (run_extends _ _ _ _ (grows_priority _ _) Hpr) as X4.
  pose proof (run_extends _ _ _ _ (grows_route _ _) Hr) as X5.
  pose proof (run_extends _ _ _ _ (grows_custom _ _ _) Hc) as X6.
  pose proof (run_extends _ _ _ _ (grows_set_objective' _ _) Ho) as X7.
  assert (E2 : extends m2 m7) by (repeat (eapply extends_trans; [eassumption|]); apply extends_refl).
  intros station p q t1 t2 Hpq Hp1 Hq1.
  eapply conflict_posted_extends; [|exact E2].
  eapply platform_post; eassumption.
Qed.

Lemma share_a_station_calls t1 t2 :
  share_a_station t1 t2 = true ->
  exists station, In t1 (calls_at station t1) /\ In t2 (calls_at station t2).
Proof.
  unfold share_a_station. simpl. rewrite orb_false_r.
  intros H. apply orb_true_iff in H as [H|H]; apply orb_true_iff in H as [H|H];
    apply String.eqb_eq in H.
  - exists (Train.origin_station t1). unfold calls_at. rewrite String.eqb_refl.
    rewrite <- H. rewrite String.eqb_refl. split; now left.
  - exists (Train.origin_station t1). unfold calls_at. rewrite String.eqb_refl.
    rewrite <- H. rewrite String.eqb_refl. split; [now left|].
    apply in_or_app. right. now left.
  - exists (Train.destination_station t1). unfold calls_at. rewrite String.eqb_refl.
    rewrite <- H. rewrite String.eqb_refl. split; [|now left].
    apply in_or_app. right. now left.
  - exists (Train.destination_station t1). unfold calls_at. rewrite String.eqb_refl.
    rewrite <- H. rewrite String.eqb_refl. split; apply in_or_app; right; now left.
Qed.

(** X18: two trains of a solved schedule that have a station in common,
    as origin or destination of either, and are given the same platform
    number do not run at the same time: one arrives no later than the
    other departs. *)
Theorem trains_at_one_station_share_no_platform env req i j t1 t2 e1 e2 :
  cp_model.sound (Environment.Solve env) ->
  solved (optimize_schedule env req) ->
  i <> j ->
  nth_error (OptimizationRequest.trains req) i = Some t1 ->
  nth_error (OptimizationRequest.trains req) j = Some t2 ->
  share_a_station t1 t2 = true ->
  nth_error (OptimizationResponse.optimized_schedule (optimize_schedule env req)) i = Some e1 ->
  nth_error (OptimizationResponse.optimized_schedule (optimize_schedule env req)) j = Some e2 ->
  TrainScheduleEntry.platform e1 = TrainScheduleEntry.platform e2 ->
  TrainScheduleEntry.scheduled_arrival e1 <= TrainScheduleEntry.scheduled_departure e2
  \/ TrainScheduleEntry.scheduled_arrival e2 <= TrainScheduleEntry.scheduled_departure e1.
Proof.
  intros Hsound Hsolved Hne Hi Hj Hshare He1 He2 Hplat.
  destruct (solved_inv env req Hsolved) as (v & m & st & a & Hb & Hsolve & Hst & Hmap & _).
  pose proof (Hsound _ _ _ _ Hsolve Hst) as Hsol.
  destruct (rmap_nth _ _ _ Hmap i t1 Hi) as (y1 & Y1 & F1).
  destruct (rmap_nth _ _ _ Hmap j t2 Hj) as (y2 & Y2 & F2).
  rewrite He1 in Y1. rewrite He2 in Y2. injection Y1 as <-. injection Y2 as <-.
  apply schedule_entry_Ok in F1 as (s1 & n1 & p1 & ? & S1 & N1 & P1 & _ & D1 & A1 & B1 & _).
  apply schedule_entry_Ok in F2 as (s2 & n2 & p2 & ? & S2 & N2 & P2 & _ & D2 & A2 & B2 & _).
  rewrite B1, B2 in Hplat.
  destruct (share_a_station_calls _ _ Hshare) as (station & C1 & C2).
  pose proof (build_model_conflicts env req v m Hb station) as Hpost.
  assert (Hgap : a n1 <= a s2 \/ a n2 <= a s1).
  { destruct (Nat.lt_total i j) as [L|[L|L]]; [|contradiction|].
    - destruct (flat_map_apart (calls_at station) _ i j t1 t2 t1 t2 L Hi Hj C1 C2)
        as (p & q & Lpq & Hp & Hq).
      exact (conflict_apart v t1 t2 m a p1 p2 s1 n1 s2 n2 Hsol
               (Hpost p q t1 t2 Lpq Hp Hq) P1 P2 S1 N1 S2 N2 Hplat).
    - destruct (flat_map_apart (calls_at station) _ j i t2 t1 t2 t1 L Hj Hi C2 C1)
        as (p & q & Lpq & Hp & Hq).
      destruct (conflict_apart v t2 t1 m a p2 p1 s2 n2 s1 n1 Hsol
                  (Hpost p q t2 t1 Lpq Hp Hq) P2 P1 S2 N2 S1 N1 (eq_sym Hplat));
        [right|left]; assumption. }
  rewrite D1, D2, A1, A2. unfold minutes. lia.
Qed.

Lemma share_no_platform_witness :
  TrainScheduleEntry.scheduled_arrival (entry one_platform_response 0)
    <= TrainScheduleEntry.scheduled_departure (entry one_platform_response 1)
  \/ TrainScheduleEntry.scheduled_arrival (entry one_platform_response 1)
       <= TrainScheduleEntry.scheduled_departure (entry one_platform_response 0).
Proof.
  apply (trains_at_one_station_share_no_platform
           (environment (naming_solver one_platform)) freight_then_express
           0%nat 1%nat freight late_express).
  - apply naming_solver_sound.
  - right. vm_compute. reflexivity.
  - discriminate.
  - reflexivity.
  - reflexivity.
  - reflexivity.
  - vm_compute. reflexivity.
  - vm_compute. reflexivity.
  - vm_compute. reflexivity.
Defined.

(** X19: a train whose destination is its origin is paired with itself
    for the platform conflict, so a schedule is found for it only when
    its journey takes no time: its entry arrives no later than it
    departs, and the journey time computed for it is not positive. *)
Theorem a_round_trip_must_take_no_time env req i t e :
  cp_model.sound (Environment.Solve env) ->
  solved (optimize_schedule env req) ->
  nth_error (OptimizationRequest.trains req) i = Some t ->
  Train.destination_station t = Train.origin_station t ->
  nth_error (OptimizationResponse.optimized_schedule (optimize_schedule env req)) i = Some e ->
  TrainScheduleEntry.scheduled_arrival e <= TrainScheduleEntry.scheduled_departure e
  /\ exists jt, _calculate_journey_time t = Ok jt /\ jt <= 0.
Proof.
  intros Hsound Hsolved Hi Hloop He.
  destruct (solved_inv env req Hsolved) as (v & m & st & a & Hb & Hsolve & Hst & Hmap & _).
  pose proof (Hsound _ _ _ _ Hsolve Hst) as Hsol.
  destruct (rmap_nth _ _ _ Hmap i t Hi) as (y & Y & F).
  rewrite He in Y. injection Y as <-.
  apply schedule_entry_Ok in F as (s & n & p & ? & S1 & N1 & P1 & _ & D1 & A1 & _).
  assert (C0 : nth_error (calls_at (Train.origin_station t) t) 0 = Some t).
  { unfold calls_at. now rewrite String.eqb_refl. }
  assert (C1 : nth_error (calls_at (Train.origin_station t) t) 1 = Some t).
  { unfold calls_at. rewrite Hloop. now rewrite String.eqb_refl. }
  destruct (flat_map_same (calls_at (Train.origin_station t)) _ i t 0 1 t t Hi
              ltac:(lia) C0 C1) as (p' & q' & L & Hp & Hq).
  pose proof (build_model_conflicts env req v m Hb _ p' q' t t L Hp Hq) as Hpost.
  assert (Hgap : a n <= a s).
  { destruct (conflict_apart v t t m a p p s n s n Hsol Hpost P1 P1 S1 N1 S1 N1 eq_refl);
      assumption. }
  split; [rewrite D1, A1; unfold minutes; lia|].
  destruct (build_model_posts env req v m Hb) as [Ht _].
  destruct (Ht t (nth_error_In _ _ Hi)) as (s' & n' & d' & jt & off & G1 & G2 & _ & J & _ & Q1 & _).
  rewrite S1 in G1. rewrite N1 in G2. injection G1 as <-. injection G2 as <-.
  exists jt. split; [exact J|].
  pose proof (solution_posted _ _ _ Hsol Q1) as R. cbn in R.
  apply Z.eqb_eq in R. lia.
Qed.

Lemma round_trip_witness :
  TrainScheduleEntry.scheduled_arrival (entry round_trip_response 0)
    <= TrainScheduleEntry.scheduled_departure (entry round_trip_response 0)
  /\ exists jt, _calculate_journey_time round_trip = Ok jt /\ jt <= 0.
Proof.
  apply (a_round_trip_must_take_no_time
           (environment (naming_solver round_trip_values)) with_round_trip 0%nat round_trip).
  - apply naming_solver_sound.
  - right. vm_compute. reflexivity.
  - reflexivity.
  - reflexivity.
  - vm_compute. reflexivity.
Defined.

(* ===================================================================== *)
(** ** The objectives *)
(* ===================================================================== *)

Lemma fold_add_shift l z : List.fold_left Z.add l z = z + List.fold_left Z.add l 0.
Proof.
  revert z. induction l as [|x l IH]; intros z; simpl; [lia|].
  rewrite IH. rewrite (IH x). lia.
Qed.

Lemma sum_cons x l : Py.sum (x :: l) = x + Py.sum l.
Proof. unfold Py.sum. simpl. apply fold_add_shift. Qed.

Lemma eval_terms a ts : eval a (cp_model.sum ts) = Py.sum (List.map (eval a) ts).
Proof. unfold cp_model.sum, Py.sum. now rewrite eval_sum. Qed.

Lemma flag_posted_extends m m' limit d b :
  extends m m' -> flag_posted m limit d b -> flag_posted m' limit d b.
Proof.
  intros Hext (B & P1 & P2). repeat split.
  - eapply is_bool_var_extends; eassumption.
  - eapply posted_extends; eassumption.
  - eapply posted_extends; eassumption.
Qed.

(** In a solution the flag is 1 exactly when the delay is within the
    limit. *)
Lemma flag_value m a limit d b :
  is_solution m a = true -> flag_posted m limit d b ->
  a b = if a d <=? limit then 1 else 0.
Proof.
  intros Hsol (B & P1 & P2).
  pose proof (solution_posted _ _ _ Hsol P1) as Q1.
  pose proof (solution_posted _ _ _ Hsol P2) as Q2.
  destruct (solution_bool _ _ _ Hsol B) as [E|E];
    cbn in Q1, Q2; rewrite E in Q1; rewrite E in Q2; cbn in Q1, Q2; rewrite E.
  - apply Z.ltb_lt in Q2. destruct (Z.leb_spec (a d) limit); [lia|reflexivity].
  - rewrite Q1. reflexivity.
Qed.

Lemma flags_count m a v limit trains terms :
  is_solution m a = true ->
  Forall2 (flag_of m v limit) trains terms ->
  Py.sum (List.map (eval a) terms) = on_time_trains a v limit trains.
Proof.
  intros Hsol F. unfold on_time_trains. induction F as [|t e trains terms Hte F IH]; [reflexivity|].
  simpl. rewrite !sum_cons, IH. f_equal.
  destruct Hte as (d & b & -> & G & Hf). simpl.
  unfold delay_value. rewrite (getitem_get _ _ _ G). eapply flag_value; eassumption.
Qed.

Lemma Forall2_snoc {A B} (R : A -> B -> Prop) l1 l2 x y :
  Forall2 R l1 l2 -> R x y -> Forall2 R (l1 ++ [x]) (l2 ++ [y]).
Proof. intros F H. apply Forall2_app; [exact F|]. constructor; [exact H|constructor]. Qed.

Lemma Forall2_weaken {A B} (R R' : A -> B -> Prop) l1 l2 :
  (forall x y, R x y -> R' x y) -> Forall2 R l1 l2 -> Forall2 R' l1 l2.
Proof. intros H F. induction F; constructor; auto. Qed.

Lemma flag_body_post v limit t m b m1 u1 m2 u2 m3 d :
  getitem (Variables.train_delays v) (Train.id t) = Ok d ->
  NewBoolVar ("on_time_" ++ Train.id t) m = (Ok b, m1) ->
  AddOnlyEnforceIf (Cmp (Var d) LE (Const limit)) [Pos b] m1 = (Ok u1, m2) ->
  AddOnlyEnforceIf (Cmp (Var d) GT (Const limit)) [Not b] m2 = (Ok u2, m3) ->
  extends m m3 /\ flag_of m3 v limit t (Var b).
Proof.
  intros G H1 H2 H3.
  apply AddOnlyEnforceIf_Ok in H2, H3. unfold NewBoolVar, add_variable in H1.
  injection H3 as _ <-. injection H2 as _ <-. injection H1 as <- <-.
  split.
  - split; simpl; eexists; [reflexivity|rewrite <- app_assoc; reflexivity].
  - exists d, (List.length (variables m)).
    split; [reflexivity|split; [exact G|split; [|split]]]; unfold posted; simpl.
    + eexists. simpl. rewrite nth_error_app2 by lia. rewrite Nat.sub_diag. reflexivity.
    + rewrite <- app_assoc. apply in_or_app. right. now left.
    + rewrite <- app_assoc. apply in_or_app. right. right. now left.
Qed.

(** The objective of a request that asks for throughput by name. *)
Lemma set_objective_throughput v req m u m' :
  OptimizationObjective.primary_objective (OptimizationRequest.objective req)
    = Str "MAXIMIZE_THROUGHPUT" ->
  _set_objective v req m = (Ok u, m') ->
  extends m m'
  /\ exists e, objective m' = Some (Maximizing e)
       /\ forall a, is_solution m' a = true ->
            eval a e = on_time_trains a v 5 (OptimizationRequest.trains req).
Proof.
  intros Hp H. unfold _set_objective in H. rewrite Hp in H. cbn [eq_str] in H.
  change (String.eqb "MAXIMIZE_THROUGHPUT" "MINIMIZE_DELAY") with false in H.
  change (String.eqb "MAXIMIZE_THROUGHPUT" "MAXIMIZE_THROUGHPUT") with true in H.
  cbv iota in H.
  apply bind_Ok in H as (ts & m1 & Hf & Hm).
  assert (I : extends m m1 /\ Forall2 (flag_of m1 v 5) ([] ++ OptimizationRequest.trains req) ts).
  { eapply (for_fold_prefix
              (fun pre s mm => extends m mm /\ Forall2 (flag_of mm v 5) pre s));
      [|split; [apply extends_refl|constructor]|exact Hf].
    clear. intros pre s t ma r mb [Hext F] Hbody. cbv beta in Hbody. bind_inv Hbody.
    injection Hbody as <- <-.
    destruct (flag_body_post v 5 t ma _ _ _ _ _ _ _ E H H0 H1) as [X Y].
    split; [eapply extends_trans; eassumption|].
    apply Forall2_snoc; [|exact Y].
    eapply Forall2_weaken; [|exact F].
    intros x y (d & b & -> & G & Hfl). exists d, b.
    split; [reflexivity|split; [exact G|]].
    eapply flag_posted_extends; eassumption. }
  destruct I as [Hext F]. simpl in F.
  unfold Maximize, set_objective in Hm. injection Hm as _ <-.
  split.
  - destruct Hext as [Hv Hc]. split; simpl; assumption.
  - exists (cp_model.sum ts). split; [reflexivity|].
    intros a Hsol. rewrite eval_terms.
    apply (flags_count m1 a v 5); [exact Hsol|exact F].
Qed.

(** The objective of a request that asks for the balanced optimum by
    name. *)
Lemma set_objective_balanced v req m u m' :
  OptimizationObjective.primary_objective (OptimizationRequest.objective req)
    = Str "BALANCED_OPTIMAL" ->
  _set_objective v req m = (Ok u, m') ->
  exists e, objective m' = Some (Minimizing e)
    /\ forall a, is_solution m' a = true ->
         eval a e = total_signed_delay a v (OptimizationRequest.trains req)
                    - 10 * on_time_trains a v 3 (OptimizationRequest.trains req).
Proof.
  intros Hp H. unfold _set_objective in H. rewrite Hp in H. cbn [eq_str] in H.
  change (String.eqb "BALANCED_OPTIMAL" "MINIMIZE_DELAY") with false in H.
  change (String.eqb "BALANCED_OPTIMAL" "MAXIMIZE_THROUGHPUT") with false in H.
  change (String.eqb "BALANCED_OPTIMAL" "BALANCED_OPTIMAL") with true in H.
  cbv iota in H.
  apply bind_Ok in H as (ts & m1 & Hf & Hm).
  assert (I : extends m m1
              /\ (forall a, List.map (eval a) (fst ts)
                            = List.map (delay_value a v) ([] ++ OptimizationRequest.trains req))
              /\ Forall2 (flag_of m1 v 3) ([] ++ OptimizationRequest.trains req) (snd ts)).
  { refine (for_fold_prefix
              (fun pre (s : list LinearExpr * list LinearExpr) mm =>
                 extends m mm
                 /\ (forall a, List.map (eval a) (fst s) = List.map (delay_value a v) pre)
                 /\ Forall2 (flag_of mm v 3) pre (snd s)) _ _ _ [] _ _ _ _ _ Hf);
      [|split; [apply extends_refl|split; [reflexivity|constructor]]].
    clear. intros pre [ds os] t ma r mb (Hext & Hd & F) Hbody. cbv beta iota in Hbody.
    bind_inv Hbody. injection Hbody as <- <-.
    destruct (flag_body_post v 3 t ma _ _ _ _ _ _ _ E H H0 H1) as [X Y].
    split; [eapply extends_trans; eassumption|]. simpl. split.
    - intros val. rewrite !map_app, Hd. simpl. do 2 f_equal.
      unfold delay_value. now rewrite (getitem_get _ _ _ E).
    - apply Forall2_snoc; [|exact Y].
      eapply Forall2_weaken; [|exact F].
      intros x y (d & b & -> & G & Hfl). exists d, b.
      split; [reflexivity|split; [exact G|]].
      eapply flag_posted_extends; eassumption. }
  destruct I as (Hext & Hd & F). simpl in Hd, F.
  cbv zeta in Hm. unfold Minimize, set_objective in Hm. injection Hm as _ <-.
  eexists. split; [reflexivity|].
  intros a Hsol. cbn [eval]. rewrite !eval_terms, Hd.
  rewrite (flags_count m1 a v 3 _ _ Hsol F). unfold total_signed_delay. lia.
Qed.

(** Every other primary objective gets the objective of MINIMIZE_DELAY. *)
Lemma set_objective_fallback v req m u m' :
  (forall name,
     OptimizationObjective.primary_objective (OptimizationRequest.objective req) = Str name ->
     name <> "MAXIMIZE_THROUGHPUT"%string /\ name <> "BALANCED_OPTIMAL"%string) ->
  _set_objective v req m = (Ok u, m') ->
  exists e, objective m' = Some (Minimizing e)
            /\ forall a, eval a e = total_signed_delay a v (OptimizationRequest.trains req).
Proof.
  intros Hp H.
  assert (H' : (objective_terms <- delay_terms v req ;; Minimize (cp_model.sum objective_terms)) m
               = (Ok u, m')).
  { unfold _set_objective in H. cbv zeta in H.
    destruct (OptimizationObjective.primary_objective (OptimizationRequest.objective req))
      as [o|name]; cbn [eq_str] in H; [exact H|].
    destruct (Hp name eq_refl) as [N1 N2].
    apply String.eqb_neq in N1, N2. rewrite N1, N2 in H.
    destruct (String.eqb name "MINIMIZE_DELAY"); exact H. }
  apply bind_Ok in H' as (ts & m1 & Hd & Hm).
  apply delay_terms_Ok in Hd as [-> Hd].
  unfold Minimize, set_objective in Hm. injection Hm as _ <-. simpl.
  exists (cp_model.sum ts). split; [reflexivity|exact Hd].
Qed.

Lemma build_model_objective env req v m :
  build_model env req cp_model.empty = (Ok v, m) ->
  exists m0 u, _set_objective v req m0 = (Ok u, m).
Proof.
  intros H. unfold build_model in H.
  apply bind_Ok in H as (v0 & m0 & Hv & H).
  apply bind_Ok in H as (u1 & m6 & Hc & H).
  apply bind_Ok in H as (u2 & m7 & Ho & H).
  injection H as <- <-. now exists m6, u2.
Qed.

(** X20: for a request whose primary objective is the string
    MAXIMIZE_THROUGHPUT the model maximises, over its solutions, the
    number of trains of the request that are at most five minutes late. *)
Theorem throughput_counts_trains_at_most_five_minutes_late env req v m :
  OptimizationObjective.primary_objective (OptimizationRequest.objective req)
    = Str "MAXIMIZE_THROUGHPUT" ->
  build_model env req cp_model.empty = (Ok v, m) ->
  exists e, objective m = Some (Maximizing e)
    /\ forall a, is_solution m a = true ->
         eval a e = on_time_trains a v 5 (OptimizationRequest.trains req).
Proof.
  intros Hp H. destruct (build_model_objective env req v m H) as (m0 & u & Ho).
  exact (proj2 (set_objective_throughput v req m0 u m Hp Ho)).
Qed.

Lemma throughput_witness :
  exists e, objective (model_of (aiming_at (Str "MAXIMIZE_THROUGHPUT"))) = Some (Maximizing e)
    /\ forall a, is_solution (model_of (aiming_at (Str "MAXIMIZE_THROUGHPUT"))) a = true ->
         eval a e = on_time_trains a (variables_of (aiming_at (Str "MAXIMIZE_THROUGHPUT"))) 5
                      (OptimizationRequest.trains (aiming_at (Str "MAXIMIZE_THROUGHPUT"))).
Proof.
  apply (throughput_counts_trains_at_most_five_minutes_late
           (environment timeout_solver) (aiming_at (Str "MAXIMIZE_THROUGHPUT"))).
  - reflexivity.
  - vm_compute. reflexivity.
Defined.

(** X21: for a request whose primary objective is the string
    BALANCED_OPTIMAL the model minimises, over its solutions, the sum of
    the trains' delays, early departures counting negative, minus ten for
    every train that is at most three minutes late. *)
Theorem balanced_objective_trades_delay_for_punctual_trains env req v m :
  OptimizationObjective.primary_objective (OptimizationRequest.objective req)
    = Str "BALANCED_OPTIMAL" ->
  build_model env req cp_model.empty = (Ok v, m) ->
  exists e, objective m = Some (Minimizing e)
    /\ forall a, is_solution m a = true ->
         eval a e = total_signed_delay a v (OptimizationRequest.trains req)
                    - 10 * on_time_trains a v 3 (OptimizationRequest.trains req).
Proof.
  intros Hp H. destruct (build_model_objective env req v m H) as (m0 & u & Ho).
  exact (set_objective_balanced v req m0 u m Hp Ho).
Qed.

Lemma balanced_witness :
  exists e, objective (model_of (aiming_at (Str "BALANCED_OPTIMAL"))) = Some (Minimizing e)
    /\ forall a, is_solution (model_of (aiming_at (Str "BALANCED_OPTIMAL"))) a = true ->
         eval a e
         = total_signed_delay a (variables_of (aiming_at (Str "BALANCED_OPTIMAL")))
             (OptimizationRequest.trains (aiming_at (Str "BALANCED_OPTIMAL")))
           - 10 * on_time_trains a (variables_of (aiming_at (Str "BALANCED_OPTIMAL"))) 3
                    (OptimizationRequest.trains (aiming_at (Str "BALANCED_OPTIMAL"))).
Proof.
  apply (balanced_objective_trades_delay_for_punctual_trains
           (environment timeout_solver) (aiming_at (Str "BALANCED_OPTIMAL"))).
  - reflexivity.
  - vm_compute. reflexivity.
Defined.

(** X22: whatever else the primary objective is, an enum member of
    [ObjectiveType] (MAXIMIZE_THROUGHPUT and BALANCED_OPTIMAL included) or
    a string other than MAXIMIZE_THROUGHPUT and BALANCED_OPTIMAL, the model
    minimises the plain sum of the trains' delays, as for MINIMIZE_DELAY. *)
Theorem other_objectives_minimise_the_delay_sum env req v m :
  (forall name,
     OptimizationObjective.primary_objective (OptimizationRequest.objective req) = Str name ->
     name <> "MAXIMIZE_THROUGHPUT"%string /\ name <> "BALANCED_OPTIMAL"%string) ->
  build_model env req cp_model.empty = (Ok v, m) ->
  exists e, objective m = Some (Minimizing e)
            /\ forall a, eval a e = total_signed_delay a v (OptimizationRequest.trains req).
Proof.
  intros Hp H. destruct (build_model_objective env req v m H) as (m0 & u & Ho).
  exact (set_objective_fallback v req m0 u m Hp Ho).
Qed.

Lemma other_objectives_witness :
  exists e,
    objective (model_of (aiming_at (Member ObjectiveType.MAXIMIZE_THROUGHPUT)))
    = Some (Minimizing e)
    /\ forall a, eval a e
                 = total_signed_delay a
                     (variables_of (aiming_at (Member ObjectiveType.MAXIMIZE_THROUGHPUT)))
                     (OptimizationRequest.trains
                        (aiming_at (Member ObjectiveType.MAXIMIZE_THROUGHPUT))).
Proof.
  apply (other_objectives_minimise_the_delay_sum
           (environment timeout_solver) (aiming_at (Member ObjectiveType.MAXIMIZE_THROUGHPUT))).
  - intros name Hname. discriminate Hname.
  - vm_compute. reflexivity.
Defined.

Lemma max_value m a p d :
  is_solution m a = true ->
  posted m (MaxEquality (Var p) [Var d; Const 0]) ->
  a p = Z.max (a d) 0.
Proof.
  intros Hsol P. pose proof (solution_posted _ _ _ Hsol P) as Q. cbn in Q.
  apply andb_true_iff in Q as [Q1 Q2].
  rewrite orb_false_r in Q1. rewrite andb_true_r in Q2.
  apply andb_true_iff in Q2 as [Q2 Q3].
  apply Z.leb_le in Q2, Q3.
  apply orb_true_iff in Q1 as [Q1|Q1]; apply Z.eqb_eq in Q1; lia.
Qed.

Lemma weighted_terms_post v req m terms m' :
  ObjectiveManager.build_minimize_delay_objective v req m = (Ok terms, m') ->
  Forall2 (weighted_of m' v) (OptimizationRequest.trains req) terms.
Proof.
  intros H. unfold ObjectiveManager.build_minimize_delay_objective in H.
  refine (proj2 (for_fold_prefix
            (fun pre s mm => extends m mm /\ Forall2 (weighted_of mm v) pre s)
            _ _ _ [] _ _ _ _ _ H));
    [|split; [apply extends_refl|constructor]].
  clear. intros pre s t ma r mb [Hext F] Hbody. cbv beta zeta in Hbody. bind_inv Hbody.
  injection Hbody as <- <-.
  unfold AddMaxEquality in H0. unfold NewIntVar, add_variable in H.
  injection H0 as _ <-. injection H as <- <-.
  assert (X : extends ma
                {| variables := variables ma ++ [(("positive_delay_" ++ Train.id t)%string, (0, 60))];
                   constraints := constraints ma
                     ++ [MaxEquality (Var (List.length (variables ma))) [Var a; Const 0]];
                   objective := objective ma |}).
  { split; simpl; eexists; reflexivity. }
  split; [eapply extends_trans; [exact Hext|exact X]|].
  apply Forall2_snoc.
  - eapply Forall2_weaken; [|exact F].
    intros x y (d & p & -> & G & P). exists d, p.
    split; [reflexivity|split; [exact G|]]. eapply posted_extends; [exact X|exact P].
  - exists a, (List.length (variables ma)).
    split; [reflexivity|split; [exact E|]].
    unfold posted. simpl. apply in_or_app. right. now left.
Qed.

(** X23: the terms the objective manager builds for the delay objective
    add up, in every solution of the model they were added to or of a
    model grown from it, to the trains' positive delays, each times the
    weight read off the train's priority; when the priorities are members
    of [TrainPriority], as the data model declares them, every weight is
    the default 3. *)
Theorem delay_terms_weigh_positive_delays v req m terms m' m'' a :
  ObjectiveManager.build_minimize_delay_objective v req m = (Ok terms, m') ->
  extends m' m'' ->
  is_solution m'' a = true ->
  eval a (cp_model.sum terms) = weighted_positive_delay a v (OptimizationRequest.trains req)
  /\ (Forall (fun t => exists p, Train.priority t = Member p) (OptimizationRequest.trains req) ->
      eval a (cp_model.sum terms)
      = 3 * total_positive_delay a v (OptimizationRequest.trains req)).
Proof.
  intros H Hext Hsol. apply weighted_terms_post in H.
  rewrite eval_terms. unfold weighted_positive_delay, total_positive_delay.
  induction H as [|t e trains terms Hte F IH]; [split; reflexivity|].
  destruct IH as [IH1 IH2].
  assert (Ht : eval a e = ObjectiveManager._get_priority_weight (Train.priority t)
                          * Z.max (delay_value a v t) 0).
  { destruct Hte as (d & p & -> & G & P). cbn [eval].
    rewrite (max_value m'' a p d Hsol (posted_extends _ _ _ Hext P)).
    unfold delay_value. rewrite (getitem_get _ _ _ G). lia. }
  cbn [List.map]. rewrite !sum_cons. split.
  - rewrite IH1, Ht. reflexivity.
  - intros Hall. inversion Hall as [|? ? [p Hp] Hrest]; subst.
    rewrite (IH2 Hrest), Ht, Hp. cbn [ObjectiveManager._get_priority_weight get_default]. lia.
Qed.

Lemma delay_terms_witness :
  eval (named_assignment shifted_positive (snd weighted_terms)) (cp_model.sum weighted_list)
  = weighted_positive_delay (named_assignment shifted_positive (snd weighted_terms))
      (variables_of two_trains) (OptimizationRequest.trains two_trains)
  /\ (Forall (fun t => exists p, Train.priority t = Member p)
        (OptimizationRequest.trains two_trains) ->
      eval (named_assignment shifted_positive (snd weighted_terms)) (cp_model.sum weighted_list)
      = 3 * total_positive_delay (named_assignment shifted_positive (snd weighted_terms))
              (variables_of two_trains) (OptimizationRequest.trains two_trains)).
Proof.
  apply (delay_terms_weigh_positive_delays (variables_of two_trains) two_trains
           (model_of two_trains) weighted_list (snd weighted_terms) (snd weighted_terms)).
  - vm_compute. reflexivity.
  - apply extends_refl.
  - vm_compute. reflexivity.
Defined.

(* ===================================================================== *)
(** ** Maintenance windows *)
(* ===================================================================== *)

Lemma for_each_inv {A} (I : CpModel -> Prop) (body : A -> M unit) :
  (forall x m u m', I m -> body x m = (Ok u, m') -> I m') ->
  forall l m u m', I m -> for_each l body m = (Ok u, m') -> I m'.
Proof.
  intros Hb. induction l as [|x l IH]; intros m u m' Hi H; simpl in H.
  - now injection H as _ <-.
  - apply bind_Ok in H as (u1 & m1 & H1 & H2). eapply IH; [|exact H2]. eapply Hb; eassumption.
Qed.

Lemma in_domain_snoc (a : assignment) l x k :
  forallb (in_domain a) (List.combine (seq k (List.length (l ++ [x]))) (l ++ [x]))
  = forallb (in_domain a) (List.combine (seq k (List.length l)) l)
    && in_domain a ((k + List.length l)%nat, x).
Proof.
  revert k. induction l as [|y l IH]; intros k.
  - cbn [List.length List.app seq List.combine forallb].
    rewrite Nat.add_0_r, andb_true_r. reflexivity.
  - cbn [List.length List.app seq List.combine forallb]. rewrite IH, andb_assoc.
    now replace (S k + List.length l)%nat with (k + S (List.length l))%nat by lia.
Qed.

Lemma is_solution_add_variable m a name lb ub x m' :
  is_solution m a = true ->
  add_variable name lb ub m = (Ok x, m') ->
  lb <= a (List.length (variables m)) <= ub ->
  is_solution m' a = true.
Proof.
  intros Hsol H Hd. unfold add_variable in H. injection H as _ <-.
  unfold is_solution in *. simpl. apply andb_true_iff in Hsol as [H1 H2].
  unfold indexed. rewrite in_domain_snoc. fold (indexed (variables m)).
  rewrite H1, H2. simpl. apply andb_true_iff. split; [|reflexivity].
  apply andb_true_iff. split; apply Z.leb_le; lia.
Qed.

Lemma is_solution_add_constraint m a c u m' :
  is_solution m a = true ->
  add_constraint c m = (Ok u, m') ->
  holds a c = true ->
  is_solution m' a = true.
Proof.
  intros Hsol H Hc. unfold add_constraint in H. injection H as _ <-.
  unfold is_solution in *. simpl. apply andb_true_iff in Hsol as [H1 H2].
  rewrite H1, forallb_app, H2. simpl. now rewrite Hc.
Qed.

Lemma for_each_inv_any {A} (I : CpModel -> Prop) (body : A -> M unit) :
  (forall x m r m', I m -> body x m = (r, m') -> I m') ->
  forall l m r m', I m -> for_each l body m = (r, m') -> I m'.
Proof.
  intros Hb. induction l as [|x l IH]; intros m r m' Hi H; simpl in H.
  - now injection H as _ <-.
  - unfold bind in H. destruct (body x m) as [[u1|e1] m1] eqn:E.
    + eapply IH; [|exact H]. eapply Hb; eassumption.
    + injection H as _ <-. eapply Hb; eassumption.
Qed.

Lemma zero_beyond_extends m m' a : extends m m' -> zero_beyond m a -> zero_beyond m' a.
Proof.
  intros [[vs Hvs] _] Hz x Hx. apply Hz. rewrite Hvs, length_app in Hx. lia.
Qed.

(** A constraint whose enforcement literals are not all true is
    satisfied; the library may also refuse it, which leaves the model as
    it was. *)
Lemma unenforced_constraint_keeps a ct lits m r m' :
  AddOnlyEnforceIf ct lits m = (r, m') ->
  enforced a lits = false ->
  is_solution m a = true ->
  is_solution m' a = true.
Proof.
  unfold AddOnlyEnforceIf. intros H He Hsol.
  destruct (representable ct).
  - destruct r as [u|e]; [|unfold add_constraint in H; discriminate H].
    eapply is_solution_add_constraint; [exact Hsol|exact H|]. simpl. now rewrite He.
  - unfold raise in H. now injection H as _ <-.
Qed.

(** The variables and constraints a maintenance window adds for one
    train are satisfied by taking 0 for the two new flags. *)
Lemma maintenance_window_step a start_var end_var start_window end_window k m r m' :
  (maintenance_conflict <- NewBoolVar ("maintenance_conflict_" ++ k) ;;
   journey_overlaps <- NewBoolVar ("journey_overlaps_" ++ k) ;;
   AddOnlyEnforceIf (Cmp (Var start_var) LT (Const end_window)) [Pos journey_overlaps] ;;
   AddOnlyEnforceIf (Cmp (Var end_var) GT (Const start_window)) [Pos journey_overlaps] ;;
   AddOnlyEnforceIf (Cmp (Var end_var) LE (Const start_window)) [Pos maintenance_conflict] ;;
   AddBoolOr [Lit (Pos maintenance_conflict); Lit (Not journey_overlaps)]) m = (r, m') ->
  is_solution m a = true /\ zero_beyond m a ->
  is_solution m' a = true /\ zero_beyond m' a.
Proof.
  intros Hbody [Hsol Hz]. split.
  2:{ eapply zero_beyond_extends; [|exact Hz].
      eapply run_extends; [|exact Hbody]. grows_auto. }
  destruct (add_variable ("maintenance_conflict_" ++ k) 0 1 m) as [rc m0] eqn:H.
  destruct (add_variable ("journey_overlaps_" ++ k) 0 1 m0) as [rj m1] eqn:H0.
  unfold bind at 1, NewBoolVar at 1 in Hbody. rewrite H in Hbody.
  pose proof H as H'. unfold add_variable in H'. injection H' as <- Em0.
  unfold bind at 1, NewBoolVar at 1 in Hbody. rewrite H0 in Hbody.
  pose proof H0 as H0'. unfold add_variable in H0'. injection H0' as <- Em1.
  set (mc := List.length (variables m)) in *.
  set (jo := List.length (variables m0)) in *.
  assert (Z1 : a mc = 0) by (apply Hz; unfold mc; lia).
  assert (Z2 : a jo = 0).
  { apply Hz. unfold jo. rewrite <- Em0. simpl. rewrite length_app. lia. }
  assert (S1 : is_solution m0 a = true).
  { eapply is_solution_add_variable; [exact Hsol|exact H|]. fold mc. lia. }
  assert (S2 : is_solution m1 a = true).
  { eapply is_solution_add_variable; [exact S1|exact H0|]. fold jo. lia. }
  assert (E1 : enforced a [Pos jo] = false) by (cbn; now rewrite Z2).
  assert (E2 : enforced a [Pos mc] = false) by (cbn; now rewrite Z1).
  unfold AddBoolOr, AddBoolOrOnlyEnforceIf in Hbody. cbn [literals_of] in Hbody.
  unfold bind at 1 in Hbody.
  destruct (AddOnlyEnforceIf (Cmp (Var start_var) LT (Const end_window)) [Pos jo] m1)
    as [[u2|e2] m2] eqn:H1;
    pose proof (unenforced_constraint_keeps a _ _ _ _ _ H1 E1 S2) as S3;
    [|now injection Hbody as _ <-].
  unfold bind at 1 in Hbody.
  destruct (AddOnlyEnforceIf (Cmp (Var end_var) GT (Const start_window)) [Pos jo] m2)
    as [[u3|e3] m3] eqn:H2;
    pose proof (unenforced_constraint_keeps a _ _ _ _ _ H2 E1 S3) as S4;
    [|now injection Hbody as _ <-].
  unfold bind at 1 in Hbody.
  destruct (AddOnlyEnforceIf (Cmp (Var end_var) LE (Const start_window)) [Pos mc] m3)
    as [[u4|e4] m4] eqn:H3;
    pose proof (unenforced_constraint_keeps a _ _ _ _ _ H3 E2 S4) as S5;
    [|now injection Hbody as _ <-].
  destruct r as [u|e]; [|unfold add_constraint in Hbody; discriminate Hbody].
  eapply is_solution_add_constraint; [exact S5|exact Hbody|]. cbn. rewrite Z2.
  now rewrite orb_true_r.
Qed.

Lemma maintenance_window_keeps_solutions env v c m r m' a :
  ConstraintBuilder._add_maintenance_window_constraint env v c m = (r, m') ->
  zero_beyond m a -> is_solution m a = true -> is_solution m' a = true.
Proof.
  intros H Hz Hsol. unfold ConstraintBuilder._add_maintenance_window_constraint in H.
  unfold bind at 1, lift at 1 in H.
  destruct (ConstraintBuilder.int_parameter env _ "start_time_minutes" 0) as [sw|e1];
    [|now injection H as _ <-].
  unfold bind at 1, lift at 1 in H.
  destruct (ConstraintBuilder.int_parameter env _ "end_time_minutes" 60) as [ew|e2];
    [|now injection H as _ <-].
  cbv zeta in H.
  refine (proj1 (for_each_inv_any (fun mm => is_solution mm a = true /\ zero_beyond mm a)
                   _ _ _ _ _ _ (conj Hsol Hz) H)).
  clear. intros k m r m' HI Hbody. cbv beta in Hbody.
  unfold bind at 1, lift at 1 in Hbody.
  destruct (getitem (Variables.train_start_times v) k) as [s|e1];
    [|now injection Hbody as _ <-].
  unfold bind at 1, lift at 1 in Hbody.
  destruct (getitem (Variables.train_end_times v) k) as [n|e2];
    [|now injection Hbody as _ <-].
  eapply maintenance_window_step; eassumption.
Qed.

(** X24: a MAINTENANCE_WINDOW constraint forbids no timetable. Whatever
    its parameters, and whether its handler finishes or fails on the way,
    every solution of the model before it is a solution of the model
    after it, with 0 for the variables the handler makes. *)
Theorem a_maintenance_window_forbids_nothing env v c m r m' a :
  of_kind c "MAINTENANCE_WINDOW" ->
  ConstraintBuilder.add_constraint env v c m = (r, m') ->
  zero_beyond m a ->
  is_solution m a = true ->
  is_solution m' a = true.
Proof.
  unfold of_kind. intros Hk H Hz Hsol.
  unfold ConstraintBuilder.add_constraint in H. rewrite Hk in H.
  change (negb (mem_str (ConstraintBuilder.constraint_registry env)
                  (Str "MAINTENANCE_WINDOW" : enum_or_str ConstraintType.t)))
    with false in H.
  cbv iota zeta in H. unfold catch in H. unfold bind at 1, lift at 1 in H.
  change (ConstraintBuilder.registry_getitem env
            (Str "MAINTENANCE_WINDOW" : enum_or_str ConstraintType.t))
    with (Ok (ConstraintBuilder._add_maintenance_window_constraint env)) in H.
  cbv iota in H. unfold bind at 1 in H.
  destruct (ConstraintBuilder._add_maintenance_window_constraint env v c m)
    as [[u|e] m1] eqn:E; injection H as _ <-;
    eapply maintenance_window_keeps_solutions; eassumption.
Qed.

Lemma maintenance_window_witness :
  is_solution
    (snd (ConstraintBuilder.add_constraint (environment timeout_solver)
            (variables_of two_trains) window (model_of two_trains)))
    (named_assignment on_time (model_of two_trains)) = true.
Proof.
  apply (a_maintenance_window_forbids_nothing (environment timeout_solver)
           (variables_of two_trains) window (model_of two_trains)
           (fst (ConstraintBuilder.add_constraint (environment timeout_solver)
                   (variables_of two_trains) window (model_of two_trains)))).
  - reflexivity.
  - apply surjective_pairing.
  - intros x Hx. unfold named_assignment.
    now rewrite (proj2 (nth_error_None _ _) Hx).
  - vm_compute. reflexivity.
Defined.

(* ===================================================================== *)
(** ** C9: what a handler that raises leaves in the model *)
(* ===================================================================== *)






